(** * find-cooklang-repos: the searcher, the feed manager and the entry point

    A shallow embedding of [scripts/find-cooklang-repos.py].

    Conventions of the embedding.
    - A Python [str] is the [string] of its UTF-8 bytes.  White space is
      what [str.strip] removes: the characters of [str.isspace], of one,
      two or three bytes.
    - A Python [int] is a [Z].
    - A [dict] read with [.get] is a record of optional fields: [None] is an
      absent key (or a key holding [None], which [.get] cannot tell apart
      unless a default is given; such fields use [jfield]).
    - The [repos] dict of the searcher keeps insertion order and is an
      association list.
    - Printing, sleeping, HTTP requests and the write of the configuration
      file are events appended to a log, in program order.
    - [yaml.safe_load], [urlopen], [random] and [date.today] are the
      environment: they are arguments of the functions that use them. *)

From Stdlib Require Import ZArith String Ascii List Bool Lia Arith.
From Stdlib Require Import Permutation Sorted DecimalString.
Import ListNotations.

#[local] Open Scope string_scope.
#[local] Open Scope list_scope.
#[local] Open Scope Z_scope.

(** String concatenation, as [+] and f-strings do it. *)
Infix "+++" := String.append (right associativity, at level 60).

(** ** Python built-ins used by the script *)

Module Py.

Definition dq : ascii := "034"%char.
Definition bs : ascii := "092"%char.
Definition nl : ascii := "010"%char.

Definition chr (c : ascii) : string := String c EmptyString.

(** [str(n)] for an [int]. *)
Definition str_int (z : Z) : string := NilZero.string_of_int (Z.to_int z).

(** [str(b)] for a [bool]. *)
Definition str_bool (b : bool) : string := if b then "True" else "False".

(** [str(x)] where [x] is a string or [None]. *)
Definition str_opt (o : option string) : string :=
  match o with Some s => s | None => "None" end.

(** [str(x)] where [x] is an [int] or [None], and where it is a [bool] or
    [None]. *)
Definition str_opt_int (o : option Z) : string :=
  match o with Some z => str_int z | None => "None" end.

Definition str_opt_bool (o : option bool) : string :=
  match o with Some b => str_bool b | None => "None" end.

Definition lower_ascii (c : ascii) : ascii :=
  let n := nat_of_ascii c in
  if (Nat.leb 65 n && Nat.leb n 90)%bool then ascii_of_nat (n + 32)%nat else c.

Fixpoint lower (s : string) : string :=
  match s with
  | EmptyString => EmptyString
  | String c s' => String (lower_ascii c) (lower s')
  end.

(** Truth value of a string, and of an optional string ([None] is false). *)
Definition truthy (s : string) : bool := negb (String.eqb s "").

Definition truthy_opt (o : option string) : bool :=
  match o with Some s => truthy s | None => false end.

(** [s.startswith(p)]. *)
Definition startswith (s p : string) : bool := String.prefix p s.

(** [sub in s]. *)
Fixpoint contains (sub s : string) : bool :=
  String.prefix sub s ||
  match s with
  | EmptyString => false
  | String _ s' => contains sub s'
  end.

(** [s.replace(c, r)] for a one-character pattern [c]. *)
Fixpoint replace1 (c : ascii) (r : string) (s : string) : string :=
  match s with
  | EmptyString => EmptyString
  | String a s' =>
      if Ascii.eqb a c then r +++ replace1 c r s' else String a (replace1 c r s')
  end.

(** White space, as [str.strip] takes it: the characters for which
    [str.isspace] holds.  Those of one byte are the code points 9-13 and
    28-32. *)
Definition is_space (c : ascii) : bool :=
  let n := nat_of_ascii c in
  (Nat.leb 9 n && Nat.leb n 13) || (Nat.leb 28 n && Nat.leb n 32).

Definition byte_is (c : ascii) (n : nat) : bool := Nat.eqb (nat_of_ascii c) n.

(** The first byte of the white space characters of more than one byte. *)
Definition space_lead (c : ascii) : bool :=
  byte_is c 194 || byte_is c 225 || byte_is c 226 || byte_is c 227.

(** U+0085 and U+00A0: the bytes C2 85 and C2 A0. *)
Definition space2 (c d : ascii) : bool :=
  byte_is c 194 && (byte_is d 133 || byte_is d 160).

(** U+1680: E1 9A 80.  U+2000 to U+200A, U+2028, U+2029 and U+202F:
    E2 80 followed by 80 to 8A, A8, A9 or AF.  U+205F: E2 81 9F.
    U+3000: E3 80 80. *)
Definition space3 (c d e : ascii) : bool :=
  (byte_is c 225 && byte_is d 154 && byte_is e 128) ||
  (byte_is c 226 && byte_is d 128 &&
   ((Nat.leb 128 (nat_of_ascii e) && Nat.leb (nat_of_ascii e) 138) ||
    byte_is e 168 || byte_is e 169 || byte_is e 175)) ||
  (byte_is c 226 && byte_is d 129 && byte_is e 159) ||
  (byte_is c 227 && byte_is d 128 && byte_is e 128).

(** The text after the white space character a text starts with, [None]
    when it starts with none. *)
Definition space_prefix (s : string) : option string :=
  match s with
  | EmptyString => None
  | String c s1 =>
      if is_space c then Some s1
      else if negb (space_lead c) then None
      else
        match s1 with
        | EmptyString => None
        | String d s2 =>
            if space2 c d then Some s2
            else
              match s2 with
              | EmptyString => None
              | String e s3 => if space3 c d e then Some s3 else None
              end
        end
  end.

(** [s.lstrip()]: the text without its leading white space.  The fuel is
    the number of bytes, which is enough. *)
Fixpoint lstrip_from (fuel : nat) (s : string) : string :=
  match fuel with
  | O => s
  | S fuel' =>
      match space_prefix s with
      | Some rest => lstrip_from fuel' rest
      | None => s
      end
  end.

Definition lstrip (s : string) : string := lstrip_from (String.length s) s.

(** A text made of white space only. *)
Definition all_space (s : string) : bool := String.eqb (lstrip s) "".

(** [s.rstrip()]: the text without its trailing white space, which starts
    at the first place from which the text is white space only. *)
Fixpoint rstrip (s : string) : string :=
  match s with
  | EmptyString => EmptyString
  | String c s' => if all_space s then EmptyString else String c (rstrip s')
  end.

Definition strip (s : string) : string := lstrip (rstrip s).

(** Iterating a text file: the lines, each with its terminator (the last
    one may lack it).  The text is the one Python sees, after the
    translation of line endings. *)
Fixpoint lines_from (cur : string) (s : string) : list string :=
  match s with
  | EmptyString => match cur with EmptyString => [] | _ => [cur] end
  | String c s' =>
      if Ascii.eqb c nl then (cur +++ chr nl) :: lines_from EmptyString s'
      else lines_from (cur +++ chr c) s'
  end.

Definition readlines (text : string) : list string := lines_from EmptyString text.


(** [l[:n]] for a Python [int] [n]: a negative [n] counts from the end. *)
Definition slice_to {A : Type} (l : list A) (n : Z) : list A :=
  if n <? 0 then firstn (Z.to_nat (Z.of_nat (length l) + n)) l
  else firstn (Z.to_nat n) l.

End Py.

(** ** Events *)

Inductive event : Type :=
| Stdout (line : string)
| Stderr (line : string)
| UrlOpen (page : Z) (url : string) (verified : bool)
| Sleep (seconds : Z)
| WriteFile (text : string).

(** ** The search API *)

(** A field of a JSON object read with [.get(key, default)]: absent, [null],
    or a value. *)
Inductive jfield (A : Type) : Type :=
| Absent
| Null
| Val (a : A).
Arguments Absent {A}.
Arguments Null {A}.
Arguments Val {A} a.

(** [d.get(key, default)]. *)
Definition get_default {A : Type} (f : jfield A) (d : A) : option A :=
  match f with
  | Absent => Some d
  | Null => None
  | Val a => Some a
  end.

(** The [repository] object of a search result item.  [full_name] and
    [html_url] are read with [.get(key)]: absent and [null] both give
    [None].  [stargazers_count] is an integer or absent. *)
Record repository : Type := mkRepository {
  repo_full_name : option string;
  repo_html_url : option string;
  repo_description : jfield string;
  repo_default_branch : jfield string;
  repo_stargazers_count : option Z;
  repo_language : jfield string
}.

(** The empty object [{}], the default of [item.get("repository", {})]. *)
Definition empty_repository : repository :=
  mkRepository None None Absent Absent None Absent.

Record item : Type := mkItem {
  item_repository : option repository
}.

Record results : Type := mkResults {
  total_count : option Z;
  items : option (list item)
}.

(** What [urlopen] followed by [json.loads] can do. *)
Inductive exn : Type :=
| HTTPError (code : Z) (msg : string) (body : string)
| URLError (reason : string)
| OtherError (text : string).

Definition str_exn (e : exn) : string :=
  match e with
  | HTTPError code msg _ => "HTTP Error " +++ Py.str_int code +++ ": " +++ msg
  | URLError reason => "<urlopen error " +++ reason +++ ">"
  | OtherError text => text
  end.

(** The network: what a request for a page answers, with certificate
    verification ([true]) and without it ([false]). *)
Definition network : Type := Z -> bool -> exn + results.

(** A repository record, the dict built by the searcher. *)
Record repo : Type := mkRepo {
  url : option string;
  full_name : string;
  description : option string;
  default_branch : option string;
  stars : Z;
  language : option string
}.

Module GitHubSearcher.

Definition api_base : string := "https://api.github.com".

(** [_make_request]: the answer or the exception raised, and what was
    printed and requested on the way. *)
Definition _make_request (net : network) (page : Z) (url : string)
  : (exn + results) * list event :=
  match net page true with
  | inr r => (inr r, [UrlOpen page url true])
  | inl (HTTPError code msg body) =>
      (inl (HTTPError code msg body),
       [UrlOpen page url true;
        Stderr ("GitHub API Error: " +++ Py.str_int code +++ " - " +++ body)])
  | inl (URLError reason) =>
      if Py.contains "CERTIFICATE_VERIFY_FAILED" (str_exn (URLError reason)) then
        (net page false,
         [UrlOpen page url true;
          Stderr (Py.chr Py.nl +++ "⚠️  SSL Certificate Error!");
          Stderr "On macOS, you may need to install certificates:";
          Stderr ("  Run: /Applications/Python" +++ Py.chr Py.bs +++ " 3.*/Install"
                  +++ Py.chr Py.bs +++ " Certificates.command");
          Stderr (Py.chr Py.nl +++
                  "Alternatively, install the 'requests' library for better SSL handling:");
          Stderr "  pip3 install requests";
          Stderr (Py.chr Py.nl +++ "Retrying with relaxed SSL verification..."
                  +++ Py.chr Py.nl);
          UrlOpen page url false])
      else (inl (URLError reason), [UrlOpen page url true])
  | inl e => (inl e, [UrlOpen page url true])
  end.

(** The dict stored for a repository seen for the first time. *)
Definition record_of (name : string) (r : repository) : repo :=
  {| url := repo_html_url r;
     full_name := name;
     description := get_default (repo_description r) "";
     default_branch := get_default (repo_default_branch r) "main";
     stars := match repo_stargazers_count r with Some n => n | None => 0 end;
     language := get_default (repo_language r) "" |}.

(** [name in repos]. *)
Definition has_key (name : string) (repos : list (string * repo)) : bool :=
  existsb (fun kv => String.eqb (fst kv) name) repos.

(** The [for item in items] loop, with its [break]. *)
Fixpoint scan_items (its : list item) (repos : list (string * repo)) (max_repos : Z)
  : list (string * repo) :=
  match its with
  | [] => repos
  | it :: rest =>
      let r := match item_repository it with Some r => r | None => empty_repository end in
      let repo_full_name := repo_full_name r in
      match repo_full_name with
      | Some name =>
          if (Py.truthy name && negb (has_key name repos))%bool then
            let repos' := repos ++ [(name, record_of name r)] in
            if Z.of_nat (length repos') >=? max_repos then repos'
            else scan_items rest repos' max_repos
          else scan_items rest repos max_repos
      | None => scan_items rest repos max_repos
      end
  end.

Definition per_page : Z := 100.
Definition encoded_query : string := "extension%3Acook".

Definition page_url (page : Z) : string :=
  api_base +++ "/search/code?q=" +++ encoded_query +++ "&per_page="
           +++ Py.str_int per_page +++ "&page=" +++ Py.str_int page.

(** The [while] loop.  [fuel] bounds the number of iterations; [None] is
    the loop still running when the fuel is spent. *)
Fixpoint search_loop (fuel : nat) (net : network) (max_repos max_pages : Z)
    (repos : list (string * repo)) (page : Z) (log : list event)
  : option (list (string * repo) * list event) :=
  if ((page <=? max_pages) && (Z.of_nat (length repos) <? max_repos))%bool then
    match fuel with
    | O => None
    | S fuel' =>
        let url := page_url page in
        match _make_request net page url with
        | (inl e, evs) =>
            Some (repos,
                  log ++ evs ++
                  [Stderr ("Error on page " +++ Py.str_int page +++ ": " +++ str_exn e)])
        | (inr res, evs) =>
            let total_count := match total_count res with Some n => n | None => 0 end in
            let items := match items res with Some l => l | None => [] end in
            let first :=
              if page =? 1 then
                [Stdout ("GitHub found " +++ Py.str_int total_count +++ " total code files");
                 Stdout ("Fetching up to "
                         +++ Py.str_int (Z.min (max_pages * per_page) total_count)
                         +++ " results across " +++ Py.str_int max_pages +++ " pages...")]
              else [] in
            match items with
            | [] =>
                Some (repos,
                      log ++ evs ++ first ++
                      [Stdout ("No more results after page " +++ Py.str_int (page - 1))])
            | _ :: _ =>
                let repos' := scan_items items repos max_repos in
                search_loop fuel' net max_repos max_pages repos' (page + 1)
                  (log ++ evs ++ first ++
                   [Stdout ("  Page " +++ Py.str_int page +++ ": Found "
                            +++ Py.str_int (Z.of_nat (length items)) +++ " files, "
                            +++ Py.str_int (Z.of_nat (length repos'))
                            +++ " unique repos so far");
                    Sleep 1])
            end
        end
    end
  else Some (repos, log).

(** [search_repos_with_cook_files]: the records in insertion order, and the
    log.  The loop runs at most [max_pages] times, which is the fuel. *)
Definition search_repos_with_cook_files (net : network) (max_repos max_pages : Z)
  : option (list repo * list event) :=
  match search_loop (Z.to_nat max_pages) net max_repos max_pages [] 1
          [Stdout "Searching GitHub with query: extension:cook"] with
  | Some (repos, log) =>
      Some (map snd repos,
            log ++ [Stdout ("Found " +++ Py.str_int (Z.of_nat (length repos))
                            +++ " unique repositories with .cook files")])
  | None => None
  end.

End GitHubSearcher.

(** ** The configuration document *)

(** An entry of [feeds], read with [.get].  [enabled] and [tags] are read
    with a default, which tells an absent key from a key that holds [None]:
    [tags: ] with nothing after it, as [save_config] writes an entry without
    tags, is read back as such a key. *)
Record feed : Type := mkFeed {
  feed_url : option string;
  feed_title : option string;
  feed_type : option string;
  feed_branch : option string;
  feed_enabled : jfield bool;
  feed_tags : jfield (list string);
  feed_notes : option string;
  feed_added_by : option string;
  feed_added_at : option string
}.

(** The dict [yaml.safe_load] returns.  [version] is read with a default;
    for [feeds], [None] is an absent key.  A document that is no dict, or
    whose [feeds] is no list of entries (a [feeds] that holds [None]
    included), is outside this type. *)
Record config : Type := mkConfig {
  version : jfield Z;
  feeds : option (list feed)
}.

Definition option_string_eqb (a b : option string) : bool :=
  match a, b with
  | Some x, Some y => String.eqb x y
  | None, None => true
  | _, _ => false
  end.

Module FeedManager.

Record t : Type := mk {
  config_path : string;
  cfg : config;
  header_lines : list string;
  footer_lines : list string
}.

(** [_extract_header], on the lines of the file. *)
Fixpoint extract_header_lines (lines : list string) : list string :=
  match lines with
  | [] => []
  | line :: rest =>
      let stripped := Py.strip line in
      if (Py.startswith stripped "#" || negb (Py.truthy stripped))%bool then
        Py.rstrip line :: extract_header_lines rest
      else if Py.startswith stripped "version:" then []
      else []
  end.

Definition _extract_header (text : string) : list string :=
  extract_header_lines (Py.readlines text).

(** [_extract_footer], on the lines of the file; [in_validation] is the
    flag of the loop. *)
Fixpoint extract_footer_lines (in_validation : bool) (lines : list string)
  : list string :=
  match lines with
  | [] => []
  | line :: rest =>
      let stripped := Py.strip line in
      if (Py.startswith stripped "# Validation configuration" || in_validation)%bool then
        Py.rstrip line :: extract_footer_lines true rest
      else if Py.startswith stripped "validation:" then
        Py.rstrip line :: extract_footer_lines true rest
      else extract_footer_lines in_validation rest
  end.

Definition _extract_footer (text : string) : list string :=
  extract_footer_lines false (Py.readlines text).

(** [__init__]: [None] when [yaml.safe_load] raises. *)
Definition init (safe_load : string -> option config) (path text : string)
  : option t :=
  match safe_load text with
  | Some c => Some (mk path c (_extract_header text) (_extract_footer text))
  | None => None
  end.

Definition _escape_yaml_string (s : option string) : string :=
  match s with
  | None => ""
  | Some s => Py.replace1 Py.dq (Py.chr Py.bs +++ Py.chr Py.dq) s
  end.

Definition NL : string := Py.chr Py.nl.
Definition DQ : string := Py.chr Py.dq.

Definition write_lines (lines : list string) : string :=
  fold_right (fun line acc => line +++ NL +++ acc) "" lines.

Definition write_tags (tags : list string) : string :=
  fold_right (fun tag acc => "      - " +++ tag +++ NL +++ acc) "" tags.

(** [feed.get("tags", [])]: [None] is Python's [None], over which the
    [for] raises [TypeError]. *)
Definition tags_of (fd : feed) : option (list string) :=
  get_default (feed_tags fd) [].

(** The body of the loop over [feeds] in [save_config], up to the loop over
    the tags. *)
Definition write_feed_head (fd : feed) : string :=
  "  - url: " +++ DQ +++ _escape_yaml_string (feed_url fd) +++ DQ +++ NL +++
  "    title: " +++ DQ +++ _escape_yaml_string (feed_title fd) +++ DQ +++ NL +++
  "    feed_type: " +++ Py.str_opt (feed_type fd) +++ NL +++
  (match feed_branch fd with
   | Some branch =>
       if Py.truthy branch then "    branch: " +++ DQ +++ branch +++ DQ +++ NL else ""
   | None => ""
   end) +++
  "    enabled: " +++
    Py.lower (Py.str_opt_bool (get_default (feed_enabled fd) true))
    +++ NL +++
  "    tags:" +++ NL.

(** The body of the loop after the loop over the tags. *)
Definition write_feed_tail (fd : feed) : string :=
  "    notes: " +++ DQ +++ _escape_yaml_string (feed_notes fd) +++ DQ +++ NL +++
  "    added_by: " +++ DQ +++ _escape_yaml_string (feed_added_by fd) +++ DQ +++ NL +++
  "    added_at: " +++ DQ +++ _escape_yaml_string (feed_added_at fd) +++ DQ +++ NL.

(** The body of the loop over [feeds] when it runs to its end, without the
    comment before the first entry and the blank line between entries.
    With a [tags] that holds [None] it does not run to its end: see
    [write_feeds_run]. *)
Definition write_feed (fd : feed) : string :=
  write_feed_head fd +++
  write_tags (match tags_of fd with Some l => l | None => [] end) +++
  write_feed_tail fd.

(** [for i, feed in enumerate(feeds)], from index [i], when every
    iteration runs to its end; [len] is [len(feeds)]. *)
Fixpoint write_feeds (i len : Z) (fds : list feed) : string :=
  match fds with
  | [] => ""
  | fd :: rest =>
      (if i =? 0 then "  # GitHub repository feed" +++ NL else "") +++
      write_feed fd +++
      (if i <? len - 1 then NL else "") +++
      write_feeds (i + 1) len rest
  end.

(** [self.config.get('version', 1)], as the f-string prints it. *)
Definition version_text (c : config) : string :=
  Py.str_opt_int (get_default (version c) 1).

(** What [save_config] writes to the file when it runs to its end. *)
Definition save_text (m : t) : string :=
  (match header_lines m with
   | [] => ""
   | _ :: _ => write_lines (header_lines m) +++ NL
   end) +++
  "version: " +++ version_text (cfg m) +++ NL +++ NL +++
  "feeds:" +++ NL +++
  (let feeds := match feeds (cfg m) with Some l => l | None => [] end in
   write_feeds 0 (Z.of_nat (length feeds)) feeds) +++
  (match footer_lines m with
   | [] => ""
   | _ :: _ => NL +++ NL +++ NL +++ write_lines (footer_lines m)
   end).

(** The loop over [feeds] as it runs: what it writes, and [false] when it
    ends on the [TypeError] of a [tags] that holds [None], after the line
    [tags:] of that entry. *)
Fixpoint write_feeds_run (i len : Z) (fds : list feed) : string * bool :=
  match fds with
  | [] => ("", true)
  | fd :: rest =>
      let lead := if i =? 0 then "  # GitHub repository feed" +++ NL else "" in
      match tags_of fd with
      | None => (lead +++ write_feed_head fd, false)
      | Some _ =>
          let (text, ok) := write_feeds_run (i + 1) len rest in
          (lead +++ write_feed fd +++ (if i <? len - 1 then NL else "") +++ text, ok)
      end
  end.

(** The body of [save_config]: what is written to the file, and [false]
    when the exception leaves the [with], which closes the file with what
    was written so far. *)
Definition save_run (m : t) : string * bool :=
  let head :=
    (match header_lines m with
     | [] => ""
     | _ :: _ => write_lines (header_lines m) +++ NL
     end) +++
    "version: " +++ version_text (cfg m) +++ NL +++ NL +++
    "feeds:" +++ NL in
  let feeds := match feeds (cfg m) with Some l => l | None => [] end in
  match write_feeds_run 0 (Z.of_nat (length feeds)) feeds with
  | (text, true) =>
      (head +++ text +++
       (match footer_lines m with
        | [] => ""
        | _ :: _ => NL +++ NL +++ NL +++ write_lines (footer_lines m)
        end), true)
  | (text, false) => (head +++ text, false)
  end.

(** [save_config]: the write of the file, and whether the call returns
    ([false]: it raises [TypeError]). *)
Definition save_config (m : t) : list event * bool :=
  ([WriteFile (fst (save_run m))], snd (save_run m)).

Definition is_feed_exists (m : t) (repo_url : option string) : bool :=
  let feeds := match feeds (cfg m) with Some l => l | None => [] end in
  existsb (fun fd => option_string_eqb (feed_url fd) repo_url) feeds.

Definition new_feed (r : repo) (added_by today : string) : feed :=
  {| feed_url := url r;
     feed_title :=
       Some (if Py.truthy_opt (description r)
             then match description r with Some d => d | None => "" end
             else full_name r +++ " recipes");
     feed_type := Some "github";
     feed_branch := default_branch r;
     feed_enabled := Val true;
     feed_tags := Val ["cookbook"; "github"];
     feed_notes := Some ("Found via GitHub search (⭐ " +++ Py.str_int (stars r) +++ ")");
     feed_added_by := Some added_by;
     feed_added_at := Some today |}.

(** [add_feed]: the value returned, the manager after the call, and what
    was printed.  [today] is [str(date.today())]. *)
Definition add_feed (m : t) (r : repo) (added_by today : string)
  : bool * t * list event :=
  if is_feed_exists m (url r) then
    (false, m, [Stdout ("  ⏭️  Skipping " +++ full_name r +++ " (already exists)")])
  else
    let c := cfg m in
    let c1 := match feeds c with
              | Some _ => c
              | None => {| version := version c; feeds := Some [] |}
              end in
    let c2 := {| version := version c1;
                 feeds := Some (match feeds c1 with Some l => l | None => [] end
                                ++ [new_feed r added_by today]) |} in
    (true,
     mk (config_path m) c2 (header_lines m) (footer_lines m),
     [Stdout ("  ✅ Added " +++ full_name r +++ " (⭐ " +++ Py.str_int (stars r) +++ ")")]).

(** [self.config.get("feeds", [])]. *)
Definition feed_list (m : t) : list feed :=
  match feeds (cfg m) with Some l => l | None => [] end.

(** [add_feed] for each record in turn, keeping the manager. *)
Definition add_feeds (m : t) (rs : list repo) (added_by today : string) : t :=
  fold_left (fun m r => snd (fst (add_feed m r added_by today))) rs m.

End FeedManager.

(** ** The entry point *)

Record args : Type := mkArgs {
  token : option string;
  limit : Z;
  max_pages : Z;
  randomize : bool;
  dry_run : bool;
  added_by : string
}.

(** What the process runs in: the configuration file ([None] when there is
    none at the path), the YAML parser ([None] when it raises), the network,
    [random.shuffle] and [str(date.today())]. *)
Record env : Type := mkEnv {
  env_config_path : string;
  env_config_file : option string;
  env_safe_load : string -> option config;
  env_net : network;
  env_shuffle : list repo -> list repo;
  env_today : string
}.

(** How the process ends: [sys.exit(code)] (a plain return is [Exit 0]) or
    an exception nobody catches. *)
Inductive status : Type :=
| Exit (code : Z)
| Uncaught.

(** [repos.sort(key=lambda r: r["stars"], reverse=True)]: a stable sort,
    descending by stars. *)
Fixpoint insert_by_stars (x : repo) (l : list repo) : list repo :=
  match l with
  | [] => [x]
  | y :: ys => if stars y >? stars x then y :: insert_by_stars x ys else x :: y :: ys
  end.

Definition sort_by_stars (l : list repo) : list repo :=
  fold_right insert_by_stars [] l.

(** Orders of the candidates by stars. *)
Definition stars_ge (x y : repo) : Prop := stars x >= stars y.
Definition stars_gt (x y : repo) : Prop := stars x > stars y.

(** The selection step of [main]. *)
Definition select (shuffle : list repo -> list repo) (randomize : bool) (limit : Z)
    (repos : list repo) : list repo :=
  if randomize then Py.slice_to (shuffle repos) limit
  else Py.slice_to (sort_by_stars repos) limit.

(** The loop [for repo in repos] of [main]. *)
Fixpoint process_repos (a : args) (today : string) (repos : list repo)
    (m : FeedManager.t) (added_count : Z) (log : list event)
  : FeedManager.t * Z * list event :=
  match repos with
  | [] => (m, added_count, log)
  | r :: rest =>
      if dry_run a then
        if negb (FeedManager.is_feed_exists m (url r)) then
          process_repos a today rest m (added_count + 1)
            (log ++ [Stdout ("  [DRY RUN] Would add " +++ full_name r +++ " (⭐ "
                             +++ Py.str_int (stars r) +++ ")")])
        else
          process_repos a today rest m added_count
            (log ++ [Stdout ("  [DRY RUN] Would skip " +++ full_name r
                             +++ " (already exists)")])
      else
        match FeedManager.add_feed m r (added_by a) today with
        | (true, m', evs) => process_repos a today rest m' (added_count + 1) (log ++ evs)
        | (false, m', evs) => process_repos a today rest m' added_count (log ++ evs)
        end
  end.

(** [main]: how the process ends and its log; [None] only if the search
    loop were still running when its fuel is spent.  The search raises
    nothing here (a failed request ends its loop, and the answers are
    typed: a [total_count] or a [repository] that holds [None] is outside
    [results]), so the [except] around it in [main] has no case.  After the
    search, [save_config] is what can raise. *)
Definition main (a : args) (e : env) : option (status * list event) :=
  if negb (Py.truthy_opt (token a)) then
    Some (Exit 1,
          [Stderr "⚠️  WARNING: GitHub Code Search API requires authentication!";
           Stderr "Please provide a GitHub token with --token option.";
           Stderr "Create one at: https://github.com/settings/tokens";
           Stderr ("The token only needs 'public_repo' scope." +++ Py.chr Py.nl)])
  else
    match env_config_file e with
    | None =>
        Some (Exit 1, [Stderr ("Error: Config file not found at " +++ env_config_path e)])
    | Some text =>
        let log0 := [Stdout ("Using config file: " +++ env_config_path e); Stdout ""] in
        match FeedManager.init (env_safe_load e) (env_config_path e) text with
        | None => Some (Uncaught, log0)
        | Some feed_manager =>
            let max_repos_to_fetch := limit a * 5 in
            match GitHubSearcher.search_repos_with_cook_files (env_net e)
                    max_repos_to_fetch (max_pages a) with
            | None => None
            | Some (repos, slog) =>
                let log1 := log0 ++ slog in
                match repos with
                | [] => Some (Exit 0, log1 ++ [Stdout "No repositories found."])
                | _ :: _ =>
                    let repos := select (env_shuffle e) (randomize a) (limit a) repos in
                    let log2 :=
                      if randomize a then
                        log1 ++ [Stdout "Randomizing repository selection..."; Stdout "";
                                 Stdout ("Processing " +++ Py.str_int (Z.of_nat (length repos))
                                         +++ " randomly selected repositories...")]
                      else
                        log1 ++ [Stdout "";
                                 Stdout ("Processing top "
                                         +++ Py.str_int (Z.of_nat (length repos))
                                         +++ " repositories (sorted by stars)...")] in
                    let log3 := log2 ++ [Stdout ""] in
                    match process_repos a (env_today e) repos feed_manager 0 log3 with
                    | (m, added_count, log4) =>
                        if (negb (dry_run a) && (added_count >? 0))%bool then
                          match FeedManager.save_config m with
                          | (evs, true) =>
                              Some (Exit 0,
                                    log4 ++ evs ++
                                    [Stdout "";
                                     Stdout ("✨ Successfully added "
                                             +++ Py.str_int added_count
                                             +++ " new feed(s) to " +++ env_config_path e)])
                          | (evs, false) => Some (Uncaught, log4 ++ evs)
                          end
                        else if dry_run a then
                          Some (Exit 0,
                                log4 ++
                                [Stdout "";
                                 Stdout ("[DRY RUN] Would add " +++ Py.str_int added_count
                                         +++ " new feed(s)")])
                        else
                          Some (Exit 0, log4 ++ [Stdout ""; Stdout "No new feeds to add."])
                    end
                end
            end
        end
    end.

(** The content of the configuration file once the log has happened. *)
Fixpoint file_after (text : option string) (log : list event) : option string :=
  match log with
  | [] => text
  | WriteFile t :: rest => file_after (Some t) rest
  | _ :: rest => file_after text rest
  end.

Definition writes (log : list event) : list string :=
  flat_map (fun ev => match ev with WriteFile t => [t] | _ => [] end) log.

(** * The searcher: what the loop computes *)

Module SearchSpec.
Import GitHubSearcher.

(** The answer of [_make_request] for a page. *)
Definition request (net : network) (p : Z) : exn + results :=
  fst (_make_request net p (page_url p)).

(** The items of a page that answers with a non-empty [items]; [None] for
    a failed request and for a page without items. *)
Definition page_items (net : network) (p : Z) : option (list item) :=
  match request net p with
  | inr res =>
      match items res with
      | Some (it :: its) => Some (it :: its)
      | _ => None
      end
  | inl _ => None
  end.

(** The pages read one after the other from page [p], at most [n] of them,
    up to the first that fails or is empty. *)
Fixpoint good_pages (net : network) (n : nat) (p : Z) : list (list item) :=
  match n with
  | O => []
  | S n' =>
      match page_items net p with
      | Some l => l :: good_pages net n' (p + 1)
      | None => []
      end
  end.

(** The items of the [n] pages from page [p]. *)
Fixpoint items_range (net : network) (p : Z) (n : nat) : list item :=
  match n with
  | O => []
  | S n' =>
      match page_items net p with Some l => l | None => [] end
      ++ items_range net (p + 1) n'
  end.

(** The entries the items of a page stand for: one for each item whose
    repository has a non-empty [full_name]. *)
Definition valid_records (its : list item) : list (string * repo) :=
  flat_map
    (fun it =>
       let r := match item_repository it with Some r => r | None => empty_repository end in
       match repo_full_name r with
       | Some name => if Py.truthy name then [(name, record_of name r)] else []
       | None => []
       end) its.

(** Keeping the first entry of each key, in order of first appearance. *)
Definition add_new (acc : list (string * repo)) (kv : string * repo)
  : list (string * repo) :=
  if has_key (fst kv) acc then acc else acc ++ [kv].

Definition merge (acc l : list (string * repo)) : list (string * repo) :=
  fold_left add_new l acc.

Definition collected (its : list item) : list (string * repo) :=
  merge [] (valid_records its).

Definition cap {A : Type} (m : Z) (l : list A) : list A := firstn (Z.to_nat m) l.

(** The pages asked for, in order, one for each call of [_make_request]
    (its second attempt, without verification, is part of the same call). *)
Definition requested_pages (log : list event) : list Z :=
  flat_map (fun ev => match ev with UrlOpen p _ true => [p] | _ => [] end) log.

(** The test of the [while] loop. *)
Definition loop_test (max_repos max_pages : Z) (repos : list (string * repo)) (page : Z)
  : bool :=
  ((page <=? max_pages) && (Z.of_nat (length repos) <? max_repos))%bool.

(** The items of the pages the search reads when it is not stopped by
    [max_repos]: pages 1, 2, ... up to [max_pages], ending before the
    first page that fails or has no items. *)
Definition consumed (net : network) (max_pages : Z) : list item :=
  concat (good_pages net (Z.to_nat max_pages) 1).

(** The names of a list in order of first appearance, each once; [seen]
    holds the names met so far. *)
Definition seen_in (name : string) (seen : list string) : bool :=
  existsb (fun s => String.eqb s name) seen.

Fixpoint first_seen (seen : list string) (names : list string) : list string :=
  match names with
  | [] => []
  | n :: rest =>
      if seen_in n seen then first_seen seen rest
      else n :: first_seen (seen ++ [n]) rest
  end.

(** A network where every request succeeds: page [p] (from 1) answers with
    the [p]-th list of [pages], and with no items beyond. *)
Definition page_of (pages : list (list item)) (p : Z) : list item :=
  if p <? 1 then [] else nth (Z.to_nat (p - 1)) pages [].

Definition net_of_pages (total : Z) (pages : list (list item)) : network :=
  fun p _ => inr {| total_count := Some total; items := Some (page_of pages p) |}.

(** The items of the pages before page [p]. *)
Definition items_before (pages : list (list item)) (p : Z) : list item :=
  concat (firstn (Z.to_nat (p - 1)) pages).

End SearchSpec.

(** * The header and the footer of the file, as they stand in it *)

Module ConfigSpec.
Import FeedManager.


(** A line that belongs to the header: a comment or a blank line. *)
Definition is_header_line (line : string) : bool :=
  let stripped := Py.strip line in
  (Py.startswith stripped "#" || negb (Py.truthy stripped))%bool.

(** The lines of the header, terminators and trailing white space included:
    the comment and blank lines the file starts with. *)
Fixpoint header_region_lines (lines : list string) : list string :=
  match lines with
  | [] => []
  | line :: rest => if is_header_line line then line :: header_region_lines rest else []
  end.

(** A line that opens the footer. *)
Definition is_footer_start (line : string) : bool :=
  let stripped := Py.strip line in
  (Py.startswith stripped "# Validation configuration"
   || Py.startswith stripped "validation:")%bool.

(** The lines of the footer: from the first line that opens it to the end of
    the file. *)
Fixpoint footer_region_lines (lines : list string) : list string :=
  match lines with
  | [] => []
  | line :: rest => if is_footer_start line then line :: rest else footer_region_lines rest
  end.




Definition has_lines (l : list string) : bool :=
  match l with [] => false | _ :: _ => true end.

(** What [save_config] writes between the header and the footer: the
    separators, the version and the entries. *)
Definition middle_text (c : config) (has_header has_footer : bool) : string :=
  (if has_header then NL else "") +++
  "version: " +++ version_text c +++ NL +++ NL +++
  "feeds:" +++ NL +++
  (let feeds := match feeds c with Some l => l | None => [] end in
   write_feeds 0 (Z.of_nat (length feeds)) feeds) +++
  (if has_footer then NL +++ NL +++ NL else "").

(** Reading the body of a double-quoted scalar from left to right, where a
    backslash takes the next character with it: [true] when a double quote
    is met on its own, which ends the scalar before the body does, or when
    the body ends on a backslash, which takes the closing quote. *)
Fixpoint breaks_quoted_scalar (body : string) : bool :=
  match body with
  | EmptyString => false
  | String c rest =>
      if Ascii.eqb c Py.bs then
        match rest with
        | EmptyString => true
        | String _ rest' => breaks_quoted_scalar rest'
        end
      else if Ascii.eqb c Py.dq then true
      else breaks_quoted_scalar rest
  end.

(** [c in s] for a character. *)
Fixpoint has_char (c : ascii) (s : string) : bool :=
  match s with
  | EmptyString => false
  | String a rest => (Ascii.eqb a c || has_char c rest)%bool
  end.

(** The entries of a document, and two lists with the same entries, in any
    order. *)
Definition entries_of (c : config) : list feed :=
  match feeds c with Some l => l | None => [] end.

Definition same_entries (l1 l2 : list feed) : Prop :=
  forall fd, In fd l1 <-> In fd l2.

End ConfigSpec.

(** * Traces *)

Module TraceSpec.

(** The requests made without certificate verification. *)
Definition unverified_requests (log : list event) : list Z :=
  flat_map (fun ev => match ev with UrlOpen p _ false => [p] | _ => [] end) log.

(** The number of calls of [urlopen]. *)
Definition urlopen_count (log : list event) : nat :=
  length (flat_map (fun ev => match ev with UrlOpen _ _ _ => [tt] | _ => [] end) log).

(** What goes to the error stream. *)
Definition stderr_lines (log : list event) : list string :=
  flat_map (fun ev => match ev with Stderr l => [l] | _ => [] end) log.

(** Whether a sleep of a second or more has passed since the last page
    request, [rested] being the answer before the log. *)
Fixpoint rested_after (rested : bool) (log : list event) : bool :=
  match log with
  | [] => rested
  | UrlOpen _ _ true :: rest => rested_after false rest
  | Sleep s :: rest => rested_after (if 1 <=? s then true else rested) rest
  | _ :: rest => rested_after rested rest
  end.

(** No page request follows another one without such a sleep in between. *)
Fixpoint well_spaced (rested : bool) (log : list event) : bool :=
  match log with
  | [] => true
  | UrlOpen _ _ true :: rest => (rested && well_spaced false rest)%bool
  | Sleep s :: rest => well_spaced (if 1 <=? s then true else rested) rest
  | _ :: rest => well_spaced rested rest
  end.

(** The names of the repositories of a list of items: those that are
    present and not empty. *)
Definition item_name (it : item) : option string :=
  match item_repository it with
  | Some r =>
      match repo_full_name r with
      | Some name => if Py.truthy name then Some name else None
      | None => None
      end
  | None => None
  end.

End TraceSpec.

(** * Undoing the escape *)

Module EscapeSpec.

(** Reading back what [_escape_yaml_string] wrote: a backslash followed by a
    double quote is the double quote; every other character is itself. *)
Fixpoint unescape_quotes (s : string) : string :=
  match s with
  | EmptyString => EmptyString
  | String c rest =>
      if Ascii.eqb c Py.bs then
        match rest with
        | String d rest' =>
            if Ascii.eqb d Py.dq then String Py.dq (unescape_quotes rest')
            else String c (unescape_quotes rest)
        | EmptyString => String c EmptyString
        end
      else String c (unescape_quotes rest)
  end.

(** The separator [save_config] writes before an entry that is not the
    first, and the comment it writes before the first. *)
Definition entry_lead (before : list feed) : string :=
  match before with
  | [] => "  # GitHub repository feed" +++ FeedManager.NL
  | _ :: _ => FeedManager.NL
  end.

(** What [save_config] writes after the entries. *)
Definition footer_text (m : FeedManager.t) : string :=
  match FeedManager.footer_lines m with
  | [] => ""
  | _ :: _ => FeedManager.NL +++ FeedManager.NL +++ FeedManager.NL
              +++ FeedManager.write_lines (FeedManager.footer_lines m)
  end.

End EscapeSpec.

(** * The run as a whole *)

Module RunSpec.

(** The runs that end before the search: without a token, without the
    configuration file, or with a file the parser refuses; [None] for the
    other runs. *)
Definition early_exit (a : args) (e : env) : option status :=
  if negb (Py.truthy_opt (token a)) then Some (Exit 1)
  else
    match env_config_file e with
    | None => Some (Exit 1)
    | Some text =>
        match env_safe_load e text with
        | None => Some Uncaught
        | Some _ => None
        end
    end.

(** An entry whose [tags] is a list, or absent, and a document that has
    only such entries. *)
Definition has_tags (fd : feed) : bool :=
  match FeedManager.tags_of fd with Some _ => true | None => false end.

Definition savable (m : FeedManager.t) : bool :=
  forallb has_tags (FeedManager.feed_list m).

(** The candidates whose url is not in the document. *)
Definition new_candidates (m : FeedManager.t) (repos : list repo) : list repo :=
  filter (fun r => negb (FeedManager.is_feed_exists m (url r))) repos.

End RunSpec.

(** * The lines kept from the file *)

Module LineSpec.

(** A line as [_extract_header] and [_extract_footer] keep it: without
    white space at its end and without line feed. *)
Definition kept_line (l : string) : Prop :=
  Py.rstrip l = l /\ ConfigSpec.has_char Py.nl l = false.

(** A line of the header: empty, or a comment after its leading white
    space. *)
Definition header_like (l : string) : Prop :=
  l = "" \/ Py.startswith (Py.lstrip l) "#" = true.

(** A line that opens the footer, once kept. *)
Definition footer_opening (l : string) : Prop :=
  Py.startswith (Py.lstrip l) "# Validation configuration" = true \/
  Py.startswith (Py.lstrip l) "validation:" = true.

(** The header of the text written for a document that has one: its lines
    and one empty line more. *)
Definition header_after_save (header : list string) : list string :=
  match header with
  | [] => []
  | _ :: _ => header ++ [""]
  end.

End LineSpec.

(** * The text written, line by line *)

Module SavedSpec.
Import FeedManager.










End SavedSpec.

(** * What the search reports *)

Module ReportSpec.
Import GitHubSearcher.

(** The line the search prints to the error stream when the request for a
    page raises. *)
Definition failure_report (p : Z) (e : exn) : string :=
  "Error on page " +++ Py.str_int p +++ ": " +++ str_exn e.

(** The lines of the error stream that report a failed page. *)
Definition error_reports (log : list event) : list string :=
  filter (fun l => Py.startswith l "Error on page ") (TraceSpec.stderr_lines log).

(** One report for each page of a list whose request raises. *)
Definition expected_reports (net : network) (pages : list Z) : list string :=
  flat_map (fun p => match SearchSpec.request net p with
                     | inl e => [failure_report p e]
                     | inr _ => []
                     end) pages.

(** The last line of the search on the standard output. *)
Definition found_line (n : nat) : event :=
  Stdout ("Found " +++ Py.str_int (Z.of_nat n) +++ " unique repositories with .cook files").

End ReportSpec.

(** * Sample runs *)

Module Samples.

Definition repository_of (name : string) (n : Z) : repository :=
  {| repo_full_name := Some name;
     repo_html_url := Some ("https://github.com/" +++ name);
     repo_description := Null;
     repo_default_branch := Val "main";
     repo_stargazers_count := Some n;
     repo_language := Absent |}.

Definition item_of (name : string) (n : Z) : item :=
  {| item_repository := Some (repository_of name n) |}.

(** A network that refuses every request: the token is not accepted. *)
Definition unauthorized : network :=
  fun _ _ => inl (HTTPError 401 "Unauthorized" "Bad credentials").

(** Two pages; the repository [a/b] matches three times. *)
Definition two_pages : list (list item) :=
  [[item_of "a/b" 3; item_of "c/d" 9; item_of "a/b" 4];
   [item_of "e/f" 1; item_of "a/b" 5]].

Definition small_file : string :=
  "# Feeds" +++ Py.chr Py.nl +++
  "version: 1" +++ Py.chr Py.nl +++
  "feeds: []" +++ Py.chr Py.nl.

Definition small_config : config := {| version := Val 1; feeds := Some [] |}.

Definition run_args : args :=
  {| token := Some "ghp_token"; limit := 10; max_pages := 10;
     randomize := false; dry_run := false; added_by := "@bot" |}.

Definition env_with (net : network) : env :=
  {| env_config_path := "config/feeds.yaml";
     env_config_file := Some small_file;
     env_safe_load := fun _ => Some small_config;
     env_net := net;
     env_shuffle := fun l => rev l;
     env_today := "2025-01-01" |}.

Definition no_feeds_manager : FeedManager.t :=
  FeedManager.mk "config/feeds.yaml" {| version := Val 1; feeds := None |} [] [].

Definition sample_repo : repo :=
  {| url := Some "https://github.com/a/b"; full_name := "a/b";
     description := Some ""; default_branch := Some "main";
     stars := 7; language := None |}.

Definition candidates : list repo :=
  map (fun ns => {| url := Some ("https://github.com/" +++ fst ns); full_name := fst ns;
                    description := None; default_branch := Some "main";
                    stars := snd ns; language := None |})
      [("a/a", 3); ("b/b", 40); ("c/c", 0); ("d/d", 12); ("e/e", 7)].


(** A file with a header, no entry and a footer. *)
Definition framed_file : string :=
  "# Feeds" +++ Py.chr Py.nl +++
  Py.chr Py.nl +++
  "version: 1" +++ Py.chr Py.nl +++
  "feeds: []" +++ Py.chr Py.nl +++
  "# Validation configuration" +++ Py.chr Py.nl +++
  "validation:" +++ Py.chr Py.nl +++
  "  max_feeds: 100" +++ Py.chr Py.nl.

(** An entry whose branch name holds a double quote. *)
Definition quoted_branch : string := "rel" +++ Py.chr Py.dq +++ "ease".

Definition quoted_branch_feed : feed :=
  {| feed_url := Some "https://github.com/a/b";
     feed_title := Some "a/b recipes";
     feed_type := Some "github";
     feed_branch := Some quoted_branch;
     feed_enabled := Val true;
     feed_tags := Val ["cookbook"];
     feed_notes := Some "none";
     feed_added_by := Some "@bot";
     feed_added_at := Some "2025-01-01" |}.

(** A repository whose description holds a backslash. *)
Definition backslash_description : string := "C:" +++ Py.chr Py.bs +++ "recipes".

Definition backslash_repo : repo :=
  {| url := Some "https://github.com/a/b"; full_name := "a/b";
     description := Some backslash_description; default_branch := Some "main";
     stars := 7; language := None |}.

Definition small_manager : FeedManager.t :=
  FeedManager.mk "config/feeds.yaml" small_config ["# Feeds"] [].

(** A text between double quotes, and a list of lines as one text. *)
Definition quoted (s : string) : string := Py.chr Py.dq +++ s +++ Py.chr Py.dq.

Definition text_of (lines : list string) : string :=
  fold_right (fun l acc => l +++ Py.chr Py.nl +++ acc) "" lines.

(** What [save_config] writes for the entry with the quoted branch. *)
Definition quoted_branch_entry_text : string :=
  text_of
    ["  - url: " +++ quoted "https://github.com/a/b";
     "    title: " +++ quoted "a/b recipes";
     "    feed_type: github";
     "    branch: " +++ quoted quoted_branch;
     "    enabled: true";
     "    tags:";
     "      - cookbook";
     "    notes: " +++ quoted "none";
     "    added_by: " +++ quoted "@bot";
     "    added_at: " +++ quoted "2025-01-01"].

(** What [save_config] writes once the repository with the backslash in its
    description is added to the small document. *)
Definition backslash_saved_text : string :=
  text_of
    ["# Feeds";
     "";
     "version: 1";
     "";
     "feeds:";
     "  # GitHub repository feed";
     "  - url: " +++ quoted "https://github.com/a/b";
     "    title: " +++ quoted backslash_description;
     "    feed_type: github";
     "    branch: " +++ quoted "main";
     "    enabled: true";
     "    tags:";
     "      - cookbook";
     "      - github";
     "    notes: " +++ quoted "Found via GitHub search (⭐ 7)";
     "    added_by: " +++ quoted "@bot";
     "    added_at: " +++ quoted "2025-01-01"].

(** Two entries, and one entry whose branch holds the text that
    [save_config] writes between the branch of the first and the branch of
    the second. *)
Definition first_entry : feed :=
  {| feed_url := Some "https://github.com/a/b"; feed_title := Some "a/b recipes";
     feed_type := Some "github"; feed_branch := Some "trunk";
     feed_enabled := Val true; feed_tags := Val ["cookbook"];
     feed_notes := Some "first"; feed_added_by := Some "@bot";
     feed_added_at := Some "2025-01-01" |}.

Definition second_entry : feed :=
  {| feed_url := Some "https://github.com/c/d"; feed_title := Some "c/d recipes";
     feed_type := Some "github"; feed_branch := Some "main";
     feed_enabled := Val true; feed_tags := Val ["cookbook"];
     feed_notes := Some "second"; feed_added_by := Some "@bot";
     feed_added_at := Some "2025-02-02" |}.

Definition spanning_branch : string :=
  "trunk" +++ Py.chr Py.dq +++ Py.chr Py.nl +++
  text_of
    ["    enabled: true";
     "    tags:";
     "      - cookbook";
     "    notes: " +++ quoted "first";
     "    added_by: " +++ quoted "@bot";
     "    added_at: " +++ quoted "2025-01-01";
     "";
     "  - url: " +++ quoted "https://github.com/c/d";
     "    title: " +++ quoted "c/d recipes";
     "    feed_type: github"] +++
  "    branch: " +++ Py.chr Py.dq +++ "main".

Definition spanning_entry : feed :=
  {| feed_url := Some "https://github.com/a/b"; feed_title := Some "a/b recipes";
     feed_type := Some "github"; feed_branch := Some spanning_branch;
     feed_enabled := Val true; feed_tags := Val ["cookbook"];
     feed_notes := Some "second"; feed_added_by := Some "@bot";
     feed_added_at := Some "2025-02-02" |}.

Definition two_entries_manager : FeedManager.t :=
  FeedManager.mk "config/feeds.yaml"
    {| version := Val 1; feeds := Some [first_entry; second_entry] |} ["# Feeds"] [].

Definition spanning_manager : FeedManager.t :=
  FeedManager.mk "config/feeds.yaml"
    {| version := Val 1; feeds := Some [spanning_entry] |} ["# Feeds"] [].

(** A network whose certificate cannot be verified: the first attempt fails
    on it, the second one answers with the page. *)
Definition bad_certificate : network :=
  fun p verified =>
    if verified then
      inl (URLError "[SSL: CERTIFICATE_VERIFY_FAILED] certificate verify failed")
    else inr {| total_count := Some 3;
                items := Some (SearchSpec.page_of two_pages p) |}.

(** An entry read back from [tags:] with nothing after it: the key holds
    [None]. *)
Definition null_tags_entry : feed :=
  {| feed_url := Some "https://github.com/e/f";
     feed_title := Some "e/f recipes";
     feed_type := Some "github";
     feed_branch := Some "main";
     feed_enabled := Val true;
     feed_tags := Null;
     feed_notes := Some "third";
     feed_added_by := Some "@bot";
     feed_added_at := Some "2025-03-03" |}.

Definition null_tags_manager : FeedManager.t :=
  FeedManager.mk "config/feeds.yaml"
    {| version := Val 1; feeds := Some [null_tags_entry; first_entry] |}
    ["# Feeds"] ["validation:"; "  max_feeds: 100"].

Definition null_tags_written : string :=
  text_of
    ["# Feeds";
     "";
     "version: 1";
     "";
     "feeds:";
     "  # GitHub repository feed";
     "  - url: " +++ quoted "https://github.com/e/f";
     "    title: " +++ quoted "e/f recipes";
     "    feed_type: github";
     "    branch: " +++ quoted "main";
     "    enabled: true";
     "    tags:"].

End Samples.

(** * Theorems *)

Import GitHubSearcher SearchSpec.

(** ** Merging entries *)

Lemma has_key_app name l kv :
  has_key name (l ++ [kv]) = (has_key name l || String.eqb (fst kv) name)%bool.
Proof.
  unfold has_key. rewrite existsb_app. simpl. now rewrite orb_false_r.
Qed.

Lemma has_key_In name l :
  has_key name l = true <-> In name (map fst l).
Proof.
  unfold has_key. rewrite existsb_exists. split.
  - intros [kv [Hin Heq]]. apply String.eqb_eq in Heq. subst.
    now apply in_map.
  - intros Hin. apply in_map_iff in Hin. destruct Hin as [kv [Heq Hin]].
    exists kv. split; [assumption|]. now apply String.eqb_eq.
Qed.

Lemma merge_extends l : forall acc, exists extra, merge acc l = acc ++ extra.
Proof.
  unfold merge. induction l as [|kv l IH]; intros acc; cbn [fold_left].
  - exists []. now rewrite app_nil_r.
  - unfold add_new at 2. destruct (has_key (fst kv) acc).
    + apply IH.
    + destruct (IH (acc ++ [kv])) as [extra Hex]. exists (kv :: extra).
      rewrite Hex. now rewrite <- app_assoc.
Qed.

Lemma merge_app acc l1 l2 : merge acc (l1 ++ l2) = merge (merge acc l1) l2.
Proof. unfold merge. apply fold_left_app. Qed.

Lemma merge_length_ge acc l : (length acc <= length (merge acc l))%nat.
Proof.
  destruct (merge_extends l acc) as [extra ->]. rewrite length_app. lia.
Qed.

Lemma cap_all {A : Type} m (l : list A) :
  (length l <= Z.to_nat m)%nat -> cap m l = l.
Proof. intros H. unfold cap. now apply firstn_all2. Qed.

Lemma cap_app_full {A : Type} m (l extra : list A) :
  (Z.to_nat m <= length l)%nat -> cap m (l ++ extra) = cap m l.
Proof.
  intros H. unfold cap. rewrite firstn_app.
  replace (Z.to_nat m - length l)%nat with 0%nat by lia.
  simpl. now rewrite app_nil_r.
Qed.

Lemma cap_length {A : Type} m (l : list A) :
  length (cap m l) = Nat.min (Z.to_nat m) (length l).
Proof. unfold cap. apply length_firstn. Qed.

Lemma cap_length_lt {A : Type} m (l : list A) :
  Z.of_nat (length (cap m l)) < m <-> Z.of_nat (length l) < m.
Proof. rewrite cap_length. lia. Qed.

Lemma cap_merge m acc l : cap m (merge (cap m acc) l) = cap m (merge acc l).
Proof.
  destruct (Nat.le_gt_cases (length acc) (Z.to_nat m)) as [Hle|Hgt].
  - now rewrite (cap_all m acc Hle).
  - destruct (merge_extends l (cap m acc)) as [e1 ->].
    destruct (merge_extends l acc) as [e2 ->].
    rewrite !cap_app_full; try lia.
    + unfold cap. now rewrite firstn_firstn, Nat.min_id.
    + rewrite cap_length. lia.
Qed.

(** The loop over the items of a page adds the new entries of the page, up
    to [max_repos] entries in all. *)
Lemma scan_items_spec its : forall repos max_repos,
  Z.of_nat (length repos) < max_repos ->
  scan_items its repos max_repos = cap max_repos (merge repos (valid_records its)).
Proof.
  induction its as [|it its IH]; intros repos max_repos Hlt.
  - simpl. symmetry. apply cap_all. lia.
  - cbn [scan_items valid_records flat_map].
    fold (valid_records its).
    set (r := match item_repository it with Some r => r | None => empty_repository end).
    destruct (repo_full_name r) as [name|]; [|now apply IH].
    destruct (Py.truthy name); cbn [andb]; [|now apply IH].
    cbn [app merge fold_left]. unfold add_new at 2. cbn [fst].
    destruct (has_key name repos); cbn [negb]; [now apply IH|].
    fold (merge (repos ++ [(name, record_of name r)]) (valid_records its)).
    assert (Hlen : length (repos ++ [(name, record_of name r)]) = S (length repos))
      by (rewrite length_app; simpl; lia).
    destruct (Z.of_nat (length (repos ++ [(name, record_of name r)])) >=? max_repos)
      eqn:Hge.
    + rewrite Z.geb_leb in Hge. apply Z.leb_le in Hge.
      destruct (merge_extends (valid_records its) (repos ++ [(name, record_of name r)]))
        as [extra ->].
      rewrite cap_app_full by lia.
      symmetry. apply cap_all. lia.
    + rewrite Z.geb_leb in Hge. apply Z.leb_gt in Hge. apply IH. lia.
Qed.

(** ** One turn of the loop *)

Lemma requested_pages_app l1 l2 :
  requested_pages (l1 ++ l2) = requested_pages l1 ++ requested_pages l2.
Proof. unfold requested_pages. apply flat_map_app. Qed.

Lemma writes_app l1 l2 : writes (l1 ++ l2) = writes l1 ++ writes l2.
Proof. unfold writes. apply flat_map_app. Qed.

Lemma make_request_events net p u :
  requested_pages (snd (_make_request net p u)) = [p] /\
  writes (snd (_make_request net p u)) = [].
Proof.
  unfold _make_request.
  destruct (net p true) as [[code msg body|reason|text]|r]; try (split; reflexivity).
  destruct (Py.contains _ _); split; reflexivity.
Qed.

Lemma loop_test_true max_repos max_pages repos page :
  loop_test max_repos max_pages repos page = true <->
  page <= max_pages /\ Z.of_nat (length repos) < max_repos.
Proof.
  unfold loop_test. rewrite andb_true_iff, Z.leb_le, Z.ltb_lt. tauto.
Qed.

Lemma search_loop_stop fuel net max_repos max_pages repos page log :
  loop_test max_repos max_pages repos page = false ->
  search_loop fuel net max_repos max_pages repos page log = Some (repos, log).
Proof.
  unfold loop_test. intros H. destruct fuel; simpl; now rewrite H.
Qed.

Lemma search_loop_step fuel net max_repos max_pages repos page log :
  loop_test max_repos max_pages repos page = true ->
  exists evs,
    requested_pages evs = [page] /\ writes evs = [] /\
    match page_items net page with
    | None =>
        search_loop (S fuel) net max_repos max_pages repos page log
        = Some (repos, log ++ evs)
    | Some l =>
        search_loop (S fuel) net max_repos max_pages repos page log
        = search_loop fuel net max_repos max_pages
            (scan_items l repos max_repos) (page + 1) (log ++ evs)
    end.
Proof.
  unfold loop_test. intros H. cbn [search_loop]. rewrite H.
  unfold page_items, request.
  destruct (make_request_events net page (page_url page)) as [Hr Hw].
  destruct (_make_request net page (page_url page)) as [[e|res] evs]; cbn [fst snd] in *.
  - eexists (evs ++ [_]). split; [|split]; [| |reflexivity];
      rewrite ?requested_pages_app, ?writes_app, ?Hr, ?Hw; reflexivity.
  - destruct (items res) as [[|it its]|];
      (eexists (evs ++ _ ++ _); split; [|split]; [| |reflexivity];
       rewrite ?requested_pages_app, ?writes_app, ?Hr, ?Hw;
       destruct (page =? 1); reflexivity).
Qed.

(** ** The whole loop *)

Lemma valid_records_app l1 l2 :
  valid_records (l1 ++ l2) = valid_records l1 ++ valid_records l2.
Proof. unfold valid_records. apply flat_map_app. Qed.

Lemma loop_test_false max_repos max_pages repos page :
  loop_test max_repos max_pages repos page = false ->
  max_pages < page \/ max_repos <= Z.of_nat (length repos).
Proof.
  unfold loop_test. rewrite andb_false_iff, Z.leb_gt, Z.ltb_ge. tauto.
Qed.

(** With one unit of fuel for each page up to [max_pages] the loop ends, with
    the first [max_repos] entries of the pages it read. *)
Lemma search_loop_result net max_repos max_pages : forall fuel repos page log,
  (Z.to_nat (max_pages + 1 - page) <= fuel)%nat ->
  (length repos <= Z.to_nat max_repos)%nat ->
  exists log',
    search_loop fuel net max_repos max_pages repos page log
    = Some (cap max_repos
              (merge repos
                 (valid_records
                    (concat (good_pages net (Z.to_nat (max_pages + 1 - page)) page)))),
            log')
    /\ writes log' = writes log.
Proof.
  induction fuel as [|fuel IH]; intros repos page log Hfuel Hlen;
    destruct (loop_test max_repos max_pages repos page) eqn:Ht.
  - apply loop_test_true in Ht. lia.
  - rewrite (search_loop_stop _ _ _ _ _ _ _ Ht). exists log. split; [|reflexivity].
    f_equal. f_equal. symmetry.
    apply loop_test_false in Ht. destruct Ht as [Ht|Ht].
    + replace (Z.to_nat (max_pages + 1 - page)) with 0%nat by lia.
      simpl. apply cap_all. assumption.
    + destruct (merge_extends
                  (valid_records
                     (concat (good_pages net (Z.to_nat (max_pages + 1 - page)) page)))
                  repos) as [extra ->].
      rewrite cap_app_full by lia. apply cap_all. assumption.
  - destruct (search_loop_step fuel net _ _ _ _ log Ht) as [evs [_ [Hw Hstep]]].
    apply loop_test_true in Ht. destruct Ht as [Hp Hr].
    replace (Z.to_nat (max_pages + 1 - page))
      with (S (Z.to_nat (max_pages + 1 - (page + 1)))) by lia.
    cbn [good_pages].
    destruct (page_items net page) as [l|].
    + rewrite Hstep.
      destruct (IH (scan_items l repos max_repos) (page + 1) (log ++ evs)) as [log' [He Hw']].
      * lia.
      * rewrite scan_items_spec by assumption. rewrite cap_length. lia.
      * exists log'. split.
        -- rewrite He. f_equal. f_equal.
           rewrite scan_items_spec by assumption. rewrite cap_merge.
           cbn [concat]. now rewrite valid_records_app, merge_app.
        -- rewrite Hw', writes_app, Hw. apply app_nil_r.
    + rewrite Hstep. exists (log ++ evs). split.
      * f_equal. f_equal. simpl. symmetry. apply cap_all. assumption.
      * rewrite writes_app, Hw. apply app_nil_r.
  - rewrite (search_loop_stop _ _ _ _ _ _ _ Ht). exists log. split; [|reflexivity].
    f_equal. f_equal. symmetry.
    apply loop_test_false in Ht. destruct Ht as [Ht|Ht].
    + replace (Z.to_nat (max_pages + 1 - page)) with 0%nat by lia.
      simpl. apply cap_all. assumption.
    + destruct (merge_extends
                  (valid_records
                     (concat (good_pages net (Z.to_nat (max_pages + 1 - page)) page)))
                  repos) as [extra ->].
      rewrite cap_app_full by lia. apply cap_all. assumption.
Qed.

Lemma merge_cap_lt m acc l :
  Z.of_nat (length (merge (cap m acc) l)) < m <-> Z.of_nat (length (merge acc l)) < m.
Proof.
  rewrite <- (cap_length_lt m (merge (cap m acc) l)), cap_merge.
  apply cap_length_lt.
Qed.

(** The pages the loop asks for: page [p] is requested exactly when every
    page before it had items and fewer than [max_repos] entries had been
    collected when its turn came. *)
Lemma search_loop_requests net max_repos max_pages : forall fuel repos page log R log',
  (Z.to_nat (max_pages + 1 - page) <= fuel)%nat ->
  search_loop fuel net max_repos max_pages repos page log = Some (R, log') ->
  forall p,
    In p (requested_pages log') <->
    In p (requested_pages log) \/
    (page <= p <= max_pages /\
     (forall q, page <= q < p -> page_items net q <> None) /\
     Z.of_nat (length (merge repos
                         (valid_records (items_range net page (Z.to_nat (p - page))))))
     < max_repos).
Proof.
  induction fuel as [|fuel IH]; intros repos page log R log' Hfuel Hrun p;
    destruct (loop_test max_repos max_pages repos page) eqn:Ht;
    try (apply loop_test_true in Ht; lia).
  1, 3: rewrite (search_loop_stop _ _ _ _ _ _ _ Ht) in Hrun; inversion Hrun; subst R log';
    apply loop_test_false in Ht; split; [tauto|]; intros [H|[Hp [_ Hlen]]]; [assumption|];
    destruct Ht as [Ht|Ht]; [lia|];
    pose proof (merge_length_ge repos
                  (valid_records (items_range net page (Z.to_nat (p - page))))); lia.
  destruct (search_loop_step fuel net _ _ _ _ log Ht) as [evs [Hr [_ Hstep]]].
  apply loop_test_true in Ht. destruct Ht as [Hp Hlt].
  destruct (page_items net page) as [l|] eqn:Hpage.
  - rewrite Hstep in Hrun.
    assert (Hf : (Z.to_nat (max_pages + 1 - (page + 1)) <= fuel)%nat) by lia.
    rewrite (IH _ _ _ _ _ Hf Hrun p).
    rewrite requested_pages_app, Hr, in_app_iff. cbn [In].
    rewrite scan_items_spec by assumption.
    split.
    + intros [[H|[H|[]]]|[Hp' [Hq Hlen]]].
      * now left.
      * right. subst p. split; [lia|]. split; [intros q Hq; lia|].
        rewrite Z.sub_diag. simpl. assumption.
      * right. split; [lia|]. split.
        -- intros q Hq'. destruct (Z.eq_dec q page) as [->|Hne].
           ++ rewrite Hpage. discriminate.
           ++ apply Hq. lia.
        -- replace (Z.to_nat (p - page)) with (S (Z.to_nat (p - (page + 1)))) by lia.
           cbn [items_range]. rewrite Hpage, valid_records_app, merge_app.
           exact (proj1 (merge_cap_lt _ _ _) Hlen).
    + intros [H|[Hp' [Hq Hlen]]]; [now left; left|].
      destruct (Z.eq_dec p page) as [->|Hne]; [left; right; now left|].
      right. split; [lia|]. split; [intros q Hq'; apply Hq; lia|].
      replace (Z.to_nat (p - page)) with (S (Z.to_nat (p - (page + 1)))) in Hlen by lia.
      cbn [items_range] in Hlen. rewrite Hpage, valid_records_app, merge_app in Hlen.
      exact (proj2 (merge_cap_lt _ _ _) Hlen).
  - rewrite Hstep in Hrun. inversion Hrun; subst R log'.
    rewrite requested_pages_app, Hr, in_app_iff. cbn [In].
    split.
    + intros [H|[H|[]]]; [now left|]. right. subst p.
      split; [lia|]. split; [intros q Hq; lia|].
      rewrite Z.sub_diag. simpl. assumption.
    + intros [H|[Hp' [Hq Hlen]]]; [now left|].
      destruct (Z.eq_dec p page) as [->|Hne]; [right; now left|].
      exfalso. apply (Hq page); [lia|assumption].
Qed.

Lemma search_loop_request_count net max_repos max_pages :
  forall fuel repos page log R log',
  search_loop fuel net max_repos max_pages repos page log = Some (R, log') ->
  (length (requested_pages log')
   <= length (requested_pages log) + Z.to_nat (max_pages + 1 - page))%nat.
Proof.
  induction fuel as [|fuel IH]; intros repos page log R log' Hrun;
    destruct (loop_test max_repos max_pages repos page) eqn:Ht.
  - unfold loop_test in Ht. simpl in Hrun. rewrite Ht in Hrun. discriminate.
  - rewrite (search_loop_stop _ _ _ _ _ _ _ Ht) in Hrun. inversion Hrun; subst R log'. lia.
  - destruct (search_loop_step fuel net _ _ _ _ log Ht) as [evs [Hr [_ Hstep]]].
    apply loop_test_true in Ht. destruct Ht as [Hp Hlt].
    destruct (page_items net page) as [l|].
    + rewrite Hstep in Hrun. apply IH in Hrun.
      rewrite requested_pages_app, length_app, Hr in Hrun. simpl in Hrun. lia.
    + rewrite Hstep in Hrun. inversion Hrun; subst R log'.
      rewrite requested_pages_app, length_app, Hr. simpl. lia.
  - rewrite (search_loop_stop _ _ _ _ _ _ _ Ht) in Hrun. inversion Hrun; subst R log'. lia.
Qed.

(** ** The search as a whole *)

Lemma search_result net max_repos max_pages :
  exists log,
    search_repos_with_cook_files net max_repos max_pages
    = Some (map snd (cap max_repos (collected (consumed net max_pages))), log)
    /\ writes log = []
    /\ (forall p,
          In p (requested_pages log) <->
          1 <= p <= max_pages /\
          (forall q, 1 <= q < p -> page_items net q <> None) /\
          Z.of_nat (length (collected (items_range net 1 (Z.to_nat (p - 1))))) < max_repos)
    /\ Z.of_nat (length (requested_pages log)) <= Z.max 0 max_pages.
Proof.
  unfold search_repos_with_cook_files.
  destruct (search_loop_result net max_repos max_pages (Z.to_nat max_pages) [] 1
              [Stdout "Searching GitHub with query: extension:cook"])
    as [log' [Hrun Hw]].
  - lia.
  - simpl. lia.
  - replace (max_pages + 1 - 1) with max_pages in Hrun by lia.
    assert (Hf : (Z.to_nat (max_pages + 1 - 1) <= Z.to_nat max_pages)%nat) by lia.
    pose proof (search_loop_requests net max_repos max_pages _ _ _ _ _ _ Hf Hrun) as Hreq.
    pose proof (search_loop_request_count net max_repos max_pages _ _ _ _ _ _ Hrun) as Hcnt.
    rewrite Hrun. eexists. split; [reflexivity|].
    split; [|split].
    + rewrite writes_app, Hw. reflexivity.
    + intros p. rewrite requested_pages_app, in_app_iff, Hreq. simpl.
      unfold collected. tauto.
    + rewrite requested_pages_app, length_app. simpl in *. lia.
Qed.

(** ** One entry for each name, the first one, in order of first appearance *)

Lemma has_key_seen name acc : has_key name acc = seen_in name (map fst acc).
Proof.
  unfold has_key, seen_in. induction acc as [|kv acc IH]; simpl; [reflexivity|].
  now rewrite IH.
Qed.

Lemma merge_keys l : forall acc,
  map fst (merge acc l) = map fst acc ++ first_seen (map fst acc) (map fst l).
Proof.
  unfold merge. induction l as [|kv l IH]; intros acc; cbn [fold_left map first_seen].
  - now rewrite app_nil_r.
  - unfold add_new at 2. rewrite <- has_key_seen.
    destruct (has_key (fst kv) acc).
    + apply IH.
    + rewrite IH, map_app. cbn [map]. now rewrite <- app_assoc.
Qed.

Lemma merge_NoDup l : forall acc,
  NoDup (map fst acc) -> NoDup (map fst (merge acc l)).
Proof.
  unfold merge. induction l as [|kv l IH]; intros acc Hnd; cbn [fold_left].
  - assumption.
  - apply IH. unfold add_new. destruct (has_key (fst kv) acc) eqn:Hk; [assumption|].
    rewrite map_app. apply NoDup_app; [assumption|repeat constructor; intros []|].
    intros a Ha [<-|[]]. apply has_key_In in Ha. congruence.
Qed.

Lemma merge_In l : forall acc kv,
  In kv (merge acc l) -> In kv acc \/ In kv l.
Proof.
  unfold merge. induction l as [|kv0 l IH]; intros acc kv Hin; cbn [fold_left] in Hin.
  - now left.
  - apply IH in Hin. destruct Hin as [Hin|Hin]; [|right; now right].
    unfold add_new in Hin. destruct (has_key (fst kv0) acc); [now left|].
    apply in_app_iff in Hin. destruct Hin as [Hin|[<-|[]]]; [now left|right; now left].
Qed.

(** An entry of the merged list that was not there before is the first entry
    of the input with its key. *)
Lemma merge_first l : forall acc k v,
  In (k, v) (merge acc l) ->
  In (k, v) acc \/
  (has_key k acc = false /\ find (fun kv => String.eqb (fst kv) k) l = Some (k, v)).
Proof.
  unfold merge. induction l as [|kv0 l IH]; intros acc k v Hin; cbn [fold_left] in Hin.
  - now left.
  - apply IH in Hin. unfold add_new in Hin. cbn [find].
    destruct (has_key (fst kv0) acc) eqn:Hk0.
    + destruct Hin as [Hin|[Hk Hf]]; [now left|]. right. split; [assumption|].
      destruct (String.eqb (fst kv0) k) eqn:He; [|assumption].
      apply String.eqb_eq in He. congruence.
    + destruct Hin as [Hin|[Hk Hf]].
      * apply in_app_iff in Hin. destruct Hin as [Hin|[Heq|[]]]; [now left|].
        subst kv0. right. cbn [fst] in *. split; [assumption|].
        now rewrite String.eqb_refl.
      * rewrite has_key_app in Hk. apply orb_false_iff in Hk. destruct Hk as [Hk He].
        right. split; [assumption|]. now rewrite He.
Qed.

Lemma valid_records_name its kv :
  In kv (valid_records its) -> full_name (snd kv) = fst kv.
Proof.
  unfold valid_records. rewrite in_flat_map. intros [it [_ Hin]].
  destruct (repo_full_name _) as [name|]; [|contradiction].
  destruct (Py.truthy name); [|contradiction].
  destruct Hin as [<-|[]]. reflexivity.
Qed.

Lemma collected_name its kv :
  In kv (collected its) -> full_name (snd kv) = fst kv.
Proof.
  intros Hin. apply merge_In in Hin. destruct Hin as [[]|Hin].
  now apply valid_records_name in Hin.
Qed.

Lemma cap_In {A : Type} m (l : list A) x : In x (cap m l) -> In x l.
Proof.
  unfold cap. intros Hin. rewrite <- (firstn_skipn (Z.to_nat m) l).
  apply in_app_iff. now left.
Qed.

Lemma cap_NoDup {A : Type} m (l : list A) : NoDup l -> NoDup (cap m l).
Proof.
  unfold cap. intros Hnd. rewrite <- (firstn_skipn (Z.to_nat m) l) in Hnd.
  now apply NoDup_app_remove_r in Hnd.
Qed.

Lemma cap_map {A B : Type} (f : A -> B) m (l : list A) : map f (cap m l) = cap m (map f l).
Proof. unfold cap. symmetry. apply firstn_map. Qed.

Lemma names_of_entries (l : list (string * repo)) :
  (forall kv, In kv l -> full_name (snd kv) = fst kv) ->
  map full_name (map snd l) = map fst l.
Proof.
  intros H. rewrite map_map. apply map_ext_in. exact H.
Qed.

(** ** Pages read before a page that fails or is empty *)

Lemma good_pages_until net : forall k n q,
  (k < n)%nat ->
  (forall i, q <= i < q + Z.of_nat k -> page_items net i <> None) ->
  page_items net (q + Z.of_nat k) = None ->
  concat (good_pages net n q) = items_range net q k.
Proof.
  induction k as [|k IH]; intros n q Hlt Hgood Hbad; destruct n as [|n]; try lia.
  - cbn [good_pages items_range]. rewrite Z.add_0_r in Hbad. now rewrite Hbad.
  - cbn [good_pages items_range].
    destruct (page_items net q) as [l|] eqn:Hq.
    + cbn [concat]. f_equal. apply IH.
      * lia.
      * intros i Hi. apply Hgood. lia.
      * replace (q + 1 + Z.of_nat k) with (q + Z.of_nat (S k)) by lia. assumption.
    + exfalso. apply (Hgood q); [lia|assumption].
Qed.

Lemma request_net_of_pages total pages p :
  request (net_of_pages total pages) p
  = inr {| total_count := Some total; items := Some (page_of pages p) |}.
Proof. reflexivity. Qed.

Lemma page_items_net_of_pages total pages p :
  page_items (net_of_pages total pages) p
  = match page_of pages p with [] => None | l => Some l end.
Proof.
  unfold page_items. rewrite request_net_of_pages. cbn [items].
  now destruct (page_of pages p).
Qed.

Lemma page_items_none_iff total pages p :
  page_items (net_of_pages total pages) p = None <-> page_of pages p = [].
Proof.
  rewrite page_items_net_of_pages. destruct (page_of pages p); split; congruence.
Qed.

Lemma items_range_net_of_pages total pages : forall n k,
  items_range (net_of_pages total pages) (1 + Z.of_nat k) n
  = concat (firstn n (skipn k pages)).
Proof.
  induction n as [|n IH]; intros k; cbn [items_range]; [reflexivity|].
  rewrite page_items_net_of_pages.
  replace (1 + Z.of_nat k + 1) with (1 + Z.of_nat (S k)) by lia. rewrite IH.
  unfold page_of. replace (1 + Z.of_nat k <? 1) with false by (symmetry; apply Z.ltb_ge; lia).
  replace (Z.to_nat (1 + Z.of_nat k - 1)) with k by lia.
  assert (Hr : skipn (S k) pages = skipn 1 (skipn k pages))
    by (rewrite skipn_skipn; reflexivity).
  assert (Hn : nth k pages [] = nth 0 (skipn k pages) [])
    by (rewrite nth_skipn; f_equal; lia).
  rewrite Hr, Hn.
  destruct (skipn k pages) as [|pg rest]; cbn [nth skipn firstn concat].
  - now rewrite firstn_nil.
  - now destruct pg.
Qed.

Lemma items_range_before total pages p :
  items_range (net_of_pages total pages) 1 (Z.to_nat (p - 1)) = items_before pages p.
Proof.
  unfold items_before.
  change 1 with (1 + Z.of_nat 0) at 1. rewrite items_range_net_of_pages. reflexivity.
Qed.

(** ** The entry point always ends *)

Lemma main_total a e : exists st log, main a e = Some (st, log).
Proof.
  unfold main.
  destruct (negb (Py.truthy_opt (token a))); [eexists; eexists; reflexivity|].
  destruct (env_config_file e) as [text|]; [|eexists; eexists; reflexivity].
  destruct (FeedManager.init _ _ text) as [m|]; [|eexists; eexists; reflexivity].
  destruct (search_result (env_net e) (limit a * 5) (max_pages a)) as [slog [He _]].
  rewrite He.
  destruct (map snd _) as [|r rs]; [eexists; eexists; reflexivity|].
  destruct (process_repos _ _ _ _ _ _) as [[m' added] log4].
  destruct (negb (dry_run a) && (added >? 0))%bool.
  - unfold FeedManager.save_config.
    destruct (snd (FeedManager.save_run m')); eexists; eexists; reflexivity.
  - destruct (dry_run a); eexists; eexists; reflexivity.
Qed.

(** ** The entry point when nothing is found *)

Lemma file_after_no_write log : forall text,
  writes log = [] -> file_after text log = text.
Proof.
  induction log as [|ev log IH]; intros text Hw; [reflexivity|].
  destruct ev; cbn [file_after]; try (apply IH; exact Hw).
  discriminate.
Qed.

Lemma main_no_repos a e text m slog :
  Py.truthy_opt (token a) = true ->
  env_config_file e = Some text ->
  FeedManager.init (env_safe_load e) (env_config_path e) text = Some m ->
  search_repos_with_cook_files (env_net e) (limit a * 5) (max_pages a) = Some ([], slog) ->
  main a e
  = Some (Exit 0,
          ([Stdout ("Using config file: " +++ env_config_path e); Stdout ""] ++ slog)
          ++ [Stdout "No repositories found."]).
Proof.
  intros Ht Hf Hi Hs. unfold main. rewrite Ht, Hf, Hi, Hs. reflexivity.
Qed.

Lemma main_no_repos_summary a e text m slog :
  Py.truthy_opt (token a) = true ->
  env_config_file e = Some text ->
  FeedManager.init (env_safe_load e) (env_config_path e) text = Some m ->
  search_repos_with_cook_files (env_net e) (limit a * 5) (max_pages a) = Some ([], slog) ->
  exists log,
    main a e = Some (Exit 0, log) /\
    last log (Stdout "") = Stdout "No repositories found." /\
    writes log = [] /\
    file_after (Some text) log = Some text.
Proof.
  intros Ht Hf Hi Hs. rewrite (main_no_repos a e text m slog Ht Hf Hi Hs).
  eexists. split; [reflexivity|].
  assert (Hw : writes slog = []).
  { destruct (search_result (env_net e) (limit a * 5) (max_pages a)) as [log [He [Hw _]]].
    rewrite He in Hs. now inversion Hs; subst. }
  assert (Hall : writes (([Stdout ("Using config file: " +++ env_config_path e); Stdout ""]
                          ++ slog) ++ [Stdout "No repositories found."]) = []).
  { rewrite !writes_app, Hw. reflexivity. }
  split; [apply last_last|]. split; [exact Hall|].
  now apply file_after_no_write.
Qed.

(** * The claims about the searcher *)

(** C5. The records the search returns have pairwise different
    [full_name]s; each of them is the record built from the first item with
    its name among the items of the pages read; and their names come in
    order of first appearance. *)
Theorem C5_search_keeps_first_occurrence (net : network) (max_repos max_pages : Z) :
  exists out log,
    search_repos_with_cook_files net max_repos max_pages = Some (out, log) /\
    NoDup (map full_name out) /\
    (forall r, In r out ->
       find (fun kv => String.eqb (fst kv) (full_name r))
            (valid_records (consumed net max_pages))
       = Some (full_name r, r)) /\
    map full_name out
    = cap max_repos (first_seen [] (map fst (valid_records (consumed net max_pages)))).
Proof.
  destruct (search_result net max_repos max_pages) as [log [He _]].
  eexists. exists log. split; [exact He|].
  assert (Hnames :
    map full_name (map snd (cap max_repos (collected (consumed net max_pages))))
    = map fst (cap max_repos (collected (consumed net max_pages)))).
  { apply names_of_entries. intros kv Hin. apply cap_In in Hin.
    now apply (collected_name (consumed net max_pages)). }
  split; [|split].
  - rewrite Hnames, cap_map. apply cap_NoDup.
    unfold collected. apply merge_NoDup. constructor.
  - intros r Hin. apply in_map_iff in Hin. destruct Hin as [[k v] [Hr Hin]].
    cbn [snd] in Hr. subst v. apply cap_In in Hin.
    pose proof (collected_name _ _ Hin) as Hk. cbn [fst snd] in Hk. subst k.
    apply merge_first in Hin. destruct Hin as [[]|[_ Hf]]. exact Hf.
  - rewrite Hnames, cap_map. f_equal. unfold collected.
    rewrite merge_keys. reflexivity.
Qed.

(** C6. On a sequence of result pages, page [p] is requested exactly when
    [p] is at most [max_pages], no page before it was empty, and the pages
    before it hold fewer than [max_repos] different repositories.  So at most
    [max_pages] pages are requested and at most [max_repos] records are
    returned (none of either when the bound is negative). *)
Theorem C6_search_stops_at_first_bound
    (total : Z) (pages : list (list item)) (max_repos max_pages : Z) :
  exists out log,
    search_repos_with_cook_files (net_of_pages total pages) max_repos max_pages
    = Some (out, log) /\
    (forall p,
       In p (requested_pages log) <->
       1 <= p <= max_pages /\
       (forall q, 1 <= q < p -> page_of pages q <> []) /\
       Z.of_nat (length (collected (items_before pages p))) < max_repos) /\
    Z.of_nat (length (requested_pages log)) <= Z.max 0 max_pages /\
    Z.of_nat (length out) <= Z.max 0 max_repos.
Proof.
  destruct (search_result (net_of_pages total pages) max_repos max_pages)
    as [log [He [_ [Hreq Hcnt]]]].
  eexists. exists log. split; [exact He|]. split; [|split].
  - intros p. rewrite Hreq, items_range_before.
    split; intros [Hp [Hq Hlen]]; (split; [exact Hp|split; [|exact Hlen]]);
      intros q Hq' Hn; apply (Hq q Hq'); apply (page_items_none_iff total pages q);
      exact Hn.
  - exact Hcnt.
  - rewrite length_map, cap_length. lia.
Qed.

(** C1, as the code has it.  When the request for page [p] fails, whatever
    the page and the error, the search ends and returns the records
    collected from the pages before [p]; nothing is raised.  When [p] is the
    first page the records are none, and the entry point reports that no
    repositories were found and ends with status 0, the configuration file
    left alone. *)
Theorem C1_failed_request_ends_search
    (a : args) (e : env) (text : string) (m : FeedManager.t) (p : Z) (err : exn) :
  Py.truthy_opt (token a) = true ->
  env_config_file e = Some text ->
  FeedManager.init (env_safe_load e) (env_config_path e) text = Some m ->
  1 <= p <= max_pages a ->
  (forall q, 1 <= q < p -> page_items (env_net e) q <> None) ->
  request (env_net e) p = inl err ->
  exists slog,
    search_repos_with_cook_files (env_net e) (limit a * 5) (max_pages a)
    = Some (map snd (cap (limit a * 5)
                       (collected (items_range (env_net e) 1 (Z.to_nat (p - 1))))),
            slog) /\
    writes slog = [] /\
    (p = 1 ->
     exists log,
       main a e = Some (Exit 0, log) /\
       last log (Stdout "") = Stdout "No repositories found." /\
       writes log = []).
Proof.
  intros Ht Hf Hi Hp Hgood Hfail.
  destruct (search_result (env_net e) (limit a * 5) (max_pages a)) as [slog [He [Hw _]]].
  assert (Hbad : page_items (env_net e) p = None)
    by (unfold page_items; now rewrite Hfail).
  assert (Hc : consumed (env_net e) (max_pages a)
               = items_range (env_net e) 1 (Z.to_nat (p - 1))).
  { unfold consumed. apply good_pages_until.
    - lia.
    - intros i Hi'. apply Hgood. lia.
    - replace (1 + Z.of_nat (Z.to_nat (p - 1))) with p by lia. exact Hbad. }
  rewrite Hc in He. exists slog. split; [exact He|]. split; [exact Hw|].
  intros ->. simpl in He.
  destruct (main_no_repos_summary a e text m slog Ht Hf Hi) as [log [Hm [Hl [Hw' _]]]].
  - replace (cap (limit a * 5) (collected [])) with (@nil (string * repo)) in He.
    + exact He.
    + unfold cap, collected. simpl. now rewrite firstn_nil.
  - exists log. auto.
Qed.

Lemma C1_failed_request_witness :
  exists slog,
    search_repos_with_cook_files Samples.unauthorized 50 10 = Some ([], slog) /\
    writes slog = [] /\
    (1 = 1 ->
     exists log,
       main Samples.run_args (Samples.env_with Samples.unauthorized) = Some (Exit 0, log) /\
       last log (Stdout "") = Stdout "No repositories found." /\
       writes log = []).
Proof.
  apply (C1_failed_request_ends_search Samples.run_args
           (Samples.env_with Samples.unauthorized) Samples.small_file
           (FeedManager.mk "config/feeds.yaml" Samples.small_config ["# Feeds"] [])
           1 (HTTPError 401 "Unauthorized" "Bad credentials")).
  - reflexivity.
  - reflexivity.
  - reflexivity.
  - simpl. lia.
  - intros q Hq. lia.
  - reflexivity.
Defined.

(** C1, as the claim has it, fails: the first request is refused with an
    authentication error, yet the search returns the empty list and the run
    ends with status 0. *)
Lemma C1_first_page_failure_is_not_fatal :
  request Samples.unauthorized 1 = inl (HTTPError 401 "Unauthorized" "Bad credentials") /\
  (exists slog, search_repos_with_cook_files Samples.unauthorized 50 10 = Some ([], slog)) /\
  (exists log,
     main Samples.run_args (Samples.env_with Samples.unauthorized) = Some (Exit 0, log)).
Proof.
  split; [reflexivity|]. split; eexists; vm_compute; reflexivity.
Qed.

(** * The claims about the entry point and the feed manager *)

(** C9. When the search returns no repository, the run reports it, ends with
    status 0 and writes nothing: the configuration file is as it was. *)
Theorem C9_no_repositories_is_a_no_op
    (a : args) (e : env) (text : string) (m : FeedManager.t) (slog : list event) :
  Py.truthy_opt (token a) = true ->
  env_config_file e = Some text ->
  FeedManager.init (env_safe_load e) (env_config_path e) text = Some m ->
  search_repos_with_cook_files (env_net e) (limit a * 5) (max_pages a) = Some ([], slog) ->
  exists log,
    main a e = Some (Exit 0, log) /\
    last log (Stdout "") = Stdout "No repositories found." /\
    writes log = [] /\
    file_after (Some text) log = Some text.
Proof. apply main_no_repos_summary. Qed.

Lemma C9_no_repositories_witness :
  exists log,
    main Samples.run_args (Samples.env_with (net_of_pages 0 [])) = Some (Exit 0, log) /\
    last log (Stdout "") = Stdout "No repositories found." /\
    writes log = [] /\
    file_after (Some Samples.small_file) log = Some Samples.small_file.
Proof.
  apply (C9_no_repositories_is_a_no_op Samples.run_args
           (Samples.env_with (net_of_pages 0 [])) Samples.small_file
           (FeedManager.mk "config/feeds.yaml" Samples.small_config ["# Feeds"] [])
           [Stdout "Searching GitHub with query: extension:cook";
            UrlOpen 1 (page_url 1) true;
            Stdout "GitHub found 0 total code files";
            Stdout "Fetching up to 0 results across 10 pages...";
            Stdout "No more results after page 0";
            Stdout "Found 0 unique repositories with .cook files"]).
  - reflexivity.
  - reflexivity.
  - reflexivity.
  - vm_compute. reflexivity.
Defined.

Import FeedManager.

Lemma option_string_eqb_refl o : option_string_eqb o o = true.
Proof. destruct o; simpl; [apply String.eqb_refl|reflexivity]. Qed.

Lemma is_feed_exists_after_add m r by_ today :
  is_feed_exists (snd (fst (add_feed m r by_ today))) (url r) = true.
Proof.
  unfold add_feed. destruct (is_feed_exists m (url r)) eqn:He; cbn [fst snd].
  - exact He.
  - unfold is_feed_exists. cbn [cfg feeds]. rewrite existsb_app. cbn [existsb new_feed feed_url].
    rewrite option_string_eqb_refl. simpl. apply orb_true_r.
Qed.

(** C7. When an entry with the record's url exists, [add_feed] returns false
    and the manager is unchanged.  When none exists it returns true and
    appends one entry.  Either way a second call with the same url returns
    false and changes nothing: two calls append one entry in all, none when
    the url was there from the start. *)
Theorem C7_add_feed_is_idempotent
    (m : FeedManager.t) (r r2 : repo) (by1 by2 today1 today2 : string) :
  url r2 = url r ->
  let first := add_feed m r by1 today1 in
  let m1 := snd (fst first) in
  let second := add_feed m1 r2 by2 today2 in
  (is_feed_exists m (url r) = true -> fst (fst first) = false /\ m1 = m) /\
  (is_feed_exists m (url r) = false ->
   fst (fst first) = true /\ feed_list m1 = feed_list m ++ [new_feed r by1 today1]) /\
  fst (fst second) = false /\
  snd (fst second) = m1.
Proof.
  intros Hurl first m1 second.
  assert (H2 : is_feed_exists m1 (url r2) = true)
    by (rewrite Hurl; apply is_feed_exists_after_add).
  split; [|split; [|split]].
  - intros He. subst m1 first. unfold add_feed. rewrite He. split; reflexivity.
  - intros He. subst m1 first. unfold add_feed. rewrite He. cbn [fst snd].
    split; [reflexivity|]. unfold feed_list.
    destruct m as [pth [v [fs|]] hd ft]; reflexivity.
  - subst second. unfold add_feed at 1. rewrite H2. reflexivity.
  - subst second. unfold add_feed at 1. rewrite H2. reflexivity.
Qed.

Lemma C7_add_feed_witness :
  let first := add_feed Samples.no_feeds_manager Samples.sample_repo "@bot" "2025-01-01" in
  let m1 := snd (fst first) in
  let second := add_feed m1 Samples.sample_repo "@me" "2025-02-02" in
  (is_feed_exists Samples.no_feeds_manager (url Samples.sample_repo) = true ->
   fst (fst first) = false /\ m1 = Samples.no_feeds_manager) /\
  (is_feed_exists Samples.no_feeds_manager (url Samples.sample_repo) = false ->
   fst (fst first) = true /\
   feed_list m1 = feed_list Samples.no_feeds_manager
                  ++ [new_feed Samples.sample_repo "@bot" "2025-01-01"]) /\
  fst (fst second) = false /\
  snd (fst second) = m1.
Proof.
  apply (C7_add_feed_is_idempotent Samples.no_feeds_manager Samples.sample_repo
           Samples.sample_repo "@bot" "@me" "2025-01-01" "2025-02-02").
  reflexivity.
Defined.

(** C10. In a document without a [feeds] key no url exists, and [add_feed]
    returns true and leaves a [feeds] list holding the new entry alone. *)
Theorem C10_add_feed_creates_the_list
    (m : FeedManager.t) (r : repo) (by1 today : string) :
  feeds (cfg m) = None ->
  (forall u, is_feed_exists m u = false) /\
  fst (fst (add_feed m r by1 today)) = true /\
  feeds (cfg (snd (fst (add_feed m r by1 today)))) = Some [new_feed r by1 today] /\
  version (cfg (snd (fst (add_feed m r by1 today)))) = version (cfg m).
Proof.
  intros Hnone.
  assert (He : forall u, is_feed_exists m u = false)
    by (intros u; unfold is_feed_exists; now rewrite Hnone).
  split; [exact He|].
  unfold add_feed. rewrite He, Hnone. cbn. repeat split.
Qed.

Lemma C10_add_feed_witness :
  (forall u, is_feed_exists Samples.no_feeds_manager u = false) /\
  fst (fst (add_feed Samples.no_feeds_manager Samples.sample_repo "@bot" "2025-01-01"))
  = true /\
  feeds (cfg (snd (fst (add_feed Samples.no_feeds_manager Samples.sample_repo
                          "@bot" "2025-01-01"))))
  = Some [new_feed Samples.sample_repo "@bot" "2025-01-01"] /\
  version (cfg (snd (fst (add_feed Samples.no_feeds_manager Samples.sample_repo
                            "@bot" "2025-01-01"))))
  = version (cfg Samples.no_feeds_manager).
Proof.
  apply (C10_add_feed_creates_the_list Samples.no_feeds_manager Samples.sample_repo
           "@bot" "2025-01-01").
  reflexivity.
Defined.

(** * The selection step *)


Lemma insert_by_stars_perm x l : Permutation (x :: l) (insert_by_stars x l).
Proof.
  induction l as [|y l IH]; simpl; [reflexivity|].
  destruct (stars y >? stars x); [|reflexivity].
  rewrite perm_swap. now apply perm_skip.
Qed.

Lemma sort_by_stars_perm l : Permutation l (sort_by_stars l).
Proof.
  induction l as [|x l IH]; simpl; [constructor|].
  rewrite <- insert_by_stars_perm. now apply perm_skip.
Qed.

Lemma insert_by_stars_sorted x l :
  StronglySorted stars_ge l -> StronglySorted stars_ge (insert_by_stars x l).
Proof.
  induction 1 as [|y l Hs IH Hall]; simpl.
  - repeat constructor.
  - destruct (stars y >? stars x) eqn:Hc.
    + constructor; [exact IH|].
      rewrite <- insert_by_stars_perm. constructor; [|exact Hall].
      apply Z.gtb_lt in Hc. unfold stars_ge. lia.
    + assert (Hxy : stars_ge x y).
      { unfold stars_ge. rewrite Z.gtb_ltb in Hc. apply Z.ltb_ge in Hc. lia. }
      constructor; [now constructor|]. constructor; [exact Hxy|].
      eapply Forall_impl; [|exact Hall]. unfold stars_ge in *. intros z Hz. lia.
Qed.

Lemma sort_by_stars_sorted l : StronglySorted stars_ge (sort_by_stars l).
Proof.
  induction l as [|x l IH]; simpl; [constructor|]. now apply insert_by_stars_sorted.
Qed.

Lemma sorted_split {A : Type} (R : A -> A -> Prop) l1 : forall l2,
  StronglySorted R (l1 ++ l2) ->
  StronglySorted R l1 /\ (forall x y, In x l1 -> In y l2 -> R x y).
Proof.
  induction l1 as [|a l1 IH]; intros l2 Hs.
  - split; [constructor|intros x y []].
  - simpl in Hs. inversion Hs as [|? ? Hs' Hall]; subst.
    destruct (IH l2 Hs') as [Hs1 Hcross]. rewrite Forall_forall in Hall. split.
    + constructor; [exact Hs1|]. apply Forall_forall. intros z Hz.
      apply Hall. apply in_app_iff. now left.
    + intros x y [<-|Hx] Hy.
      * apply Hall. apply in_app_iff. now right.
      * now apply Hcross.
Qed.

Lemma NoDup_app_disjoint {A : Type} (l1 l2 : list A) a :
  NoDup (l1 ++ l2) -> In a l1 -> In a l2 -> False.
Proof.
  induction l1 as [|b l1 IH]; intros Hnd H1 H2; [contradiction|].
  simpl in Hnd. inversion Hnd as [|? ? Hnot Hnd']; subst.
  destruct H1 as [<-|H1].
  - apply Hnot. apply in_app_iff. now right.
  - now apply IH.
Qed.

Lemma sorted_strict l :
  StronglySorted stars_ge l -> NoDup (map stars l) -> StronglySorted stars_gt l.
Proof.
  induction 1 as [|x l Hs IH Hall]; intros Hnd; [constructor|].
  simpl in Hnd. inversion Hnd as [|? ? Hnot Hnd']; subst.
  constructor; [now apply IH|].
  rewrite Forall_forall in *. intros y Hy. specialize (Hall y Hy).
  assert (stars x <> stars y).
  { intros Heq. apply Hnot. rewrite Heq. now apply in_map. }
  unfold stars_ge, stars_gt in *. lia.
Qed.

Lemma slice_to_firstn {A : Type} (l : list A) n :
  0 <= n -> Py.slice_to l n = firstn (Z.to_nat n) l.
Proof.
  intros Hn. unfold Py.slice_to. destruct (n <? 0) eqn:Hc; [|reflexivity].
  apply Z.ltb_lt in Hc. lia.
Qed.

(** C8. With pairwise different star counts and a limit from 0 to the number
    of candidates, the selection by stars returns [limit] of the candidates,
    in strictly descending order of stars, every one of them with more stars
    than any candidate left out; the random selection returns [limit]
    different candidates.  [random.shuffle] is any function that returns a
    permutation of its argument. *)
Theorem C8_selection_takes_the_limit
    (shuffle : list repo -> list repo) (repos : list repo) (limit : Z) :
  (forall l, Permutation l (shuffle l)) ->
  NoDup (map stars repos) ->
  0 <= limit <= Z.of_nat (length repos) ->
  let top := select shuffle false limit repos in
  let sample := select shuffle true limit repos in
  Z.of_nat (length top) = limit /\
  incl top repos /\
  StronglySorted stars_gt top /\
  (forall r r', In r top -> In r' repos -> ~ In r' top -> stars r' < stars r) /\
  Z.of_nat (length sample) = limit /\
  NoDup sample /\
  incl sample repos.
Proof.
  intros Hshuffle Hnd Hlimit top sample. subst top sample. unfold select.
  rewrite !slice_to_firstn by lia.
  pose proof (sort_by_stars_perm repos) as Hperm.
  pose proof (sort_by_stars_sorted repos) as Hsorted.
  assert (HndS : NoDup (map stars (sort_by_stars repos)))
    by (eapply Permutation_NoDup; [apply Permutation_map; exact Hperm|exact Hnd]).
  rewrite <- (firstn_skipn (Z.to_nat limit) (sort_by_stars repos)) in Hsorted, HndS.
  destruct (sorted_split _ _ _ Hsorted) as [Htop Hcross].
  rewrite map_app in HndS.
  repeat split.
  - rewrite length_firstn, <- (Permutation_length Hperm). lia.
  - intros r Hr. apply (Permutation_in r (Permutation_sym Hperm)).
    rewrite <- (firstn_skipn (Z.to_nat limit)). apply in_app_iff. now left.
  - apply sorted_strict; [exact Htop|]. now apply NoDup_app_remove_r in HndS.
  - intros r r' Hr Hr' Hout.
    apply (Permutation_in r' Hperm) in Hr'.
    rewrite <- (firstn_skipn (Z.to_nat limit)) in Hr'.
    apply in_app_iff in Hr'. destruct Hr' as [Hr'|Hr']; [contradiction|].
    pose proof (Hcross r r' Hr Hr') as Hge.
    assert (stars r <> stars r').
    { intros Heq. apply (NoDup_app_disjoint _ _ (stars r) HndS).
      - now apply in_map.
      - rewrite Heq. now apply in_map. }
    unfold stars_ge in Hge. lia.
  - rewrite length_firstn, <- (Permutation_length (Hshuffle repos)). lia.
  - assert (Hn : NoDup (shuffle repos)).
    { eapply Permutation_NoDup; [apply Hshuffle|]. now apply NoDup_map_inv in Hnd. }
    rewrite <- (firstn_skipn (Z.to_nat limit)) in Hn. now apply NoDup_app_remove_r in Hn.
  - intros r Hr. apply (Permutation_in r (Permutation_sym (Hshuffle repos))).
    rewrite <- (firstn_skipn (Z.to_nat limit)). apply in_app_iff. now left.
Qed.

Lemma C8_selection_witness :
  let top := select (@rev repo) false 2 Samples.candidates in
  let sample := select (@rev repo) true 2 Samples.candidates in
  Z.of_nat (length top) = 2 /\
  incl top Samples.candidates /\
  StronglySorted stars_gt top /\
  (forall r r', In r top -> In r' Samples.candidates -> ~ In r' top -> stars r' < stars r) /\
  Z.of_nat (length sample) = 2 /\
  NoDup sample /\
  incl sample Samples.candidates.
Proof.
  apply (C8_selection_takes_the_limit (@rev repo) Samples.candidates 2).
  - intros l. apply Permutation_rev.
  - simpl. repeat constructor; simpl; intuition lia.
  - simpl. lia.
Defined.

(** * The header and the footer through [save_config] *)

Import ConfigSpec.

Lemma append_assoc (a b c : string) : (a +++ b) +++ c = a +++ (b +++ c).
Proof. induction a as [|ch a IH]; simpl; [reflexivity|now rewrite IH]. Qed.

Lemma append_nil_r (a : string) : a +++ "" = a.
Proof. induction a as [|ch a IH]; simpl; [reflexivity|now rewrite IH]. Qed.






Lemma extract_header_lines_region lines :
  extract_header_lines lines = map Py.rstrip (header_region_lines lines).
Proof.
  induction lines as [|line lines IH]; [reflexivity|].
  cbn [extract_header_lines header_region_lines]. unfold is_header_line.
  destruct (Py.startswith (Py.strip line) "#" || negb (Py.truthy (Py.strip line)))%bool.
  - cbn [map]. now rewrite IH.
  - now destruct (Py.startswith (Py.strip line) "version:").
Qed.

Lemma extract_footer_lines_all lines :
  extract_footer_lines true lines = map Py.rstrip lines.
Proof.
  induction lines as [|line lines IH]; [reflexivity|].
  cbn [extract_footer_lines map]. rewrite orb_true_r. now rewrite IH.
Qed.

Lemma extract_footer_lines_region lines :
  extract_footer_lines false lines = map Py.rstrip (footer_region_lines lines).
Proof.
  induction lines as [|line lines IH]; [reflexivity|].
  cbn [extract_footer_lines footer_region_lines]. unfold is_footer_start.
  rewrite orb_false_r.
  destruct (Py.startswith (Py.strip line) "# Validation configuration"); cbn [orb].
  - cbn [map]. now rewrite extract_footer_lines_all.
  - destruct (Py.startswith (Py.strip line) "validation:").
    + cbn [map]. now rewrite extract_footer_lines_all.
    + exact IH.
Qed.


Lemma add_feed_frame m r by1 today :
  header_lines (snd (fst (add_feed m r by1 today))) = header_lines m /\
  footer_lines (snd (fst (add_feed m r by1 today))) = footer_lines m.
Proof.
  unfold add_feed. destruct (is_feed_exists m (url r)); split; reflexivity.
Qed.

Lemma add_feeds_frame rs by1 today : forall m,
  header_lines (add_feeds m rs by1 today) = header_lines m /\
  footer_lines (add_feeds m rs by1 today) = footer_lines m.
Proof.
  unfold add_feeds. induction rs as [|r rs IH]; intros m; [split; reflexivity|].
  cbn [fold_left]. destruct (IH (snd (fst (add_feed m r by1 today)))) as [Hh Hf].
  destruct (add_feed_frame m r by1 today) as [Hh' Hf'].
  rewrite Hh, Hf, Hh', Hf'. split; reflexivity.
Qed.

Lemma has_lines_map {A : Type} (f : A -> string) (l : list A) :
  has_lines (map f l) = match l with [] => false | _ :: _ => true end.
Proof. now destruct l. Qed.

(** The text written, with the header and the footer as [save_config]
    holds them. *)
Lemma save_text_frame m :
  save_text m
  = write_lines (header_lines m)
    +++ middle_text (cfg m) (has_lines (header_lines m)) (has_lines (footer_lines m))
    +++ write_lines (footer_lines m).
Proof.
  unfold save_text, middle_text.
  destruct (header_lines m) as [|h hs]; destruct (footer_lines m) as [|f fs];
    cbn [has_lines]; cbn [write_lines fold_right];
    repeat rewrite ?append_assoc, ?append_nil_r; reflexivity.
Qed.

Import RunSpec.

(** ** [save_config] as it runs *)

Lemma append_not_nil a b : a <> "" -> a +++ b <> "".
Proof. destruct a; [congruence|discriminate]. Qed.

Lemma write_feeds_run_ok : forall fds i len,
  forallb has_tags fds = true ->
  write_feeds_run i len fds = (write_feeds i len fds, true).
Proof.
  induction fds as [|fd fds IH]; intros i len H; [reflexivity|].
  cbn [forallb] in H. apply andb_true_iff in H. destruct H as [Hfd Hfds].
  cbn [write_feeds_run write_feeds]. unfold has_tags in Hfd.
  destruct (tags_of fd); [|discriminate]. now rewrite (IH _ _ Hfds).
Qed.

Lemma write_feed_head_end fd :
  exists pre, write_feed_head fd = pre +++ "    tags:" +++ NL.
Proof.
  unfold write_feed_head. eexists. rewrite <- !append_assoc. reflexivity.
Qed.

(** With a [tags] that holds [None] the loop stops after the line [tags:]
    of the first such entry, before the end of what it would have
    written. *)
Lemma write_feeds_run_stops : forall fds i len,
  forallb has_tags fds = false ->
  exists written pre rest,
    write_feeds_run i len fds = (written, false) /\
    written = pre +++ "    tags:" +++ NL /\
    write_feeds i len fds = written +++ rest /\ rest <> "".
Proof.
  induction fds as [|fd fds IH]; intros i len H; [discriminate|].
  cbn [forallb] in H. cbn [write_feeds_run write_feeds]. unfold has_tags at 1 in H.
  destruct (tags_of fd) as [tags|] eqn:Ht.
  - cbn [andb] in H. destruct (IH (i + 1) len H) as [w [pre [rest [Hr [Hw [Hf Hn]]]]]].
    rewrite Hr, Hf.
    exists ((if i =? 0 then "  # GitHub repository feed" +++ NL else "") +++
            write_feed fd +++ (if i <? len - 1 then NL else "") +++ w).
    exists ((if i =? 0 then "  # GitHub repository feed" +++ NL else "") +++
            write_feed fd +++ (if i <? len - 1 then NL else "") +++ pre).
    exists rest. split; [reflexivity|]. split; [|split; [|exact Hn]].
    + rewrite Hw, !append_assoc. reflexivity.
    + rewrite !append_assoc. reflexivity.
  - destruct (write_feed_head_end fd) as [pre Hpre].
    exists ((if i =? 0 then "  # GitHub repository feed" +++ NL else "") +++
            write_feed_head fd).
    exists ((if i =? 0 then "  # GitHub repository feed" +++ NL else "") +++ pre).
    exists (write_feed_tail fd +++ (if i <? len - 1 then NL else "") +++
            write_feeds (i + 1) len fds).
    split; [reflexivity|]. split; [|split].
    + rewrite Hpre, !append_assoc. reflexivity.
    + unfold write_feed. rewrite Ht. cbn [write_tags fold_right].
      rewrite !append_assoc. reflexivity.
    + apply append_not_nil. unfold write_feed_tail. discriminate.
Qed.

Lemma save_run_ok m : savable m = true -> save_run m = (save_text m, true).
Proof.
  unfold savable, feed_list, save_run, save_text. intros H.
  rewrite (write_feeds_run_ok _ _ _ H). now rewrite !append_assoc.
Qed.

Lemma save_run_stops m :
  savable m = false ->
  exists written pre rest,
    save_run m = (written, false) /\
    written = pre +++ "    tags:" +++ NL /\
    save_text m = written +++ rest /\ rest <> "".
Proof.
  unfold savable, feed_list, save_run, save_text. intros H.
  destruct (write_feeds_run_stops _ 0 (Z.of_nat (length
              match feeds (cfg m) with Some l => l | None => [] end)) H)
    as [w [pre [rest [Hr [Hw [Hf Hn]]]]]].
  rewrite Hr, Hf. eexists. eexists. eexists. split; [reflexivity|].
  split; [|split].
  - rewrite Hw, <- !append_assoc. reflexivity.
  - rewrite !append_assoc. reflexivity.
  - apply append_not_nil. exact Hn.
Qed.





(** With an entry whose [tags] holds [None], [save_config] ends on the
    exception after the line [tags:] of that entry: the file is left with the
    header and the beginning of the entries, without the footer. *)
Example null_tags_lose_the_footer :
  savable Samples.null_tags_manager = false /\
  save_config Samples.null_tags_manager
  = ([WriteFile Samples.null_tags_written], false).
Proof. split; vm_compute; reflexivity. Qed.


(** * Quoted scalars *)

(** Where there is no backslash, escaping the double quotes is enough: the
    escaped text does not end the scalar early. *)
Lemma escape_without_backslash s :
  has_char Py.bs s = false ->
  breaks_quoted_scalar (_escape_yaml_string (Some s)) = false.
Proof.
  unfold _escape_yaml_string.
  induction s as [|c s IH]; intros Hb; [reflexivity|].
  cbn [has_char] in Hb. apply orb_false_iff in Hb. destruct Hb as [Hc Hs].
  cbn [Py.replace1]. destruct (Ascii.eqb c Py.dq) eqn:Hq.
  - simpl. now apply IH.
  - cbn [breaks_quoted_scalar]. rewrite Hc, Hq. now apply IH.
Qed.

(** The branch goes to the file as it is. *)
Lemma write_feed_branch fd b :
  feed_branch fd = Some b -> Py.truthy b = true ->
  exists pre post,
    write_feed fd = pre +++ ("    branch: " +++ DQ +++ b +++ DQ +++ NL) +++ post.
Proof.
  intros Hb Ht. unfold write_feed, write_feed_head. rewrite Hb, Ht.
  exists ("  - url: " +++ DQ +++ _escape_yaml_string (feed_url fd) +++ DQ +++ NL +++
          "    title: " +++ DQ +++ _escape_yaml_string (feed_title fd) +++ DQ +++ NL +++
          "    feed_type: " +++ Py.str_opt (feed_type fd) +++ NL).
  eexists. rewrite !append_assoc. reflexivity.
Qed.

(** C3, at an entry whose branch holds a double quote.  The branch is written
    between double quotes as it is, its own double quote not escaped, so the
    quoted scalar ends in the middle of the name; the five other texts of
    the entry go through [_escape_yaml_string].  And that function leaves a
    backslash alone: a text that ends with one takes the closing quote. *)
Theorem C3_branch_is_written_unescaped :
  write_feed Samples.quoted_branch_feed = Samples.quoted_branch_entry_text /\
  breaks_quoted_scalar Samples.quoted_branch = true /\
  _escape_yaml_string (Some Samples.quoted_branch)
  = "rel" +++ Py.chr Py.bs +++ Py.chr Py.dq +++ "ease" /\
  breaks_quoted_scalar (_escape_yaml_string (Some Samples.quoted_branch)) = false /\
  _escape_yaml_string (Some ("notes" +++ Py.chr Py.bs)) = "notes" +++ Py.chr Py.bs /\
  breaks_quoted_scalar (_escape_yaml_string (Some ("notes" +++ Py.chr Py.bs))) = true.
Proof. repeat split; vm_compute; reflexivity. Qed.

(** C2, where it fails.  A repository whose description holds a backslash
    is added to a loaded document and saved: its title is written with the
    backslash as it is, inside double quotes, where a reader of the file
    takes the backslash and the letter after it for an escape, so the entry
    read back is not the entry that was added.  And since the branch is
    written with its double quotes as they are, a document with two entries
    and a document with one entry are saved as the same text: whatever the
    reader, it cannot give back the entries of both. *)
Theorem C2_round_trip_loses_entries :
  init (fun _ => Some Samples.small_config) "config/feeds.yaml" Samples.small_file
  = Some Samples.small_manager /\
  feed_list (add_feeds Samples.small_manager [Samples.backslash_repo] "@bot" "2025-01-01")
  = [new_feed Samples.backslash_repo "@bot" "2025-01-01"] /\
  feed_title (new_feed Samples.backslash_repo "@bot" "2025-01-01")
  = Some Samples.backslash_description /\
  save_text (add_feeds Samples.small_manager [Samples.backslash_repo] "@bot" "2025-01-01")
  = Samples.backslash_saved_text /\
  save_text Samples.two_entries_manager = save_text Samples.spanning_manager /\
  (forall load : string -> option config,
     ~ (exists c1 c2,
          load (save_text Samples.two_entries_manager) = Some c1 /\
          same_entries (entries_of c1) (feed_list Samples.two_entries_manager) /\
          load (save_text Samples.spanning_manager) = Some c2 /\
          same_entries (entries_of c2) (feed_list Samples.spanning_manager))).
Proof.
  assert (Hsame : save_text Samples.two_entries_manager
                  = save_text Samples.spanning_manager)
    by (vm_compute; reflexivity).
  split; [vm_compute; reflexivity|]. split; [vm_compute; reflexivity|].
  split; [vm_compute; reflexivity|]. split; [vm_compute; reflexivity|].
  split; [exact Hsame|].
  intros load [c1 [c2 [H1 [S1 [H2 S2]]]]].
  rewrite Hsame, H2 in H1. inversion H1; subst c1.
  assert (Hin : In Samples.second_entry (feed_list Samples.spanning_manager)).
  { apply S2. apply S1. right. now left. }
  destruct Hin as [Heq|[]]. discriminate Heq.
Qed.

(** * Sample runs of the search *)

(** With room for two repositories the first page is enough: the second
    item of [a/b] is skipped and page 2 is never requested. *)
Example search_two_pages_target_2 :
  exists log,
    search_repos_with_cook_files (net_of_pages 5 Samples.two_pages) 2 5
    = Some ([record_of "a/b" (Samples.repository_of "a/b" 3);
             record_of "c/d" (Samples.repository_of "c/d" 9)], log) /\
    requested_pages log = [1].
Proof. eexists. split; vm_compute; reflexivity. Qed.

(** With room for more, both pages are read and the empty third page ends
    the search. *)
Example search_two_pages_target_10 :
  exists log,
    search_repos_with_cook_files (net_of_pages 5 Samples.two_pages) 10 5
    = Some ([record_of "a/b" (Samples.repository_of "a/b" 3);
             record_of "c/d" (Samples.repository_of "c/d" 9);
             record_of "e/f" (Samples.repository_of "e/f" 1)], log) /\
    requested_pages log = [1; 2; 3].
Proof. eexists. split; vm_compute; reflexivity. Qed.

(** The two candidates with the most stars, the highest first. *)
Example select_top_two :
  map full_name (select (@rev repo) false 2 Samples.candidates) = ["b/b"; "d/d"].
Proof. reflexivity. Qed.

(** * More about the searcher *)

Import TraceSpec.

Lemma unverified_requests_app l1 l2 :
  unverified_requests (l1 ++ l2) = unverified_requests l1 ++ unverified_requests l2.
Proof. unfold unverified_requests. apply flat_map_app. Qed.

(** X1. [_make_request] calls [urlopen] with verification once; it calls it
    a second time, without verification, exactly when the first call raised a
    [URLError] whose text holds CERTIFICATE_VERIFY_FAILED, and then its result
    is the result of that second call, whatever it is.  In every other case
    the result is the result of the first call and no unverified request is
    made. *)
Theorem X1_make_request_retries_once (net : network) (p : Z) (u : string) :
  let res := fst (_make_request net p u) in
  let evs := snd (_make_request net p u) in
  requested_pages evs = [p] /\
  (urlopen_count evs <= 2)%nat /\
  ((exists reason,
      net p true = inl (URLError reason) /\
      Py.contains "CERTIFICATE_VERIFY_FAILED" (str_exn (URLError reason)) = true) ->
   unverified_requests evs = [p] /\ res = net p false) /\
  (~ (exists reason,
        net p true = inl (URLError reason) /\
        Py.contains "CERTIFICATE_VERIFY_FAILED" (str_exn (URLError reason)) = true) ->
   unverified_requests evs = [] /\ res = net p true /\ urlopen_count evs = 1%nat).
Proof.
  cbv zeta. unfold _make_request.
  destruct (net p true) as [[code msg body|reason|text]|r] eqn:Hn.
  - split; [reflexivity|]. split; [unfold urlopen_count; cbn; lia|]. split.
    + intros [reason [H _]]. discriminate H.
    + intros _. repeat split.
  - destruct (Py.contains "CERTIFICATE_VERIFY_FAILED" (str_exn (URLError reason))) eqn:Hc.
    + split; [reflexivity|]. split; [unfold urlopen_count; cbn; lia|]. split.
      * intros _. split; reflexivity.
      * intros Hno. exfalso. apply Hno. exists reason. split; [reflexivity|exact Hc].
    + split; [reflexivity|]. split; [unfold urlopen_count; cbn; lia|]. split.
      * intros [reason' [H Hc']]. inversion H; subst. congruence.
      * intros _. repeat split.
  - split; [reflexivity|]. split; [unfold urlopen_count; cbn; lia|]. split.
    + intros [reason [H _]]. discriminate H.
    + intros _. repeat split.
  - split; [reflexivity|]. split; [unfold urlopen_count; cbn; lia|]. split.
    + intros [reason [H _]]. discriminate H.
    + intros _. repeat split.
Qed.

(** ** The order and the pace of the requests *)

Lemma search_loop_pages net max_repos max_pages : forall fuel repos page log R log',
  search_loop fuel net max_repos max_pages repos page log = Some (R, log') ->
  exists k,
    requested_pages log'
    = requested_pages log ++ map (fun i => page + Z.of_nat i) (seq 0 k).
Proof.
  induction fuel as [|fuel IH]; intros repos page log R log' Hrun;
    destruct (loop_test max_repos max_pages repos page) eqn:Ht.
  - unfold loop_test in Ht. simpl in Hrun. rewrite Ht in Hrun. discriminate.
  - rewrite (search_loop_stop _ _ _ _ _ _ _ Ht) in Hrun. inversion Hrun; subst R log'.
    exists 0%nat. simpl. now rewrite app_nil_r.
  - destruct (search_loop_step fuel net _ _ _ _ log Ht) as [evs [Hr [_ Hstep]]].
    destruct (page_items net page) as [l|].
    + rewrite Hstep in Hrun. destruct (IH _ _ _ _ _ Hrun) as [k Hk].
      exists (S k). rewrite Hk, requested_pages_app, Hr, <- app_assoc.
      f_equal. cbn [seq map app]. rewrite Z.add_0_r. f_equal.
      rewrite <- seq_shift, map_map. apply map_ext. intros i. lia.
    + rewrite Hstep in Hrun. inversion Hrun; subst R log'.
      exists 1%nat. rewrite requested_pages_app, Hr. simpl. now rewrite Z.add_0_r.
  - rewrite (search_loop_stop _ _ _ _ _ _ _ Ht) in Hrun. inversion Hrun; subst R log'.
    exists 0%nat. simpl. now rewrite app_nil_r.
Qed.

(** X2. The search asks for the pages 1, 2, ..., k in this order, each
    once, for some k that is at most [max_pages] (0 when [max_pages] is
    negative). *)
Theorem X2_pages_are_requested_in_order (net : network) (max_repos max_pages : Z) :
  exists out log k,
    search_repos_with_cook_files net max_repos max_pages = Some (out, log) /\
    requested_pages log = map Z.of_nat (seq 1 k) /\
    Z.of_nat k <= Z.max 0 max_pages.
Proof.
  unfold search_repos_with_cook_files.
  destruct (search_loop_result net max_repos max_pages (Z.to_nat max_pages) [] 1
              [Stdout "Searching GitHub with query: extension:cook"])
    as [log0 [Hrun _]]; [lia|simpl; lia|].
  destruct (search_loop_pages _ _ _ _ _ _ _ _ _ Hrun) as [k Hk].
  pose proof (search_loop_request_count _ _ _ _ _ _ _ _ _ Hrun) as Hc.
  rewrite Hk in Hc. cbn [requested_pages flat_map app length] in Hc.
  rewrite length_map, length_seq in Hc.
  rewrite Hrun. eexists. eexists. exists k. split; [reflexivity|]. split; [|lia].
  rewrite requested_pages_app, Hk. cbn [requested_pages flat_map app].
  rewrite !app_nil_r. rewrite <- seq_shift, map_map. apply map_ext. intros i. lia.
Qed.

Lemma well_spaced_app l1 : forall rested l2,
  well_spaced rested (l1 ++ l2)
  = (well_spaced rested l1 && well_spaced (rested_after rested l1) l2)%bool.
Proof.
  induction l1 as [|ev l1 IH]; intros rested l2; [reflexivity|].
  destruct ev as [line|line|p u [|]|s|t]; cbn [app well_spaced rested_after];
    rewrite ?IH; try reflexivity.
  now rewrite andb_assoc.
Qed.

Lemma rested_after_app l1 : forall rested l2,
  rested_after rested (l1 ++ l2) = rested_after (rested_after rested l1) l2.
Proof.
  induction l1 as [|ev l1 IH]; intros rested l2; [reflexivity|].
  destruct ev as [line|line|p u [|]|s|t]; cbn [app rested_after]; now rewrite ?IH.
Qed.

Lemma make_request_spacing net p u :
  well_spaced true (snd (_make_request net p u)) = true /\
  rested_after true (snd (_make_request net p u)) = false.
Proof.
  unfold _make_request.
  destruct (net p true) as [[code msg body|reason|text]|r]; try (split; reflexivity).
  destruct (Py.contains _ _); split; reflexivity.
Qed.

Lemma search_loop_step_pace fuel net max_repos max_pages repos page log :
  loop_test max_repos max_pages repos page = true ->
  exists evs,
    well_spaced true evs = true /\
    match page_items net page with
    | None =>
        search_loop (S fuel) net max_repos max_pages repos page log
        = Some (repos, log ++ evs)
    | Some l =>
        search_loop (S fuel) net max_repos max_pages repos page log
        = search_loop fuel net max_repos max_pages
            (scan_items l repos max_repos) (page + 1) (log ++ evs)
        /\ rested_after true evs = true
    end.
Proof.
  unfold loop_test. intros H. cbn [search_loop]. rewrite H.
  unfold page_items, request.
  destruct (make_request_spacing net page (page_url page)) as [Hs Hr].
  destruct (_make_request net page (page_url page)) as [[e|res] evs]; cbn [fst snd] in *.
  - eexists (evs ++ [_]). split; [|reflexivity].
    rewrite well_spaced_app, Hs, Hr. reflexivity.
  - destruct (items res) as [[|it its]|].
    + eexists (evs ++ _ ++ [_]). split; [|reflexivity].
      rewrite well_spaced_app, Hs, Hr. destruct (page =? 1); reflexivity.
    + eexists (evs ++ _ ++ [_; _]). split; [|split; [reflexivity|]].
      * rewrite well_spaced_app, Hs, Hr. destruct (page =? 1); reflexivity.
      * rewrite rested_after_app, Hr. destruct (page =? 1); reflexivity.
    + eexists (evs ++ _ ++ [_]). split; [|reflexivity].
      rewrite well_spaced_app, Hs, Hr. destruct (page =? 1); reflexivity.
Qed.

Lemma search_loop_pace net max_repos max_pages : forall fuel repos page log R log',
  search_loop fuel net max_repos max_pages repos page log = Some (R, log') ->
  well_spaced true log = true ->
  rested_after true log = true ->
  well_spaced true log' = true.
Proof.
  induction fuel as [|fuel IH]; intros repos page log R log' Hrun Hs Hr;
    destruct (loop_test max_repos max_pages repos page) eqn:Ht.
  - unfold loop_test in Ht. simpl in Hrun. rewrite Ht in Hrun. discriminate.
  - rewrite (search_loop_stop _ _ _ _ _ _ _ Ht) in Hrun. now inversion Hrun; subst.
  - destruct (search_loop_step_pace fuel net _ _ _ _ log Ht) as [evs [Hse Hstep]].
    destruct (page_items net page) as [l|].
    + destruct Hstep as [Hstep Hre]. rewrite Hstep in Hrun.
      apply (IH _ _ _ _ _ Hrun).
      * rewrite well_spaced_app, Hs, Hr. exact Hse.
      * rewrite rested_after_app, Hr. exact Hre.
    + rewrite Hstep in Hrun. inversion Hrun; subst R log'.
      rewrite well_spaced_app, Hs, Hr. exact Hse.
  - rewrite (search_loop_stop _ _ _ _ _ _ _ Ht) in Hrun. now inversion Hrun; subst.
Qed.

(** X3. Between two page requests of a search there is a sleep of one
    second: no page is requested while less than a second of sleep has passed
    since the request before it. *)
Theorem X3_requests_are_a_second_apart (net : network) (max_repos max_pages : Z) :
  exists out log,
    search_repos_with_cook_files net max_repos max_pages = Some (out, log) /\
    well_spaced true log = true.
Proof.
  unfold search_repos_with_cook_files.
  destruct (search_loop_result net max_repos max_pages (Z.to_nat max_pages) [] 1
              [Stdout "Searching GitHub with query: extension:cook"])
    as [log0 [Hrun _]]; [lia|simpl; lia|].
  pose proof (search_loop_pace _ _ _ _ _ _ _ _ _ Hrun eq_refl eq_refl) as Hs.
  rewrite Hrun. eexists. eexists. split; [reflexivity|].
  rewrite well_spaced_app, Hs. reflexivity.
Qed.

(** ** Where the records come from *)

Lemma valid_records_In its k v :
  In (k, v) (valid_records its) ->
  exists it rp,
    In it its /\ item_repository it = Some rp /\ repo_full_name rp = Some k /\
    Py.truthy k = true /\ v = record_of k rp.
Proof.
  unfold valid_records. rewrite in_flat_map. intros [it [Hin Hkv]].
  destruct (item_repository it) as [rp|] eqn:Hrp; [|contradiction].
  destruct (repo_full_name rp) as [name|] eqn:Hname; [|contradiction].
  destruct (Py.truthy name) eqn:Ht; [|contradiction].
  destruct Hkv as [Heq|[]]. inversion Heq; subst.
  exists it, rp. repeat split; assumption.
Qed.

Lemma valid_records_names its name :
  In name (map fst (valid_records its)) <->
  exists it, In it its /\ item_name it = Some name.
Proof.
  split.
  - intros Hin. apply in_map_iff in Hin. destruct Hin as [[k v] [Hk Hin]].
    cbn [fst] in Hk. subst k.
    apply valid_records_In in Hin. destruct Hin as [it [rp [Hit [Hrp [Hn [Ht _]]]]]].
    exists it. split; [exact Hit|]. unfold item_name. now rewrite Hrp, Hn, Ht.
  - intros [it [Hit Hname]]. unfold item_name in Hname.
    destruct (item_repository it) as [rp|] eqn:Hrp; [|discriminate].
    destruct (repo_full_name rp) as [n|] eqn:Hn; [|discriminate].
    destruct (Py.truthy n) eqn:Ht; [|discriminate]. inversion Hname; subst n.
    apply in_map_iff. exists (name, record_of name rp). split; [reflexivity|].
    unfold valid_records. apply in_flat_map. exists it. split; [exact Hit|].
    rewrite Hrp, Hn, Ht. now left.
Qed.



(** ** How many records, and which *)

Lemma first_seen_complete names : forall seen n,
  In n names -> In n seen \/ In n (first_seen seen names).
Proof.
  induction names as [|m names IH]; intros seen n Hin; [contradiction|].
  cbn [first_seen]. destruct (seen_in m seen) eqn:Hs.
  - destruct Hin as [<-|Hin]; [|now apply IH].
    left. unfold seen_in in Hs. apply existsb_exists in Hs.
    destruct Hs as [x [Hx He]]. apply String.eqb_eq in He. now subst.
  - destruct Hin as [<-|Hin]; [right; now left|].
    destruct (IH (seen ++ [m]) n Hin) as [H|H].
    + apply in_app_iff in H. destruct H as [H|[<-|[]]]; [now left|right; now left].
    + right. now right.
Qed.

(** X5. The search returns as many records as there are different names in
    the pages read, up to [max_repos]; when these names are at most
    [max_repos], every one of them has its record. *)
Theorem X5_no_repository_is_lost (net : network) (max_repos max_pages : Z) :
  exists out log,
    search_repos_with_cook_files net max_repos max_pages = Some (out, log) /\
    length out
    = Nat.min (Z.to_nat max_repos)
        (length (first_seen [] (map fst (valid_records (consumed net max_pages))))) /\
    (Z.of_nat (length (first_seen [] (map fst (valid_records (consumed net max_pages)))))
     <= max_repos ->
     forall it name,
       In it (consumed net max_pages) -> item_name it = Some name ->
       In name (map full_name out)).
Proof.
  destruct (search_result net max_repos max_pages) as [log [He _]].
  eexists. exists log. split; [exact He|].
  assert (Hkeys : map fst (collected (consumed net max_pages))
                  = first_seen [] (map fst (valid_records (consumed net max_pages))))
    by (unfold collected; now rewrite merge_keys).
  assert (Hlen : length (collected (consumed net max_pages))
                 = length (first_seen [] (map fst (valid_records (consumed net max_pages)))))
    by (rewrite <- Hkeys; now rewrite length_map).
  split.
  - rewrite length_map, cap_length, Hlen. reflexivity.
  - intros Hle it name Hit Hname.
    rewrite cap_all by (rewrite Hlen; lia).
    rewrite names_of_entries by (intros kv Hkv; now apply (collected_name _ _ Hkv)).
    rewrite Hkeys.
    destruct (first_seen_complete (map fst (valid_records (consumed net max_pages)))
                [] name) as [[]|H]; [|exact H].
    apply valid_records_names. now exists it.
Qed.

(** ** Larger bounds give more of the same *)

Lemma good_pages_mono net : forall n n' p,
  (n <= n')%nat -> exists more, good_pages net n' p = good_pages net n p ++ more.
Proof.
  induction n as [|n IH]; intros n' p Hle.
  - now exists (good_pages net n' p).
  - destruct n' as [|n']; [lia|]. cbn [good_pages].
    destruct (page_items net p) as [l|]; [|now exists []].
    destruct (IH n' (p + 1)) as [more Hm]; [lia|].
    exists more. now rewrite Hm.
Qed.

Lemma firstn_app_prefix {A : Type} (l e : list A) m m' :
  (m <= m')%nat -> exists t, firstn m' (l ++ e) = firstn m l ++ t.
Proof.
  intros Hle.
  exists (firstn (m - length l) e ++ skipn m (firstn m' (l ++ e))).
  rewrite <- (firstn_skipn m (firstn m' (l ++ e))) at 1.
  rewrite firstn_firstn, Nat.min_l by exact Hle.
  rewrite firstn_app, app_assoc. reflexivity.
Qed.

(** X6. Raising [max_repos] or [max_pages] only adds records at the end: the
    records returned for the smaller bounds are the first records returned
    for the larger ones. *)
Theorem X6_larger_bounds_extend_the_result
    (net : network) (max_repos max_repos' max_pages max_pages' : Z) :
  max_repos <= max_repos' ->
  max_pages <= max_pages' ->
  exists out log out' log' more,
    search_repos_with_cook_files net max_repos max_pages = Some (out, log) /\
    search_repos_with_cook_files net max_repos' max_pages' = Some (out', log') /\
    out' = out ++ more.
Proof.
  intros Hr Hp.
  destruct (search_result net max_repos max_pages) as [log [He _]].
  destruct (search_result net max_repos' max_pages') as [log' [He' _]].
  destruct (good_pages_mono net (Z.to_nat max_pages) (Z.to_nat max_pages') 1) as [more Hm];
    [lia|].
  assert (Hc : exists extra,
             collected (consumed net max_pages')
             = collected (consumed net max_pages) ++ extra).
  { unfold collected, consumed. rewrite Hm, concat_app, valid_records_app, merge_app.
    apply merge_extends. }
  destruct Hc as [extra Hc].
  destruct (firstn_app_prefix (collected (consumed net max_pages)) extra
              (Z.to_nat max_repos) (Z.to_nat max_repos')) as [t Ht]; [lia|].
  eexists. exists log. eexists. exists log'. exists (map snd t).
  split; [exact He|]. split; [exact He'|].
  unfold cap. rewrite Hc, Ht. apply map_app.
Qed.

Lemma X6_larger_bounds_witness :
  exists out log out' log' more,
    search_repos_with_cook_files (net_of_pages 5 Samples.two_pages) 2 1 = Some (out, log) /\
    search_repos_with_cook_files (net_of_pages 5 Samples.two_pages) 10 5
    = Some (out', log') /\
    out' = out ++ more.
Proof.
  apply (X6_larger_bounds_extend_the_result (net_of_pages 5 Samples.two_pages) 2 10 1 5);
    lia.
Defined.

(** * More about the feed manager *)

Import EscapeSpec.

Lemma option_string_eqb_eq a b : option_string_eqb a b = true <-> a = b.
Proof.
  destruct a as [x|], b as [y|]; simpl; split; intros H; try congruence.
  - apply String.eqb_eq in H. now subst.
  - inversion H. apply String.eqb_refl.
Qed.

Lemma is_feed_exists_iff (m : FeedManager.t) (u : option string) :
  is_feed_exists m u = true <-> exists fd, In fd (feed_list m) /\ feed_url fd = u.
Proof.
  unfold is_feed_exists, feed_list. rewrite existsb_exists.
  split; intros [fd [Hin H]]; exists fd; (split; [exact Hin|]);
    now apply option_string_eqb_eq.
Qed.

(** X7. [is_feed_exists] answers true exactly when some entry of the
    document has the given url, an entry without url counting for the url
    [None]; in a document without [feeds] it answers false. *)
Theorem X7_is_feed_exists_exact (m : FeedManager.t) (u : option string) :
  (is_feed_exists m u = true <-> exists fd, In fd (feed_list m) /\ feed_url fd = u) /\
  (feeds (cfg m) = None -> is_feed_exists m u = false).
Proof.
  split; [apply is_feed_exists_iff|].
  intros Hnone. unfold is_feed_exists. now rewrite Hnone.
Qed.

Lemma add_feed_list m r by1 today :
  feed_list (snd (fst (add_feed m r by1 today)))
  = if is_feed_exists m (url r) then feed_list m
    else feed_list m ++ [new_feed r by1 today].
Proof.
  unfold add_feed. destruct (is_feed_exists m (url r)); [reflexivity|].
  unfold feed_list. destruct m as [pth [v [fs|]] hd ft]; reflexivity.
Qed.

(** X8. After [add_feed], whatever it returned, the url of the record
    exists in the document, and so does every url that existed before. *)
Theorem X8_urls_exist_after_add
    (m : FeedManager.t) (r : repo) (by1 today : string) :
  let m' := snd (fst (add_feed m r by1 today)) in
  is_feed_exists m' (url r) = true /\
  forall u, is_feed_exists m u = true -> is_feed_exists m' u = true.
Proof.
  cbv zeta. split; [apply is_feed_exists_after_add|].
  intros u Hu. apply is_feed_exists_iff.
  apply is_feed_exists_iff in Hu. destruct Hu as [fd [Hin Hfd]].
  exists fd. split; [|exact Hfd]. rewrite add_feed_list.
  destruct (is_feed_exists m (url r)); [exact Hin|]. apply in_app_iff. now left.
Qed.

Lemma add_feeds_cons m r rs by1 today :
  add_feeds m (r :: rs) by1 today
  = add_feeds (snd (fst (add_feed m r by1 today))) rs by1 today.
Proof. reflexivity. Qed.

Lemma add_feed_keeps_urls_distinct m r by1 today :
  NoDup (map feed_url (feed_list m)) ->
  NoDup (map feed_url (feed_list (snd (fst (add_feed m r by1 today))))).
Proof.
  intros Hnd. rewrite add_feed_list.
  destruct (is_feed_exists m (url r)) eqn:He; [exact Hnd|].
  rewrite map_app. apply NoDup_app; [exact Hnd|repeat constructor; intros []|].
  intros u Hu [Heq|[]]. cbn [new_feed feed_url] in Heq. subst u.
  apply in_map_iff in Hu. destruct Hu as [fd [Hfd Hin]].
  assert (is_feed_exists m (url r) = true)
    by (apply is_feed_exists_iff; now exists fd).
  congruence.
Qed.

(** X9. [add_feed] keeps the urls of the document pairwise different: a
    document without two entries of the same url has none after any number
    of calls, whatever the records. *)
Theorem X9_urls_stay_unique
    (m : FeedManager.t) (rs : list repo) (by1 today : string) :
  NoDup (map feed_url (feed_list m)) ->
  NoDup (map feed_url (feed_list (add_feeds m rs by1 today))).
Proof.
  revert m. induction rs as [|r rs IH]; intros m Hnd; [exact Hnd|].
  rewrite add_feeds_cons. apply IH. now apply add_feed_keeps_urls_distinct.
Qed.

Lemma X9_urls_stay_unique_witness :
  NoDup (map feed_url
           (feed_list (add_feeds Samples.two_entries_manager
                         [Samples.sample_repo; Samples.backslash_repo; Samples.sample_repo]
                         "@bot" "2025-01-01"))).
Proof.
  apply (X9_urls_stay_unique Samples.two_entries_manager
           [Samples.sample_repo; Samples.backslash_repo; Samples.sample_repo]
           "@bot" "2025-01-01").
  simpl. repeat constructor; simpl; intuition discriminate.
Defined.

Lemma add_feed_rest m r by1 today :
  version (cfg (snd (fst (add_feed m r by1 today)))) = version (cfg m) /\
  config_path (snd (fst (add_feed m r by1 today))) = config_path m.
Proof.
  unfold add_feed. destruct (is_feed_exists m (url r)); [split; reflexivity|].
  cbn. destruct (feeds (cfg m)); split; reflexivity.
Qed.

(** X10. [add_feed] only appends: after any number of calls the entries
    that were there come first, unchanged and in their order, followed by
    entries built from some of the records; the version, the path, the
    header and the footer are as before. *)
Theorem X10_add_feed_only_appends
    (m : FeedManager.t) (rs : list repo) (by1 today : string) :
  let m' := add_feeds m rs by1 today in
  (exists added,
     incl added rs /\
     feed_list m' = feed_list m ++ map (fun r => new_feed r by1 today) added) /\
  version (cfg m') = version (cfg m) /\
  config_path m' = config_path m /\
  header_lines m' = header_lines m /\
  footer_lines m' = footer_lines m.
Proof.
  cbv zeta. revert m. induction rs as [|r rs IH]; intros m.
  - split; [|repeat split]. exists []. split; [intros x []|]. simpl. now rewrite app_nil_r.
  - rewrite add_feeds_cons.
    destruct (IH (snd (fst (add_feed m r by1 today)))) as [[added [Hincl Hl]] [Hv [Hp [Hh Hf]]]].
    destruct (add_feed_rest m r by1 today) as [Hv' Hp'].
    destruct (add_feed_frame m r by1 today) as [Hh' Hf'].
    split; [|rewrite Hv, Hp, Hh, Hf, Hv', Hp', Hh', Hf'; repeat split].
    rewrite Hl, add_feed_list. destruct (is_feed_exists m (url r)).
    + exists added. split; [|reflexivity]. intros x Hx. right. now apply Hincl.
    + exists (r :: added). split.
      * intros x [<-|Hx]; [now left|right; now apply Hincl].
      * cbn [map]. now rewrite <- app_assoc.
Qed.

(** ** What an added entry changes in the text written *)

Lemma write_feeds_snoc x : forall l a i n,
  0 <= i ->
  n = i + Z.of_nat (length (a :: l)) ->
  write_feeds i (n + 1) ((a :: l) ++ [x])
  = write_feeds i n (a :: l) +++ NL +++ write_feed x.
Proof.
  induction l as [|b l IH]; intros a i n Hi Hn.
  - cbn [length] in Hn. cbn [app write_feeds].
    replace (i <? n + 1 - 1) with true by (symmetry; apply Z.ltb_lt; lia).
    replace (i <? n - 1) with false by (symmetry; apply Z.ltb_ge; lia).
    replace (i + 1 =? 0) with false by (symmetry; apply Z.eqb_neq; lia).
    replace (i + 1 <? n + 1 - 1) with false by (symmetry; apply Z.ltb_ge; lia).
    cbn [String.append]. rewrite !append_assoc, !append_nil_r. reflexivity.
  - change ((a :: b :: l) ++ [x]) with (a :: ((b :: l) ++ [x])).
    cbn [write_feeds].
    rewrite (IH b (i + 1) n) by (cbn [length] in *; lia).
    replace (i <? n + 1 - 1) with true by (symmetry; apply Z.ltb_lt; cbn [length] in Hn; lia).
    replace (i <? n - 1) with true by (symmetry; apply Z.ltb_lt; cbn [length] in Hn; lia).
    cbn [write_feeds]. rewrite !append_assoc. reflexivity.
Qed.

Lemma write_feeds_append l x :
  write_feeds 0 (Z.of_nat (length (l ++ [x]))) (l ++ [x])
  = write_feeds 0 (Z.of_nat (length l)) l +++ entry_lead l +++ write_feed x.
Proof.
  destruct l as [|a l].
  - cbn. now rewrite !append_nil_r.
  - replace (Z.of_nat (length ((a :: l) ++ [x])))
      with (Z.of_nat (length (a :: l)) + 1)
      by (rewrite length_app; cbn [length]; lia).
    rewrite (write_feeds_snoc x l a 0 (Z.of_nat (length (a :: l)))) by lia.
    reflexivity.
Qed.

(** X11. Adding an entry leaves the text of what was there as it is: the
    text saved after a successful [add_feed] is the text that would have
    been saved before it, with the new entry put in between the last entry
    and the footer, after a blank line (after the comment line when it is
    the first entry). *)
Theorem X11_saved_text_grows_by_the_entry
    (m : FeedManager.t) (r : repo) (by1 today : string) :
  is_feed_exists m (url r) = false ->
  exists head,
    save_text m = head +++ footer_text m /\
    save_text (snd (fst (add_feed m r by1 today)))
    = head +++ entry_lead (feed_list m) +++ write_feed (new_feed r by1 today)
      +++ footer_text m.
Proof.
  intros He.
  exists ((match header_lines m with
           | [] => ""
           | _ :: _ => write_lines (header_lines m) +++ NL
           end) +++
          "version: " +++ version_text (cfg m) +++ NL +++ NL +++
          "feeds:" +++ NL +++
          write_feeds 0 (Z.of_nat (length (feed_list m))) (feed_list m)).
  split.
  - unfold save_text, footer_text, feed_list. rewrite !append_assoc. reflexivity.
  - pose proof (add_feed_list m r by1 today) as Hl. rewrite He in Hl.
    destruct (add_feed_rest m r by1 today) as [Hv _].
    destruct (add_feed_frame m r by1 today) as [Hh Hf].
    unfold save_text, footer_text, version_text.
    fold (feed_list (snd (fst (add_feed m r by1 today)))).
    rewrite Hv, Hh, Hf, Hl, write_feeds_append. rewrite !append_assoc. reflexivity.
Qed.

Lemma X11_saved_text_witness :
  exists head,
    save_text Samples.two_entries_manager
    = head +++ footer_text Samples.two_entries_manager /\
    save_text (snd (fst (add_feed Samples.two_entries_manager
                           (hd Samples.sample_repo Samples.candidates)
                           "@bot" "2025-01-01")))
    = head +++ entry_lead (feed_list Samples.two_entries_manager)
      +++ write_feed (new_feed (hd Samples.sample_repo Samples.candidates)
                        "@bot" "2025-01-01")
      +++ footer_text Samples.two_entries_manager.
Proof.
  apply (X11_saved_text_grows_by_the_entry Samples.two_entries_manager
           (hd Samples.sample_repo Samples.candidates) "@bot" "2025-01-01").
  vm_compute. reflexivity.
Defined.

(** ** The escape can be undone *)

Lemma escape_head_not_quote s :
  match _escape_yaml_string (Some s) with
  | String d _ => Ascii.eqb d Py.dq = false
  | EmptyString => s = EmptyString
  end.
Proof.
  unfold _escape_yaml_string. destruct s as [|c s]; [reflexivity|].
  cbn [Py.replace1]. destruct (Ascii.eqb c Py.dq) eqn:Hq; [reflexivity|exact Hq].
Qed.

Lemma unescape_escape s : unescape_quotes (_escape_yaml_string (Some s)) = s.
Proof.
  induction s as [|c s IH]; [reflexivity|].
  pose proof (escape_head_not_quote s) as Hhead.
  unfold _escape_yaml_string, Py.chr in *.
  change (String Py.bs "" +++ String Py.dq "") with (String Py.bs (String Py.dq "")) in *.
  cbn [Py.replace1].
  destruct (Ascii.eqb c Py.dq) eqn:Hq.
  - apply Ascii.eqb_eq in Hq. subst c.
    cbn [String.append unescape_quotes]. rewrite !Ascii.eqb_refl. now rewrite IH.
  - cbn [unescape_quotes]. destruct (Ascii.eqb c Py.bs) eqn:Hb.
    + destruct (Py.replace1 Py.dq (String Py.bs (String Py.dq "")) s)
        as [|d rest] eqn:He.
      * now rewrite Hhead.
      * rewrite Hhead. now rewrite IH.
    + now rewrite IH.
Qed.

(** X12. [_escape_yaml_string] loses nothing: putting a double quote back
    for each backslash followed by a double quote gives the text that was
    escaped, so two different texts are never escaped to the same text. *)
Theorem X12_escape_can_be_undone (s1 s2 : string) :
  unescape_quotes (_escape_yaml_string (Some s1)) = s1 /\
  (_escape_yaml_string (Some s1) = _escape_yaml_string (Some s2) -> s1 = s2).
Proof.
  split; [apply unescape_escape|].
  intros H. rewrite <- (unescape_escape s1), <- (unescape_escape s2). now rewrite H.
Qed.

Lemma escape_without_quote s :
  has_char Py.dq s = false -> _escape_yaml_string (Some s) = s.
Proof.
  unfold _escape_yaml_string. induction s as [|c s IH]; intros H; [reflexivity|].
  cbn [has_char] in H. apply orb_false_iff in H. destruct H as [Hc Hs].
  cbn [Py.replace1]. rewrite Hc. now rewrite IH.
Qed.

(** X13. A text without double quote is written as it is, and the escaped
    form of a text without backslash can stand between double quotes: read
    from left to right, a backslash taking the next character with it, no
    double quote of it stands alone and it does not end on a backslash. *)
Theorem X13_escape_of_plain_text (s : string) :
  (has_char Py.dq s = false -> _escape_yaml_string (Some s) = s) /\
  (has_char Py.bs s = false ->
   breaks_quoted_scalar (_escape_yaml_string (Some s)) = false).
Proof.
  split; [apply escape_without_quote|apply escape_without_backslash].
Qed.

(** * More about the entry point *)

Import RunSpec.

Lemma add_feed_events m r by1 today :
  writes (snd (add_feed m r by1 today)) = [] /\
  requested_pages (snd (add_feed m r by1 today)) = [].
Proof.
  unfold add_feed. destruct (is_feed_exists m (url r)); split; reflexivity.
Qed.

Lemma add_feed_result m r by1 today :
  fst (fst (add_feed m r by1 today)) = negb (is_feed_exists m (url r)).
Proof.
  unfold add_feed. now destruct (is_feed_exists m (url r)).
Qed.

(** The loop of [main] when it adds: it is [add_feed] for each candidate in
    turn, and it counts the entries appended. *)
Lemma process_repos_normal a today : forall repos m c log,
  dry_run a = false ->
  exists evs,
    process_repos a today repos m c log
    = (add_feeds m repos (added_by a) today,
       c + (Z.of_nat (length (feed_list (add_feeds m repos (added_by a) today)))
            - Z.of_nat (length (feed_list m))),
       log ++ evs) /\
    writes evs = [] /\ requested_pages evs = [].
Proof.
  induction repos as [|r repos IH]; intros m c log Hd.
  - exists []. cbn [process_repos add_feeds fold_left]. rewrite app_nil_r, Z.sub_diag, Z.add_0_r.
    repeat split.
  - cbn [process_repos]. rewrite Hd. rewrite add_feeds_cons.
    pose proof (add_feed_result m r (added_by a) today) as Hres.
    pose proof (add_feed_list m r (added_by a) today) as Hlist.
    destruct (add_feed_events m r (added_by a) today) as [Hw Hq].
    destruct (add_feed m r (added_by a) today) as [[b m'] evs]. cbn [fst snd] in *.
    destruct (is_feed_exists m (url r)); cbn [negb] in Hres; subst b.
    + destruct (IH m' c (log ++ evs) Hd) as [evs' [He [Hw' Hq']]].
      exists (evs ++ evs'). rewrite He, Hlist, <- app_assoc.
      rewrite writes_app, requested_pages_app, Hw, Hw', Hq, Hq'. repeat split.
    + destruct (IH m' (c + 1) (log ++ evs) Hd) as [evs' [He [Hw' Hq']]].
      exists (evs ++ evs'). rewrite He, Hlist, <- app_assoc.
      rewrite writes_app, requested_pages_app, Hw, Hw', Hq, Hq'.
      split; [|split; reflexivity]. f_equal. f_equal.
      rewrite length_app. cbn [length]. lia.
Qed.

(** The loop of [main] in a dry run: the manager is left alone, and the
    count is the number of candidates whose url is not in the document. *)
Lemma process_repos_dry a today : forall repos m c log,
  dry_run a = true ->
  exists evs,
    process_repos a today repos m c log
    = (m, c + Z.of_nat (length (new_candidates m repos)), log ++ evs) /\
    writes evs = [] /\ requested_pages evs = [].
Proof.
  induction repos as [|r repos IH]; intros m c log Hd.
  - exists []. cbn. rewrite app_nil_r, Z.add_0_r. repeat split.
  - cbn [process_repos new_candidates filter]. rewrite Hd.
    fold (new_candidates m repos).
    destruct (is_feed_exists m (url r)); cbn [negb].
    + destruct (IH m c (log ++ [Stdout ("  [DRY RUN] Would skip " +++ full_name r
                                       +++ " (already exists)")]) Hd)
        as [evs' [He [Hw' Hq']]].
      eexists (_ :: evs'). rewrite He, <- app_assoc. split; [reflexivity|].
      split; [exact Hw'|exact Hq'].
    + destruct (IH m (c + 1)
                  (log ++ [Stdout ("  [DRY RUN] Would add " +++ full_name r +++ " (⭐ "
                                   +++ Py.str_int (stars r) +++ ")")]) Hd)
        as [evs' [He [Hw' Hq']]].
      eexists (_ :: evs'). rewrite He, <- app_assoc. split.
      { cbn [app length]. rewrite Nat2Z.inj_succ.
        replace (c + 1 + Z.of_nat (length (new_candidates m repos)))
          with (c + Z.succ (Z.of_nat (length (new_candidates m repos)))) by lia.
        reflexivity. }
      split; [exact Hw'|exact Hq'].
Qed.

Lemma search_returns net max_repos max_pages :
  exists out slog,
    search_repos_with_cook_files net max_repos max_pages = Some (out, slog) /\
    writes slog = [].
Proof.
  destruct (search_result net max_repos max_pages) as [slog [He [Hw _]]].
  eexists. exists slog. split; [exact He|exact Hw].
Qed.

(** X14. A run writes the configuration file at most once, and only when
    it is no dry run and at least one entry was appended to the loaded
    document.  What it writes is what [save_config] makes of that document
    after [add_feed] of the selected candidates: the whole text, and the run
    ends with status 0, when the [tags] of every entry is a list or absent;
    when the [tags] of an entry holds [None], the beginning of that text up
    to the line [tags:] of the first such entry, without the footer, and the
    run ends on the exception.  A dry run writes nothing. *)
Theorem X14_main_writes_the_file_once (a : args) (e : env) :
  exists st log,
    main a e = Some (st, log) /\
    (writes log = [] \/
     exists text m0 out slog,
       env_config_file e = Some text /\
       FeedManager.init (env_safe_load e) (env_config_path e) text = Some m0 /\
       search_repos_with_cook_files (env_net e) (limit a * 5) (max_pages a)
       = Some (out, slog) /\
       let sel := select (env_shuffle e) (randomize a) (limit a) out in
       let m := add_feeds m0 sel (added_by a) (env_today e) in
       dry_run a = false /\
       (length (feed_list m0) < length (feed_list m))%nat /\
       (savable m = true -> writes log = [save_text m] /\ st = Exit 0) /\
       (savable m = false ->
        exists written pre rest,
          writes log = [written] /\ st = Uncaught /\
          written = pre +++ "    tags:" +++ NL /\
          save_text m = written +++ rest /\ rest <> "")) /\
    (dry_run a = true -> writes log = []).
Proof.
  unfold main.
  destruct (negb (Py.truthy_opt (token a))).
  { eexists. eexists. split; [reflexivity|]. split; [now left|reflexivity]. }
  destruct (env_config_file e) as [text|] eqn:Hfile.
  2:{ eexists. eexists. split; [reflexivity|]. split; [now left|reflexivity]. }
  destruct (FeedManager.init (env_safe_load e) (env_config_path e) text) as [m0|] eqn:Hinit.
  2:{ eexists. eexists. split; [reflexivity|]. split; [now left|reflexivity]. }
  destruct (search_returns (env_net e) (limit a * 5) (max_pages a)) as [out [slog [Hs Hws]]].
  rewrite Hs. destruct out as [|r0 rs].
  { eexists. eexists. split; [reflexivity|].
    assert (Hw : writes (([Stdout ("Using config file: " +++ env_config_path e); Stdout ""]
                          ++ slog) ++ [Stdout "No repositories found."]) = [])
      by (rewrite !writes_app, Hws; reflexivity).
    split; [now left|intros _; exact Hw]. }
  destruct (dry_run a) eqn:Hd.
  - match goal with
    | |- context [process_repos ?a' ?t ?r ?m ?c ?l] =>
        destruct (process_repos_dry a' t r m c l Hd) as [evs [Hp [Hw _]]]; rewrite Hp
    end.
    cbn [negb andb]. eexists. eexists. split; [reflexivity|].
    assert (Hall : forall A B : Prop, A -> (A \/ B) /\ (true = true -> A)) by tauto.
    apply Hall.
    destruct (randomize a); rewrite !writes_app, Hws, Hw; reflexivity.
  - match goal with
    | |- context [process_repos ?a' ?t ?r ?m ?c ?l] =>
        destruct (process_repos_normal a' t r m c l Hd) as [evs [Hp [Hw _]]]; rewrite Hp
    end.
    cbn [negb andb].
    set (sel := select (env_shuffle e) (randomize a) (limit a) (r0 :: rs)) in *.
    set (m := add_feeds m0 sel (added_by a) (env_today e)) in *.
    destruct (0 + (Z.of_nat (length (feed_list m)) - Z.of_nat (length (feed_list m0))) >? 0)
      eqn:Hc.
    + assert (Hgrow : (length (feed_list m0) < length (feed_list m))%nat)
        by (rewrite Z.gtb_ltb in Hc; apply Z.ltb_lt in Hc; lia).
      unfold save_config. destruct (savable m) eqn:Hsav.
      * rewrite (save_run_ok m Hsav). cbn [fst snd].
        eexists. eexists. split; [reflexivity|]. split; [|discriminate].
        right. exists text, m0, (r0 :: rs), slog.
        split; [reflexivity|]. split; [exact Hinit|]. split; [reflexivity|].
        cbv zeta. fold sel. fold m. split; [reflexivity|]. split; [exact Hgrow|].
        rewrite Hsav. split; [|discriminate]. intros _. split; [|reflexivity].
        destruct (randomize a); rewrite !writes_app, Hws, Hw; reflexivity.
      * destruct (save_run_stops m Hsav) as [w [pre [rest [Hr [Hpre [Hrest Hne]]]]]].
        rewrite Hr. cbn [fst snd].
        eexists. eexists. split; [reflexivity|]. split; [|discriminate].
        right. exists text, m0, (r0 :: rs), slog.
        split; [reflexivity|]. split; [exact Hinit|]. split; [reflexivity|].
        cbv zeta. fold sel. fold m. split; [reflexivity|]. split; [exact Hgrow|].
        rewrite Hsav. split; [discriminate|]. intros _.
        exists w, pre, rest. split; [|split; [reflexivity|]].
        -- destruct (randomize a); rewrite !writes_app, Hws, Hw; reflexivity.
        -- split; [exact Hpre|]. split; [exact Hrest|exact Hne].
    + eexists. eexists. split; [reflexivity|].
      assert (Hall : forall A B : Prop, A -> (A \/ B) /\ (false = true -> A)) by tauto.
      apply Hall.
      destruct (randomize a); rewrite !writes_app, Hws, Hw; reflexivity.
Qed.

(** ** The candidates, one after the other *)

Lemma add_feeds_keeps_urls rs by1 today : forall m u,
  is_feed_exists m u = true -> is_feed_exists (add_feeds m rs by1 today) u = true.
Proof.
  induction rs as [|r rs IH]; intros m u Hu; [exact Hu|].
  rewrite add_feeds_cons. apply IH.
  apply is_feed_exists_iff. apply is_feed_exists_iff in Hu.
  destruct Hu as [fd [Hin Hfd]]. exists fd. split; [|exact Hfd].
  rewrite add_feed_list. destruct (is_feed_exists m (url r)); [exact Hin|].
  apply in_app_iff. now left.
Qed.

Lemma add_feeds_has_every_url rs by1 today : forall m r,
  In r rs -> is_feed_exists (add_feeds m rs by1 today) (url r) = true.
Proof.
  induction rs as [|r0 rs IH]; intros m r Hin; [contradiction|].
  rewrite add_feeds_cons. destruct Hin as [<-|Hin].
  - apply add_feeds_keeps_urls. apply is_feed_exists_after_add.
  - now apply IH.
Qed.

(** X15. When [main] adds, its loop is [add_feed] for each selected
    candidate in turn; the count it reports is the number of entries
    appended to the document, and afterwards the url of every candidate
    exists in the document. *)
Theorem X15_added_count_is_the_growth
    (a : args) (today : string) (repos : list repo) (m : FeedManager.t)
    (log : list event) :
  dry_run a = false ->
  let res := process_repos a today repos m 0 log in
  let m' := fst (fst res) in
  let count := snd (fst res) in
  m' = add_feeds m repos (added_by a) today /\
  Z.of_nat (length (feed_list m')) = Z.of_nat (length (feed_list m)) + count /\
  (forall r, In r repos -> is_feed_exists m' (url r) = true) /\
  writes (snd res) = writes log.
Proof.
  intros Hd. cbv zeta.
  destruct (process_repos_normal a today repos m 0 log Hd) as [evs [He [Hw _]]].
  rewrite He. cbn [fst snd]. split; [reflexivity|]. split; [lia|]. split.
  - intros r Hin. now apply add_feeds_has_every_url.
  - rewrite writes_app, Hw. apply app_nil_r.
Qed.

Lemma X15_added_count_witness :
  let res := process_repos Samples.run_args "2025-01-01"
               [Samples.sample_repo; Samples.sample_repo] Samples.small_manager 0 [] in
  let m' := fst (fst res) in
  let count := snd (fst res) in
  m' = add_feeds Samples.small_manager [Samples.sample_repo; Samples.sample_repo]
         (added_by Samples.run_args) "2025-01-01" /\
  Z.of_nat (length (feed_list m'))
  = Z.of_nat (length (feed_list Samples.small_manager)) + count /\
  (forall r, In r [Samples.sample_repo; Samples.sample_repo] ->
             is_feed_exists m' (url r) = true) /\
  writes (snd res) = writes [].
Proof.
  apply (X15_added_count_is_the_growth Samples.run_args "2025-01-01"
           [Samples.sample_repo; Samples.sample_repo] Samples.small_manager []).
  reflexivity.
Defined.

Lemma is_feed_exists_list m u :
  is_feed_exists m u = existsb (fun fd => option_string_eqb (feed_url fd) u) (feed_list m).
Proof. reflexivity. Qed.

Lemma is_feed_exists_add_other m r by1 today u :
  u <> url r ->
  is_feed_exists (snd (fst (add_feed m r by1 today))) u = is_feed_exists m u.
Proof.
  intros Hne. rewrite !is_feed_exists_list, add_feed_list.
  destruct (is_feed_exists m (url r)); [reflexivity|].
  rewrite existsb_app. cbn [existsb new_feed feed_url].
  destruct (option_string_eqb (url r) u) eqn:He.
  - apply option_string_eqb_eq in He. congruence.
  - now rewrite !orb_false_r.
Qed.

Lemma new_candidates_ext m1 m2 repos :
  (forall r, In r repos -> is_feed_exists m1 (url r) = is_feed_exists m2 (url r)) ->
  new_candidates m1 repos = new_candidates m2 repos.
Proof.
  intros H. unfold new_candidates. apply filter_ext_in. intros r Hin. now rewrite H.
Qed.

Lemma add_feeds_growth by1 today : forall repos m,
  NoDup (map url repos) ->
  length (feed_list (add_feeds m repos by1 today))
  = (length (feed_list m) + length (new_candidates m repos))%nat.
Proof.
  induction repos as [|r repos IH]; intros m Hnd.
  - cbn. lia.
  - cbn [map] in Hnd. inversion Hnd as [|? ? Hnot Hnd']; subst.
    rewrite add_feeds_cons, (IH _ Hnd').
    assert (Hsame : new_candidates (snd (fst (add_feed m r by1 today))) repos
                    = new_candidates m repos).
    { apply new_candidates_ext. intros r' Hin. apply is_feed_exists_add_other.
      intros Heq. apply Hnot. rewrite <- Heq. now apply in_map. }
    rewrite Hsame, add_feed_list. cbn [new_candidates filter].
    fold (new_candidates m repos).
    destruct (is_feed_exists m (url r)); cbn [negb].
    + reflexivity.
    + rewrite length_app. cbn [length]. lia.
Qed.

(** X16. A dry run leaves the document as it is and counts the candidates
    whose url is not in it; when the urls of the candidates are pairwise
    different, this count is the count of the entries a run that adds would
    append. *)
Theorem X16_dry_run_counts_what_would_be_added
    (a1 a2 : args) (today : string) (repos : list repo) (m : FeedManager.t)
    (log1 log2 : list event) :
  dry_run a1 = true ->
  dry_run a2 = false ->
  NoDup (map url repos) ->
  fst (fst (process_repos a1 today repos m 0 log1)) = m /\
  snd (fst (process_repos a1 today repos m 0 log1))
  = Z.of_nat (length (new_candidates m repos)) /\
  snd (fst (process_repos a1 today repos m 0 log1))
  = snd (fst (process_repos a2 today repos m 0 log2)).
Proof.
  intros Hd1 Hd2 Hnd.
  destruct (process_repos_dry a1 today repos m 0 log1 Hd1) as [evs1 [He1 _]].
  destruct (process_repos_normal a2 today repos m 0 log2 Hd2) as [evs2 [He2 _]].
  rewrite He1, He2. cbn [fst snd]. split; [reflexivity|]. split; [lia|].
  rewrite (add_feeds_growth (added_by a2) today repos m Hnd). lia.
Qed.

Lemma X16_dry_run_witness :
  fst (fst (process_repos
              {| token := Some "t"; limit := 10; max_pages := 10; randomize := false;
                 dry_run := true; added_by := "@bot" |}
              "2025-01-01" Samples.candidates Samples.two_entries_manager 0 []))
  = Samples.two_entries_manager /\
  snd (fst (process_repos
              {| token := Some "t"; limit := 10; max_pages := 10; randomize := false;
                 dry_run := true; added_by := "@bot" |}
              "2025-01-01" Samples.candidates Samples.two_entries_manager 0 []))
  = Z.of_nat (length (new_candidates Samples.two_entries_manager Samples.candidates)) /\
  snd (fst (process_repos
              {| token := Some "t"; limit := 10; max_pages := 10; randomize := false;
                 dry_run := true; added_by := "@bot" |}
              "2025-01-01" Samples.candidates Samples.two_entries_manager 0 []))
  = snd (fst (process_repos Samples.run_args "2025-01-01" Samples.candidates
                Samples.two_entries_manager 0 [])).
Proof.
  apply (X16_dry_run_counts_what_would_be_added
           {| token := Some "t"; limit := 10; max_pages := 10; randomize := false;
              dry_run := true; added_by := "@bot" |}
           Samples.run_args "2025-01-01" Samples.candidates
           Samples.two_entries_manager [] []).
  - reflexivity.
  - reflexivity.
  - simpl. repeat constructor; simpl; intuition discriminate.
Defined.

(** ** How a run ends *)

Lemma no_member_nil {A : Type} (l : list A) : (forall x, ~ In x l) -> l = [].
Proof.
  destruct l as [|x l]; [reflexivity|]. intros H. exfalso. apply (H x). now left.
Qed.

(** X17. The checks come before anything else.  A run without a token
    ends with status 1; a run with a token but without the configuration
    file ends with status 1; a run whose configuration file the parser
    refuses ends on the exception.  None of these runs makes a request or
    writes the file, and the first two print to the error stream only. *)
Theorem X17_checks_come_before_requests (a : args) (e : env) (st0 : status) :
  early_exit a e = Some st0 ->
  exists log,
    main a e = Some (st0, log) /\
    requested_pages log = [] /\ writes log = [] /\
    (st0 = Exit 1 -> forall ev, In ev log -> exists line, ev = Stderr line).
Proof.
  unfold main, early_exit, FeedManager.init.
  destruct (negb (Py.truthy_opt (token a))).
  { intros H. inversion H; subst. eexists. split; [reflexivity|].
    split; [reflexivity|]. split; [reflexivity|]. intros _ ev Hin.
    cbn [In] in Hin. repeat (destruct Hin as [<-|Hin]; [eexists; reflexivity|]).
    contradiction. }
  destruct (env_config_file e) as [text|].
  2:{ intros H. inversion H; subst. eexists. split; [reflexivity|].
      split; [reflexivity|]. split; [reflexivity|]. intros _ ev Hin.
      destruct Hin as [<-|[]]. eexists. reflexivity. }
  destruct (env_safe_load e text) as [c|]; [discriminate|].
  intros H. inversion H; subst. eexists. split; [reflexivity|].
  split; [reflexivity|]. split; [reflexivity|]. discriminate.
Qed.

Lemma X17_checks_witness :
  exists log,
    main {| token := None; limit := 10; max_pages := 10; randomize := false;
            dry_run := false; added_by := "@bot" |}
         (Samples.env_with (net_of_pages 5 Samples.two_pages))
    = Some (Exit 1, log) /\
    requested_pages log = [] /\ writes log = [] /\
    (Exit 1 = Exit 1 -> forall ev, In ev log -> exists line, ev = Stderr line).
Proof.
  apply (X17_checks_come_before_requests
           {| token := None; limit := 10; max_pages := 10; randomize := false;
              dry_run := false; added_by := "@bot" |}
           (Samples.env_with (net_of_pages 5 Samples.two_pages)) (Exit 1)).
  reflexivity.
Defined.

Lemma search_without_room net max_repos max_pages :
  max_repos <= 0 \/ max_pages <= 0 ->
  exists slog,
    search_repos_with_cook_files net max_repos max_pages = Some ([], slog) /\
    requested_pages slog = [] /\ writes slog = [].
Proof.
  intros Hle.
  destruct (search_result net max_repos max_pages) as [slog [He [Hw [Hreq _]]]].
  exists slog. split; [|split; [|exact Hw]].
  - rewrite He. f_equal. f_equal. destruct Hle as [Hle|Hle].
    + unfold cap. replace (Z.to_nat max_repos) with 0%nat by lia. reflexivity.
    + unfold consumed. replace (Z.to_nat max_pages) with 0%nat by lia.
      unfold cap, collected. cbn. now rewrite firstn_nil.
  - apply no_member_nil. intros p Hin. apply Hreq in Hin.
    destruct Hin as [Hp [_ Hlen]]. lia.
Qed.

(** X18. With a limit or a number of pages that is zero or negative, a run
    with a token and a configuration file that parses makes no request,
    reports that no repositories were found, writes nothing and ends with
    status 0. *)
Theorem X18_no_room_no_request
    (a : args) (e : env) (text : string) (m : FeedManager.t) :
  Py.truthy_opt (token a) = true ->
  env_config_file e = Some text ->
  FeedManager.init (env_safe_load e) (env_config_path e) text = Some m ->
  limit a <= 0 \/ max_pages a <= 0 ->
  exists log,
    main a e = Some (Exit 0, log) /\
    requested_pages log = [] /\
    writes log = [] /\
    last log (Stdout "") = Stdout "No repositories found.".
Proof.
  intros Ht Hf Hi Hle.
  destruct (search_without_room (env_net e) (limit a * 5) (max_pages a))
    as [slog [Hs [Hq Hw]]]; [lia|].
  rewrite (main_no_repos a e text m slog Ht Hf Hi Hs).
  eexists. split; [reflexivity|]. split; [|split].
  - rewrite !requested_pages_app, Hq. reflexivity.
  - rewrite !writes_app, Hw. reflexivity.
  - apply last_last.
Qed.

Lemma X18_no_room_witness :
  exists log,
    main {| token := Some "t"; limit := 0; max_pages := 10; randomize := false;
            dry_run := false; added_by := "@bot" |}
         (Samples.env_with (net_of_pages 5 Samples.two_pages))
    = Some (Exit 0, log) /\
    requested_pages log = [] /\
    writes log = [] /\
    last log (Stdout "") = Stdout "No repositories found.".
Proof.
  apply (X18_no_room_no_request
           {| token := Some "t"; limit := 0; max_pages := 10; randomize := false;
              dry_run := false; added_by := "@bot" |}
           (Samples.env_with (net_of_pages 5 Samples.two_pages))
           Samples.small_file Samples.small_manager).
  - reflexivity.
  - reflexivity.
  - reflexivity.
  - left. simpl. lia.
Defined.

(** * More about the header and the footer *)

(** ** White space at the ends of a line *)

Lemma space_prefix_length s r :
  Py.space_prefix s = Some r -> (String.length r < String.length s)%nat.
Proof.
  unfold Py.space_prefix. destruct s as [|c [|d [|e s3]]]; try discriminate;
    repeat match goal with
           | |- context [if ?b then _ else _] => destruct b
           end;
    intros H; inversion H; subst; cbn [String.length]; lia.
Qed.

Lemma space_prefix_app s r t :
  Py.space_prefix s = Some r -> Py.space_prefix (s +++ t) = Some (r +++ t).
Proof.
  unfold Py.space_prefix. destruct s as [|c [|d [|e s3]]]; try discriminate;
    cbn [String.append];
    repeat match goal with
           | |- context [if ?b then _ else _] => destruct b
           end;
    intros H; inversion H; subst; reflexivity.
Qed.

Lemma lstrip_from_enough : forall n m s,
  (String.length s <= n)%nat -> (String.length s <= m)%nat ->
  Py.lstrip_from n s = Py.lstrip_from m s.
Proof.
  induction n as [|n IH]; intros m s Hn Hm.
  - destruct s; [|cbn in Hn; lia]. now destruct m.
  - destruct m as [|m].
    + destruct s; [reflexivity|cbn in Hm; lia].
    + cbn [Py.lstrip_from]. destruct (Py.space_prefix s) as [r|] eqn:Hr; [|reflexivity].
      apply space_prefix_length in Hr. apply IH; lia.
Qed.

(** [lstrip] removes one white space character after the other. *)
Lemma lstrip_eq s :
  Py.lstrip s = match Py.space_prefix s with Some r => Py.lstrip r | None => s end.
Proof.
  unfold Py.lstrip. destruct s as [|c s]; [reflexivity|].
  cbn [String.length Py.lstrip_from].
  destruct (Py.space_prefix (String c s)) as [r|] eqn:Hr; [|reflexivity].
  apply space_prefix_length in Hr. cbn [String.length] in Hr.
  apply lstrip_from_enough; lia.
Qed.

Lemma lstrip_space c s : Py.is_space c = true -> Py.lstrip (String c s) = Py.lstrip s.
Proof. intros H. rewrite lstrip_eq. cbn [Py.space_prefix]. now rewrite H. Qed.

Lemma lstrip_plain c s :
  Py.is_space c = false -> Py.space_lead c = false ->
  Py.lstrip (String c s) = String c s.
Proof. intros H1 H2. rewrite lstrip_eq. cbn [Py.space_prefix]. now rewrite H1, H2. Qed.

Lemma lstrip_nil : Py.lstrip "" = "".
Proof. reflexivity. Qed.

(** White space before a text does not count. *)
Lemma lstrip_app_space : forall n a t,
  (String.length a <= n)%nat -> Py.lstrip a = "" -> Py.lstrip (a +++ t) = Py.lstrip t.
Proof.
  induction n as [|n IH]; intros a t Hn Ha.
  - destruct a; [reflexivity|cbn in Hn; lia].
  - rewrite lstrip_eq in Ha. destruct (Py.space_prefix a) as [r|] eqn:Hr.
    + rewrite (lstrip_eq (a +++ t)), (space_prefix_app a r t Hr).
      apply space_prefix_length in Hr. apply IH; [lia|exact Ha].
    + subst a. reflexivity.
Qed.

Lemma all_space_true s : Py.all_space s = true <-> Py.lstrip s = "".
Proof. unfold Py.all_space. apply String.eqb_eq. Qed.

Lemma rstrip_cons c s :
  Py.rstrip (String c s)
  = if Py.all_space (String c s) then "" else String c (Py.rstrip s).
Proof. reflexivity. Qed.

(** What [rstrip] removes is white space. *)
Lemma rstrip_split s : exists t, s = Py.rstrip s +++ t /\ Py.lstrip t = "".
Proof.
  induction s as [|c s [t [Hs Ht]]]; [now exists ""|].
  rewrite rstrip_cons. destruct (Py.all_space (String c s)) eqn:Ha.
  - exists (String c s). split; [reflexivity|]. now apply all_space_true.
  - exists t. split; [|exact Ht]. cbn [String.append]. now rewrite <- Hs.
Qed.

Lemma lstrip_empty_rstrip s : Py.lstrip s = "" -> Py.rstrip s = "".
Proof.
  intros H. destruct s as [|c s]; [reflexivity|].
  rewrite rstrip_cons. apply all_space_true in H. now rewrite H.
Qed.

Lemma rstrip_idem s : Py.rstrip (Py.rstrip s) = Py.rstrip s.
Proof.
  induction s as [|c s IH]; [reflexivity|].
  rewrite rstrip_cons. destruct (Py.all_space (String c s)) eqn:Ha; [reflexivity|].
  rewrite rstrip_cons, IH.
  destruct (Py.all_space (String c (Py.rstrip s))) eqn:Hb; [|reflexivity].
  apply all_space_true in Hb. destruct (rstrip_split s) as [t [Hs Ht]].
  assert (Hall : Py.lstrip (String c s) = "").
  { rewrite Hs at 1. change (String c (Py.rstrip s +++ t)) with (String c (Py.rstrip s) +++ t).
    rewrite (lstrip_app_space _ _ t (Nat.le_refl _) Hb). exact Ht. }
  apply all_space_true in Hall. congruence.
Qed.

(** A character that is no white space and does not start one stays. *)
Lemma rstrip_not_space c s :
  Py.is_space c = false -> Py.space_lead c = false ->
  Py.rstrip (String c s) = String c (Py.rstrip s).
Proof.
  intros H1 H2. rewrite rstrip_cons. unfold Py.all_space.
  now rewrite (lstrip_plain c s H1 H2).
Qed.

Lemma space_not_continuation c :
  Py.is_space c = true ->
  (forall a, Py.space2 a c = false) /\ (forall a b, Py.space3 a b c = false).
Proof.
  intros H.
  assert (Hn : (nat_of_ascii c <= 32)%nat).
  { unfold Py.is_space in H. apply orb_true_iff in H.
    destruct H as [H|H]; apply andb_true_iff in H; destruct H as [_ H];
      apply Nat.leb_le in H; lia. }
  unfold Py.space2, Py.space3, Py.byte_is. split.
  - intros a. destruct (Nat.eqb_spec (nat_of_ascii c) 133); [lia|].
    destruct (Nat.eqb_spec (nat_of_ascii c) 160); [lia|]. now rewrite andb_false_r.
  - intros a b.
    destruct (Nat.eqb_spec (nat_of_ascii c) 128); [lia|].
    destruct (Nat.eqb_spec (nat_of_ascii c) 159); [lia|].
    destruct (Nat.eqb_spec (nat_of_ascii c) 168); [lia|].
    destruct (Nat.eqb_spec (nat_of_ascii c) 169); [lia|].
    destruct (Nat.eqb_spec (nat_of_ascii c) 175); [lia|].
    destruct (Nat.leb_spec 128 (nat_of_ascii c)); [lia|].
    cbn [andb orb]. now rewrite !andb_false_r.
Qed.

Lemma space_prefix_snoc c s r :
  Py.is_space c = true ->
  Py.space_prefix (s +++ String c "") = Some r ->
  (s = "" /\ r = "") \/
  (exists r', r = r' +++ String c "" /\ Py.space_prefix s = Some r').
Proof.
  intros Hc. destruct (space_not_continuation c Hc) as [H2 H3].
  unfold Py.space_prefix. destruct s as [|a [|b [|e s3]]]; cbn [String.append].
  - rewrite Hc. intros H. inversion H. now left.
  - destruct (Py.is_space a).
    + intros H. inversion H. right. now exists "".
    + destruct (negb (Py.space_lead a)); [discriminate|]. now rewrite H2.
  - destruct (Py.is_space a).
    + intros H. inversion H. right. now exists (String b "").
    + destruct (negb (Py.space_lead a)); [discriminate|].
      destruct (Py.space2 a b).
      * intros H. inversion H. right. now exists "".
      * now rewrite H3.
  - destruct (Py.is_space a).
    + intros H. inversion H. right. now exists (String b (String e s3)).
    + destruct (negb (Py.space_lead a)); [discriminate|].
      destruct (Py.space2 a b).
      * intros H. inversion H. right. now exists (String e s3).
      * destruct (Py.space3 a b e); [|discriminate].
        intros H. inversion H. right. now exists s3.
Qed.

Lemma lstrip_snoc_space c : Py.is_space c = true -> forall n s,
  (String.length s <= n)%nat ->
  Py.lstrip (s +++ String c "") = "" -> Py.lstrip s = "".
Proof.
  intros Hc. induction n as [|n IH]; intros s Hn H.
  - destruct s; [reflexivity|cbn in Hn; lia].
  - rewrite lstrip_eq in H.
    destruct (Py.space_prefix (s +++ String c "")) as [r|] eqn:Hr.
    + destruct (space_prefix_snoc c s r Hc Hr) as [[-> _]|[r' [-> Hr']]]; [reflexivity|].
      rewrite lstrip_eq, Hr'. apply space_prefix_length in Hr'. apply IH; [lia|exact H].
    + destruct s; discriminate.
Qed.

Lemma all_space_snoc c s :
  Py.is_space c = true ->
  Py.all_space (s +++ String c "") = Py.all_space s.
Proof.
  intros Hc. destruct (Py.all_space s) eqn:Hs.
  - apply all_space_true. apply all_space_true in Hs.
    rewrite (lstrip_app_space _ _ _ (Nat.le_refl _) Hs).
    rewrite lstrip_space by exact Hc. reflexivity.
  - destruct (Py.all_space (s +++ String c "")) eqn:Ht; [|reflexivity].
    apply all_space_true in Ht.
    apply (lstrip_snoc_space c Hc _ _ (Nat.le_refl _)) in Ht.
    apply all_space_true in Ht. congruence.
Qed.

Lemma rstrip_app_space s c :
  Py.is_space c = true -> Py.rstrip (s +++ String c "") = Py.rstrip s.
Proof.
  intros Hc. induction s as [|a s IH].
  - cbn [String.append]. rewrite rstrip_cons.
    replace (Py.all_space (String c "")) with true; [reflexivity|].
    symmetry. apply all_space_true. now rewrite lstrip_space.
  - change (String a s +++ String c "") with (String a (s +++ String c "")).
    rewrite !rstrip_cons, IH.
    change (String a (s +++ String c "")) with (String a s +++ String c "").
    now rewrite all_space_snoc.
Qed.

Lemma has_char_rstrip c s : has_char c (Py.rstrip s) = true -> has_char c s = true.
Proof.
  induction s as [|a s IH]; [discriminate|].
  rewrite rstrip_cons. destruct (Py.all_space (String a s)); [discriminate|].
  cbn [has_char]. intros H. apply orb_true_iff in H. destruct H as [H|H].
  - now rewrite H.
  - rewrite (IH H). apply orb_true_r.
Qed.

Lemma has_char_app c s1 s2 :
  has_char c (s1 +++ s2) = (has_char c s1 || has_char c s2)%bool.
Proof.
  induction s1 as [|a s1 IH]; [reflexivity|].
  cbn [String.append has_char]. now rewrite IH, orb_assoc.
Qed.

Lemma is_space_nl : Py.is_space Py.nl = true.
Proof. reflexivity. Qed.

(** ** The lines of a text *)

Lemma lines_from_line h rest : forall cur,
  has_char Py.nl h = false ->
  Py.lines_from cur (h +++ NL +++ rest) = (cur +++ h +++ NL) :: Py.lines_from "" rest.
Proof.
  induction h as [|c h IH]; intros cur Hh.
  - cbn [String.append NL Py.chr Py.lines_from]. rewrite Ascii.eqb_refl. reflexivity.
  - cbn [has_char] in Hh. apply orb_false_iff in Hh. destruct Hh as [Hc Hh].
    cbn [String.append Py.lines_from]. rewrite Hc, (IH _ Hh).
    unfold Py.chr. now rewrite append_assoc.
Qed.

Lemma lines_from_head s : forall c cur,
  exists x tl, Py.lines_from (String c cur) s = String c x :: tl.
Proof.
  induction s as [|a s IH]; intros c cur.
  - exists cur, []. reflexivity.
  - cbn [Py.lines_from]. destruct (Ascii.eqb a Py.nl).
    + eexists. eexists. cbn [String.append]. reflexivity.
    + cbn [String.append]. apply IH.
Qed.

(** A line of a file holds no line feed but at its end. *)
Lemma lines_from_no_nl s : forall cur line,
  has_char Py.nl cur = false ->
  In line (Py.lines_from cur s) ->
  has_char Py.nl (Py.rstrip line) = false.
Proof.
  induction s as [|c s IH]; intros cur line Hcur Hin.
  - cbn [Py.lines_from] in Hin. destruct cur as [|a cur]; [contradiction|].
    destruct Hin as [<-|[]].
    destruct (has_char Py.nl (Py.rstrip (String a cur))) eqn:H; [|reflexivity].
    apply has_char_rstrip in H. congruence.
  - cbn [Py.lines_from] in Hin. destruct (Ascii.eqb c Py.nl) eqn:Hc.
    + destruct Hin as [<-|Hin].
      * unfold Py.chr. rewrite rstrip_app_space by reflexivity.
        destruct (has_char Py.nl (Py.rstrip cur)) eqn:H; [|reflexivity].
        apply has_char_rstrip in H. congruence.
      * now apply (IH "" line).
    + apply (IH (cur +++ Py.chr c) line); [|exact Hin].
      rewrite has_char_app, Hcur. unfold Py.chr. cbn [has_char]. now rewrite Hc.
Qed.

(** ** The lines of the header *)

Import LineSpec.

Lemma truthy_false_empty s : Py.truthy s = false -> s = "".
Proof.
  unfold Py.truthy. intros H. apply negb_false_iff in H. now apply String.eqb_eq in H.
Qed.

Lemma readlines_kept text line :
  In line (Py.readlines text) -> kept_line (Py.rstrip line).
Proof.
  intros Hin. split; [apply rstrip_idem|].
  now apply (lines_from_no_nl text "" line).
Qed.

Lemma header_region_lines_In lines line :
  In line (header_region_lines lines) -> In line lines /\ is_header_line line = true.
Proof.
  induction lines as [|l lines IH]; [contradiction|].
  cbn [header_region_lines]. destruct (is_header_line l) eqn:Hl; [|contradiction].
  intros [<-|Hin]; [split; [now left|exact Hl]|].
  destruct (IH Hin) as [H1 H2]. split; [now right|exact H2].
Qed.

Lemma header_line_like line :
  is_header_line line = true -> header_like (Py.rstrip line).
Proof.
  unfold is_header_line, Py.strip, header_like. intros H.
  apply orb_true_iff in H. destruct H as [H|H].
  - right. exact H.
  - left. apply negb_true_iff in H. apply truthy_false_empty in H.
    apply lstrip_empty_rstrip in H. now rewrite rstrip_idem in H.
Qed.

Lemma extract_header_shape text l :
  In l (_extract_header text) -> kept_line l /\ header_like l.
Proof.
  unfold _extract_header. rewrite extract_header_lines_region.
  intros Hin. apply in_map_iff in Hin. destruct Hin as [line [<- Hin]].
  apply header_region_lines_In in Hin. destruct Hin as [Hin Hh].
  split; [now apply (readlines_kept text)|now apply header_line_like].
Qed.

(** X19. The header [_extract_header] keeps is made of the lines the file
    starts with that are blank or comments, up to the first line that is
    neither; each is kept without its line feed and without white space at
    its end, so a blank line is kept as the empty string. *)
Theorem X19_header_lines_are_comments_or_empty (text : string) :
  _extract_header text = map Py.rstrip (header_region_lines (Py.readlines text)) /\
  (forall l, In l (_extract_header text) -> kept_line l /\ header_like l) /\
  (forall line rest,
     Py.readlines text = line :: rest -> is_header_line line = false ->
     _extract_header text = []).
Proof.
  split; [apply extract_header_lines_region|]. split; [apply extract_header_shape|].
  intros line rest Hl Hh. unfold _extract_header.
  rewrite extract_header_lines_region, Hl. cbn [header_region_lines]. now rewrite Hh.
Qed.

(** ** The header of the text written *)

Lemma kept_header_line h :
  kept_line h -> header_like h ->
  is_header_line (h +++ NL) = true /\ Py.rstrip (h +++ NL) = h.
Proof.
  intros [Hr _] Hlike.
  assert (Hrs : Py.rstrip (h +++ NL) = h)
    by (unfold NL, Py.chr; rewrite rstrip_app_space by reflexivity; exact Hr).
  split; [|exact Hrs].
  unfold is_header_line, Py.strip. rewrite Hrs.
  destruct Hlike as [->|Hc]; [reflexivity|]. now rewrite Hc.
Qed.

Lemma extract_header_saved rest : forall H,
  Forall (fun h => kept_line h /\ header_like h) H ->
  extract_header_lines (Py.lines_from "" (write_lines H +++ rest))
  = H ++ extract_header_lines (Py.lines_from "" rest).
Proof.
  induction H as [|h H IH]; intros Hall; [reflexivity|].
  inversion Hall as [|? ? [Hk Hl] Hall']; subst.
  cbn [write_lines fold_right]. fold (write_lines H).
  rewrite !append_assoc, (lines_from_line h _ "" (proj2 Hk)).
  cbn [String.append extract_header_lines].
  destruct (kept_header_line h Hk Hl) as [Hh Hr].
  unfold is_header_line in Hh. rewrite Hh, Hr, (IH Hall'). reflexivity.
Qed.

Lemma extract_header_version rest :
  extract_header_lines (Py.lines_from "" ("version: " +++ rest)) = [].
Proof.
  destruct (lines_from_head ("ersion: " +++ rest) "v"%char "") as [x [tl Hx]].
  change (Py.lines_from "" ("version: " +++ rest))
    with (Py.lines_from "v" ("ersion: " +++ rest)).
  rewrite Hx. cbn [extract_header_lines]. unfold Py.strip.
  rewrite rstrip_not_space by reflexivity.
  change (Py.lstrip (String "v" (Py.rstrip x))) with (String "v" (Py.rstrip x)).
  change (Py.startswith (String "v" (Py.rstrip x)) "#") with false.
  change (Py.truthy (String "v" (Py.rstrip x))) with true.
  cbn [orb negb]. now destruct (Py.startswith _ _).
Qed.

Lemma extract_header_of_saved m :
  Forall (fun h => kept_line h /\ header_like h) (header_lines m) ->
  _extract_header (save_text m) = header_after_save (header_lines m).
Proof.
  intros Hall. unfold _extract_header, Py.readlines.
  rewrite save_text_frame, (extract_header_saved _ _ Hall).
  unfold middle_text, header_after_save.
  destruct (header_lines m) as [|h hs]; cbn [has_lines].
  - cbn [String.append app]. rewrite !append_assoc. apply extract_header_version.
  - f_equal. rewrite !append_assoc.
    change (NL +++ "version: " +++
            version_text (cfg m) +++
            NL +++ NL +++ "feeds:" +++ NL +++
            write_feeds 0
              (Z.of_nat (length match feeds (cfg m) with Some l => l | None => [] end))
              match feeds (cfg m) with Some l => l | None => [] end +++
            (if has_lines (footer_lines m) then NL +++ NL +++ NL else "") +++
            write_lines (footer_lines m))
      with ("" +++ NL +++ "version: " +++
            version_text (cfg m) +++
            NL +++ NL +++ "feeds:" +++ NL +++
            write_feeds 0
              (Z.of_nat (length match feeds (cfg m) with Some l => l | None => [] end))
              match feeds (cfg m) with Some l => l | None => [] end +++
            (if has_lines (footer_lines m) then NL +++ NL +++ NL else "") +++
            write_lines (footer_lines m)).
    rewrite (lines_from_line "" _ "" eq_refl).
    cbn [extract_header_lines]. rewrite extract_header_version. reflexivity.
Qed.

(** X20. Saving puts one blank line after the header, and this line is read
    as a line of the header: the header extracted from the text written
    after a load and any number of [add_feed] is the header extracted at the
    load with one empty line more; a file without header is written without
    one. *)
Theorem X20_header_gains_a_blank_line
    (safe_load : string -> option config) (path text : string) (m0 : FeedManager.t)
    (rs : list repo) (by1 today : string) :
  init safe_load path text = Some m0 ->
  _extract_header (save_text (add_feeds m0 rs by1 today))
  = header_after_save (_extract_header text).
Proof.
  intros Hinit. unfold init in Hinit.
  destruct (safe_load text) as [c|]; [|discriminate]. inversion Hinit; subst m0.
  destruct (add_feeds_frame rs by1 today
              (mk path c (_extract_header text) (_extract_footer text))) as [Hh _].
  cbn [header_lines] in Hh.
  rewrite extract_header_of_saved; rewrite Hh; [reflexivity|].
  apply Forall_forall. intros l Hl. now apply (extract_header_shape text).
Qed.

Lemma X20_header_witness :
  _extract_header
    (save_text (add_feeds (mk "config/feeds.yaml" Samples.small_config
                             (_extract_header Samples.framed_file)
                             (_extract_footer Samples.framed_file))
                  [Samples.sample_repo] "@bot" "2025-01-01"))
  = header_after_save (_extract_header Samples.framed_file).
Proof.
  apply (X20_header_gains_a_blank_line (fun _ => Some Samples.small_config)
           "config/feeds.yaml" Samples.framed_file _ [Samples.sample_repo]
           "@bot" "2025-01-01").
  reflexivity.
Defined.

(** ** The footer *)

Lemma footer_region_lines_incl lines line :
  In line (footer_region_lines lines) -> In line lines.
Proof.
  induction lines as [|l lines IH]; [contradiction|].
  cbn [footer_region_lines]. destruct (is_footer_start l).
  - intros H. exact H.
  - intros H. right. now apply IH.
Qed.

Lemma footer_region_lines_split pre line rest :
  (forall l, In l pre -> is_footer_start l = false) ->
  is_footer_start line = true ->
  footer_region_lines (pre ++ line :: rest) = line :: rest.
Proof.
  induction pre as [|p pre IH]; intros Hpre Hline.
  - cbn [app footer_region_lines]. now rewrite Hline.
  - cbn [app footer_region_lines]. rewrite (Hpre p) by now left.
    apply IH; [|exact Hline]. intros l Hl. apply Hpre. now right.
Qed.

Lemma footer_region_lines_nil lines :
  footer_region_lines lines = [] <->
  (forall line, In line lines -> is_footer_start line = false).
Proof.
  induction lines as [|l lines IH]; [split; [intros _ ? []|reflexivity]|].
  cbn [footer_region_lines]. destruct (is_footer_start l) eqn:Hl.
  - split; [discriminate|]. intros H. rewrite (H l) in Hl by now left. discriminate.
  - rewrite IH. split.
    + intros H line [<-|Hin]; [exact Hl|now apply H].
    + intros H line Hin. apply H. now right.
Qed.

Lemma footer_region_lines_head lines l ls :
  footer_region_lines lines = l :: ls -> is_footer_start l = true.
Proof.
  induction lines as [|x lines IH]; [discriminate|].
  cbn [footer_region_lines]. destruct (is_footer_start x) eqn:Hx.
  - intros H. inversion H; subst. exact Hx.
  - exact IH.
Qed.

(** X21. The footer runs from the first line that opens it to the end of
    the file: every later line is kept, whatever it holds, without the white
    space at its end.  It is empty exactly when no line of the file opens
    it, and its first line is a comment [# Validation configuration] or a
    key [validation:]. *)
Theorem X21_footer_runs_to_the_end (text : string) :
  (forall pre line rest,
     Py.readlines text = pre ++ line :: rest ->
     (forall l, In l pre -> is_footer_start l = false) ->
     is_footer_start line = true ->
     _extract_footer text = map Py.rstrip (line :: rest)) /\
  (_extract_footer text = [] <->
   forall line, In line (Py.readlines text) -> is_footer_start line = false) /\
  (forall l ls, _extract_footer text = l :: ls -> footer_opening l) /\
  (forall l, In l (_extract_footer text) -> kept_line l).
Proof.
  unfold _extract_footer. rewrite extract_footer_lines_region.
  split; [|split; [|split]].
  - intros pre line rest Hlines Hpre Hline.
    now rewrite Hlines, (footer_region_lines_split pre line rest Hpre Hline).
  - rewrite <- footer_region_lines_nil.
    destruct (footer_region_lines (Py.readlines text)); [tauto|].
    split; discriminate.
  - intros l ls H.
    destruct (footer_region_lines (Py.readlines text)) as [|x xs] eqn:Hr; [discriminate|].
    cbn [map] in H. inversion H; subst.
    apply footer_region_lines_head in Hr. unfold is_footer_start, Py.strip in Hr.
    apply orb_true_iff in Hr. exact Hr.
  - intros l Hin. apply in_map_iff in Hin. destruct Hin as [line [<- Hin]].
    apply footer_region_lines_incl in Hin. now apply (readlines_kept text).
Qed.

(** * More about the selection step *)

Lemma insert_by_stars_filter s x : forall l,
  filter (fun r => stars r =? s) (insert_by_stars x l)
  = if stars x =? s then x :: filter (fun r => stars r =? s) l
    else filter (fun r => stars r =? s) l.
Proof.
  induction l as [|y ys IH]; [reflexivity|].
  cbn [insert_by_stars]. destruct (stars y >? stars x) eqn:Hc.
  - cbn [filter]. rewrite IH.
    destruct (stars x =? s) eqn:Hx; [|reflexivity].
    apply Z.eqb_eq in Hx. rewrite Z.gtb_ltb in Hc. apply Z.ltb_lt in Hc.
    replace (stars y =? s) with false by (symmetry; apply Z.eqb_neq; lia).
    reflexivity.
  - reflexivity.
Qed.

(** The sort is stable: candidates with the same stars keep their order. *)
Lemma sort_by_stars_stable s l :
  filter (fun r => stars r =? s) (sort_by_stars l) = filter (fun r => stars r =? s) l.
Proof.
  induction l as [|x l IH]; [reflexivity|].
  cbn [sort_by_stars fold_right]. fold (sort_by_stars l).
  rewrite insert_by_stars_filter. cbn [filter]. now rewrite IH.
Qed.

(** X22. The selection by stars, for any candidates and any limit that is
    not negative: it returns [limit] candidates, or all of them when they
    are fewer, in descending order of stars; no candidate left out has more
    stars than a selected one; and among candidates with the same stars the
    ones found first by the search are selected first, in the order of the
    search. *)
Theorem X22_selection_breaks_ties_by_order
    (shuffle : list repo -> list repo) (repos : list repo) (limit : Z) :
  0 <= limit ->
  let top := select shuffle false limit repos in
  Z.of_nat (length top) = Z.min limit (Z.of_nat (length repos)) /\
  StronglySorted stars_ge top /\
  (exists rest,
     Permutation (top ++ rest) repos /\
     forall r r', In r top -> In r' rest -> stars r' <= stars r) /\
  (forall s, exists later,
     filter (fun r => stars r =? s) repos
     = filter (fun r => stars r =? s) top ++ later).
Proof.
  intros Hlimit top. subst top. unfold select. rewrite slice_to_firstn by exact Hlimit.
  pose proof (sort_by_stars_perm repos) as Hperm.
  pose proof (sort_by_stars_sorted repos) as Hsorted.
  rewrite <- (firstn_skipn (Z.to_nat limit) (sort_by_stars repos)) in Hsorted.
  destruct (sorted_split _ _ _ Hsorted) as [Htop Hcross].
  split; [|split; [|split]].
  - rewrite length_firstn, <- (Permutation_length Hperm). lia.
  - exact Htop.
  - exists (skipn (Z.to_nat limit) (sort_by_stars repos)). split.
    + rewrite firstn_skipn. now apply Permutation_sym.
    + intros r r' Hr Hr'. specialize (Hcross r r' Hr Hr'). unfold stars_ge in Hcross. lia.
  - intros s.
    exists (filter (fun r => stars r =? s) (skipn (Z.to_nat limit) (sort_by_stars repos))).
    rewrite <- filter_app, firstn_skipn. symmetry. apply sort_by_stars_stable.
Qed.

Lemma X22_selection_witness :
  let top := select (fun l => l) false 2 Samples.candidates in
  Z.of_nat (length top) = Z.min 2 (Z.of_nat (length Samples.candidates)) /\
  StronglySorted stars_ge top /\
  (exists rest,
     Permutation (top ++ rest) Samples.candidates /\
     forall r r', In r top -> In r' rest -> stars r' <= stars r) /\
  (forall s, exists later,
     filter (fun r => stars r =? s) Samples.candidates
     = filter (fun r => stars r =? s) top ++ later).
Proof.
  apply (X22_selection_breaks_ties_by_order (fun l => l) Samples.candidates 2). lia.
Defined.

(** * The footer of the text written *)

Import SavedSpec.




























(** ** Carriage returns *)










(** * What the search reports *)

Import ReportSpec.

Lemma stderr_lines_app l1 l2 :
  stderr_lines (l1 ++ l2) = stderr_lines l1 ++ stderr_lines l2.
Proof. unfold stderr_lines. apply flat_map_app. Qed.

Lemma error_reports_app l1 l2 :
  error_reports (l1 ++ l2) = error_reports l1 ++ error_reports l2.
Proof. unfold error_reports. now rewrite stderr_lines_app, filter_app. Qed.

Lemma startswith_app p x : Py.startswith (p +++ x) p = true.
Proof.
  unfold Py.startswith. induction p as [|c p IH].
  - now destruct x.
  - cbn [String.append String.prefix]. destruct (ascii_dec c c); [exact IH|congruence].
Qed.

Lemma error_reports_failure p e :
  error_reports [Stderr (failure_report p e)] = [failure_report p e].
Proof.
  unfold error_reports, failure_report. cbn [stderr_lines flat_map app filter].
  now rewrite startswith_app.
Qed.

Lemma make_request_answered net p u r :
  net p true = inr r -> _make_request net p u = (inr r, [UrlOpen p u true]).
Proof. intros H. unfold _make_request. now rewrite H. Qed.

Lemma make_request_reports net p u :
  error_reports (snd (_make_request net p u)) = [].
Proof.
  unfold _make_request.
  destruct (net p true) as [[code msg body|reason|text]|r]; try reflexivity.
  destruct (Py.contains _ _); reflexivity.
Qed.

Lemma search_loop_step_report fuel net max_repos max_pages repos page log :
  loop_test max_repos max_pages repos page = true ->
  exists evs,
    requested_pages evs = [page] /\
    error_reports evs = expected_reports net [page] /\
    ((exists r, net page true = inr r) -> stderr_lines evs = []) /\
    match page_items net page with
    | None =>
        search_loop (S fuel) net max_repos max_pages repos page log
        = Some (repos, log ++ evs)
    | Some l =>
        search_loop (S fuel) net max_repos max_pages repos page log
        = search_loop fuel net max_repos max_pages
            (scan_items l repos max_repos) (page + 1) (log ++ evs)
    end.
Proof.
  unfold loop_test. intros H. cbn [search_loop]. rewrite H.
  unfold page_items, expected_reports, request. cbn [flat_map]. rewrite app_nil_r.
  destruct (make_request_events net page (page_url page)) as [Hr _].
  pose proof (make_request_reports net page (page_url page)) as Hq.
  assert (Ha : forall r, net page true = inr r ->
                 _make_request net page (page_url page)
                 = (inr r, [UrlOpen page (page_url page) true]))
    by (intros r; apply make_request_answered).
  destruct (_make_request net page (page_url page)) as [[e|res] evs]; cbn [fst snd] in *.
  - eexists (evs ++ [_]). split; [|split; [|split]]; [| | |reflexivity].
    + now rewrite requested_pages_app, Hr.
    + rewrite error_reports_app, Hq. apply error_reports_failure.
    + intros [r Hnet]. specialize (Ha r Hnet). discriminate.
  - destruct (items res) as [[|it its]|];
      (eexists (evs ++ _ ++ _); split; [|split; [|split]]; [| | |reflexivity];
       [rewrite !requested_pages_app, Hr; destruct (page =? 1); reflexivity
       |rewrite !error_reports_app, Hq; destruct (page =? 1); reflexivity
       |intros [r Hnet]; specialize (Ha r Hnet); inversion Ha; subst;
        destruct (page =? 1); reflexivity]).
Qed.

Lemma expected_reports_cons net p pages :
  expected_reports net (p :: pages)
  = expected_reports net [p] ++ expected_reports net pages.
Proof. unfold expected_reports. cbn [flat_map]. now rewrite app_nil_r. Qed.

Lemma expected_reports_one net p : (length (expected_reports net [p]) <= 1)%nat.
Proof.
  unfold expected_reports. cbn [flat_map]. destruct (request net p); cbn; lia.
Qed.

Lemma expected_reports_good net p l :
  page_items net p = Some l -> expected_reports net [p] = [].
Proof.
  unfold page_items, expected_reports. cbn [flat_map].
  destruct (request net p); [discriminate|reflexivity].
Qed.

Lemma search_loop_reports net max_repos max_pages : forall fuel repos page log R log',
  search_loop fuel net max_repos max_pages repos page log = Some (R, log') ->
  exists pages,
    requested_pages log' = requested_pages log ++ pages /\
    error_reports log' = error_reports log ++ expected_reports net pages /\
    (length (expected_reports net pages) <= 1)%nat /\
    ((forall p, In p pages -> exists r, net p true = inr r) ->
     stderr_lines log' = stderr_lines log).
Proof.
  induction fuel as [|fuel IH]; intros repos page log R log' Hrun;
    destruct (loop_test max_repos max_pages repos page) eqn:Ht.
  - unfold loop_test in Ht. simpl in Hrun. rewrite Ht in Hrun. discriminate.
  - rewrite (search_loop_stop _ _ _ _ _ _ _ Ht) in Hrun. inversion Hrun; subst R log'.
    exists []. unfold expected_reports. cbn [flat_map length]. rewrite !app_nil_r.
    repeat split; auto.
  - destruct (search_loop_step_report fuel net _ _ _ _ log Ht)
      as [evs [Hr [He [Hq Hstep]]]].
    destruct (page_items net page) as [l|] eqn:Hpi.
    + rewrite Hstep in Hrun.
      destruct (IH _ _ _ _ _ Hrun) as [pages [Hp [Hrep [Hlen Hquiet]]]].
      pose proof (expected_reports_good net page l Hpi) as Hnone.
      exists (page :: pages). split; [|split; [|split]].
      * now rewrite Hp, requested_pages_app, Hr, <- app_assoc.
      * rewrite Hrep, error_reports_app, He, (expected_reports_cons net page pages),
          <- app_assoc.
        reflexivity.
      * rewrite (expected_reports_cons net page pages), Hnone. exact Hlen.
      * intros Hall. rewrite Hquiet by (intros p Hin; apply Hall; now right).
        rewrite stderr_lines_app, Hq by (apply Hall; now left). apply app_nil_r.
    + rewrite Hstep in Hrun. inversion Hrun; subst R log'.
      exists [page]. split; [|split; [|split]].
      * now rewrite requested_pages_app, Hr.
      * now rewrite error_reports_app, He.
      * apply expected_reports_one.
      * intros Hall. rewrite stderr_lines_app, Hq by (apply Hall; now left).
        apply app_nil_r.
  - rewrite (search_loop_stop _ _ _ _ _ _ _ Ht) in Hrun. inversion Hrun; subst R log'.
    exists []. unfold expected_reports. cbn [flat_map length]. rewrite !app_nil_r.
    repeat split; auto.
Qed.

(** X24. No failed request is silent, and nothing else is reported as one:
    the lines [Error on page ...] of the error stream are one line for each
    requested page whose request raised, with the page and the text of the
    exception, and there is at most one of them.  When every requested page
    is answered at the first attempt the error stream stays empty.  The last
    line of the output gives the number of records returned. *)
Theorem X24_failed_requests_are_reported (net : network) (max_repos max_pages : Z) :
  exists out log,
    search_repos_with_cook_files net max_repos max_pages = Some (out, log) /\
    error_reports log = expected_reports net (requested_pages log) /\
    (length (error_reports log) <= 1)%nat /\
    ((forall p, In p (requested_pages log) -> exists r, net p true = inr r) ->
     stderr_lines log = []) /\
    last log (Stdout "") = found_line (length out).
Proof.
  unfold search_repos_with_cook_files.
  destruct (search_loop_result net max_repos max_pages (Z.to_nat max_pages) [] 1
              [Stdout "Searching GitHub with query: extension:cook"])
    as [log0 [Hrun _]]; [lia|simpl; lia|].
  destruct (search_loop_reports _ _ _ _ _ _ _ _ _ Hrun) as [pages [Hp [Hrep [Hlen Hquiet]]]].
  cbn [requested_pages flat_map app] in Hp.
  change (error_reports [Stdout "Searching GitHub with query: extension:cook"])
    with (@nil string) in Hrep.
  change (stderr_lines [Stdout "Searching GitHub with query: extension:cook"])
    with (@nil string) in Hquiet.
  cbn [app] in Hrep.
  rewrite Hrun. eexists. eexists. split; [reflexivity|].
  rewrite requested_pages_app, error_reports_app, stderr_lines_app, Hp, Hrep.
  cbn [requested_pages error_reports stderr_lines flat_map filter app].
  rewrite !app_nil_r. split; [reflexivity|]. split; [exact Hlen|]. split.
  - exact Hquiet.
  - rewrite last_last, length_map. reflexivity.
Qed.
